(** * Cell widgets of [packages/cells/src/widget.ts]

    A shallow embedding of the cell widgets ([Cell], [CodeCell],
    [MarkdownCell], [RawCell]) together with the parts of their collaborators
    that the widgets drive: the datastore record of a cell, the layouts of the
    input and output wrappers, the input prompt, the kernel future held by the
    output area and the markdown renderer.

    The widgets are stateful objects.  Their state is threaded explicitly
    through a [World]: the private fields of the widget, the datastore record
    it refers to, and the trace of the calls it made to its collaborators. *)

From Stdlib Require Import ZArith NArith String Ascii List Bool Lia DecimalString.
From stdpp Require Import base gmap strings list.

Import ListNotations.
Local Open Scope string_scope.
Local Open Scope list_scope.

(** ** JavaScript strings

    A JavaScript string is a sequence of UTF-16 code units.  Object keys and
    field names are plain ASCII in this file and are kept as [string]. *)

Abbreviation jsstring := (list N).

Fixpoint js (s : string) : jsstring :=
  match s with
  | EmptyString => []
  | String a r => N_of_ascii a :: js r
  end.

(** [WhiteSpace] and [LineTerminator] code units of ECMAScript, the ones
    [String.prototype.trim] removes. *)
Definition is_white (c : N) : bool :=
  existsb (N.eqb c)
    [9; 10; 11; 12; 13; 32; 160; 5760; 8232; 8233; 8239; 8287; 12288; 65279]%N
  || ((8192 <=? c)%N && (c <=? 8202)%N).

Fixpoint trimStart (s : jsstring) : jsstring :=
  match s with
  | [] => []
  | c :: r => if is_white c then trimStart r else s
  end.

Definition trimEnd (s : jsstring) : jsstring := rev (trimStart (rev s)).

Definition trim (s : jsstring) : jsstring := trimEnd (trimStart s).

(** Truthiness of a string: only the empty string is falsy. *)
Definition nonempty (s : jsstring) : bool :=
  match s with [] => false | _ => true end.

(** [Number.isSafeInteger]: the integers a JavaScript number holds
    exactly, up to [Number.MAX_SAFE_INTEGER]. *)
Definition MAX_SAFE_INTEGER : Z := 2 ^ 53 - 1.

Definition is_safe_integer (n : Z) : bool := (Z.abs n <=? MAX_SAFE_INTEGER)%Z.

(** The template literal [`${n}`] of a safe integer: its digits in decimal,
    after a minus sign if it is negative.  A number beyond the safe integers
    is printed from its seventeen significant digits, and in exponent form
    from [1e21]; that is not modelled, and what is proved of the digits of a
    prompt is proved of safe integers. *)
Definition number_to_string (n : Z) : jsstring :=
  js (NilZero.string_of_int (Z.to_int n)).

(** ** JSON values *)

#[warnings="-register-all"]
Inductive JSONValue : Type :=
| JNull
| JBool (b : bool)
| JNumber (n : Z)
| JString (s : jsstring)
| JArray (items : list JSONValue)
| JObject (members : list (string * JSONValue)).

(** JavaScript truthiness of a JSON value. *)
Definition truthy (v : JSONValue) : bool :=
  match v with
  | JNull => false
  | JBool b => b
  | JNumber n => negb (n =? 0)%Z
  | JString s => nonempty s
  | JArray _ | JObject _ => true
  end.

(** [obj[key]] used as a condition: a missing key reads [undefined]. *)
Definition truthy_at (m : gmap string JSONValue) (key : string) : bool :=
  match m !! key with
  | Some v => truthy v
  | None => false
  end.

(** [obj[key] === false]. *)
Definition is_false_at (m : gmap string JSONValue) (key : string) : bool :=
  match m !! key with
  | Some (JBool false) => true
  | _ => false
  end.

(** [obj[key] === undefined]. *)
Definition is_undefined_at (m : gmap string JSONValue) (key : string) : bool :=
  match m !! key with
  | None => true
  | Some _ => false
  end.

(** ** The datastore record of a cell ([ICellData]) *)

Abbreviation Output := JSONValue (only parsing).

Record CellRecord : Type := mkRecord {
  record : jsstring;                      (* the record id *)
  text : jsstring;                        (* the editor model's value *)
  metadata : gmap string JSONValue;
  executionCount : option Z;              (* [None] is [null] *)
  trusted : bool;
  outputs : list Output
}.

(** A change of a map field as delivered to listeners: the previous and the
    current value of every key written, [JNull] standing for an absent or a
    removed key. *)
Record MapChange : Type := mkMapChange {
  previous : gmap string JSONValue;
  current : gmap string JSONValue
}.

(** A change of a register field. *)
Record RegisterChange : Type := mkRegisterChange {
  reg_previous : option Z;
  reg_current : option Z
}.

(** The changes gathered by one transaction, per listened field. *)
Record Changes : Type := mkChanges {
  metadata_change : option MapChange;
  executionCount_change : option RegisterChange
}.

Definition no_changes : Changes := mkChanges None None.

(** ** Widgets, futures, messages *)

Inductive Widget : Type :=
| InputCollapser | InputArea | InputPlaceholder
| OutputCollapser | OutputArea | OutputPlaceholder.

#[global] Instance Widget_eq_dec : EqDecision Widget.
Proof. solve_decision. Defined.

Inductive Wrapper : Type := InputWrapper | OutputWrapper.

(** A kernel future is compared by identity only. *)
Definition Future : Type := nat.

(** A kernel as it answers one request: [requestExecute] is the future it
    returns for it.  The kernel of the source returns a new future for every
    request; two requests are two values of [Kernel] here, also when they
    go through one session, and their futures are different. *)
Record Kernel : Type := mkKernel {
  requestExecute : Future   (* the future the kernel hands out for the request *)
}.

Record IClientSession : Type := mkSession {
  kernel : option Kernel
}.

(** The reply to an execute request.  Its [execution_count] is of type
    [nbformat.ExecutionCount], a number or [null]; a reply without the field
    is not of that type and is not modelled. *)
Record ExecuteReplyMsg : Type := mkReply {
  execution_count : option Z;
  status : jsstring
}.

Record Error : Type := mkError {
  name : jsstring;
  message : jsstring
}.

(** A mime bundle: mime type and payload. *)
Abbreviation MimeModel := (list (string * jsstring)) (only parsing).

(** ** Calls made to collaborators *)

Inductive Event : Type :=
| TxBegin                                        (* withTransaction: open *)
| TxEnd                                          (* withTransaction: commit *)
| UpdateMetadata (key : string) (v : option JSONValue)
| UpdateExecutionCount (n : option Z)
| UpdateTrusted (b : bool)
| ClearOutputs                                   (* OutputAreaData.clear *)
| SetPrompt (s : jsstring)                       (* InputArea.setPrompt *)
| Detach (p : Wrapper) (c : Widget)              (* parent = null, removeWidget *)
| Attach (p : Wrapper) (c : Widget)              (* layout.addWidget *)
| Show (p : Wrapper)
| Hide (p : Wrapper)
| UpdateRequest                                  (* Widget.update *)
| EditorRefresh
| RequestExecute (code : jsstring) (md : gmap string JSONValue) (f : Future)
| CreateRenderer (mime : string)
| RenderModel (model : list (string * jsstring))
| RenderInput
| ShowEditor.

(** ** Widget state *)

(** Private fields of [Cell]. *)
Record Cell : Type := mkCell {
  _readOnly : bool;
  _inputHidden : bool;
  _syncCollapse : bool;
  _syncEditable : bool;
  _inputWrapper : list Widget;   (* widgets of the input wrapper, in order *)
  prompt : jsstring              (* prompt shown by the input area *)
}.

(** Private fields added by [CodeCell]. *)
Record CodeCell : Type := mkCodeCell {
  _outputHidden : bool;
  _outputsScrolled : option bool;        (* declared without initialiser *)
  _syncScrolled : bool;
  _savingMetadata : bool;
  _outputWrapper : list Widget;          (* widgets of the output wrapper *)
  _outputWrapper_isHidden : bool;
  future : option Future                 (* outputArea.future *)
}.

(** Private fields added by [MarkdownCell]. *)
Record MarkdownCell : Type := mkMarkdownCell {
  _rendered : bool;
  _prevText : jsstring;
  _renderer : bool                       (* whether the renderer exists *)
}.

Inductive Subclass : Type :=
| RawCell
| Markdown (m : MarkdownCell)
| Code (c : CodeCell).

Record World : Type := mkWorld {
  cell : Cell;
  sub : Subclass;
  data : CellRecord;
  tx : Changes;            (* changes gathered by the open transaction *)
  trace : list Event
}.

(** Field updates. *)

Definition with_cell (f : Cell -> Cell) (w : World) : World :=
  mkWorld (f (cell w)) (sub w) (data w) (tx w) (trace w).

Definition with_data (f : CellRecord -> CellRecord) (w : World) : World :=
  mkWorld (cell w) (sub w) (f (data w)) (tx w) (trace w).

Definition with_tx (f : Changes -> Changes) (w : World) : World :=
  mkWorld (cell w) (sub w) (data w) (f (tx w)) (trace w).

Definition log (e : Event) (w : World) : World :=
  mkWorld (cell w) (sub w) (data w) (tx w) (trace w ++ [e]).

(** The [CodeCell] fields of [this]; the field initialisers when the widget
    is not a code cell. *)
Definition codeCell (w : World) : CodeCell :=
  match sub w with
  | Code c => c
  | _ => mkCodeCell false None false false [] false None
  end.

Definition with_codeCell (f : CodeCell -> CodeCell) (w : World) : World :=
  match sub w with
  | Code c => mkWorld (cell w) (Code (f c)) (data w) (tx w) (trace w)
  | _ => w
  end.

(** The [MarkdownCell] fields of [this]. *)
Definition markdownCell (w : World) : MarkdownCell :=
  match sub w with
  | Markdown m => m
  | _ => mkMarkdownCell true [] false
  end.

Definition with_markdownCell (f : MarkdownCell -> MarkdownCell) (w : World) : World :=
  match sub w with
  | Markdown m => mkWorld (cell w) (Markdown (f m)) (data w) (tx w) (trace w)
  | _ => w
  end.

Definition set_readOnly_field (v : bool) (c : Cell) : Cell :=
  mkCell v (_inputHidden c) (_syncCollapse c) (_syncEditable c) (_inputWrapper c) (prompt c).

Definition set_inputHidden_field (v : bool) (c : Cell) : Cell :=
  mkCell (_readOnly c) v (_syncCollapse c) (_syncEditable c) (_inputWrapper c) (prompt c).

Definition set_syncCollapse_field (v : bool) (c : Cell) : Cell :=
  mkCell (_readOnly c) (_inputHidden c) v (_syncEditable c) (_inputWrapper c) (prompt c).

Definition set_syncEditable_field (v : bool) (c : Cell) : Cell :=
  mkCell (_readOnly c) (_inputHidden c) (_syncCollapse c) v (_inputWrapper c) (prompt c).

Definition set_inputWrapper_field (v : list Widget) (c : Cell) : Cell :=
  mkCell (_readOnly c) (_inputHidden c) (_syncCollapse c) (_syncEditable c) v (prompt c).

Definition set_prompt_field (v : jsstring) (c : Cell) : Cell :=
  mkCell (_readOnly c) (_inputHidden c) (_syncCollapse c) (_syncEditable c) (_inputWrapper c) v.

Definition set_outputHidden_field (v : bool) (c : CodeCell) : CodeCell :=
  mkCodeCell v (_outputsScrolled c) (_syncScrolled c) (_savingMetadata c)
    (_outputWrapper c) (_outputWrapper_isHidden c) (future c).

Definition set_outputsScrolled_field (v : option bool) (c : CodeCell) : CodeCell :=
  mkCodeCell (_outputHidden c) v (_syncScrolled c) (_savingMetadata c)
    (_outputWrapper c) (_outputWrapper_isHidden c) (future c).

Definition set_syncScrolled_field (v : bool) (c : CodeCell) : CodeCell :=
  mkCodeCell (_outputHidden c) (_outputsScrolled c) v (_savingMetadata c)
    (_outputWrapper c) (_outputWrapper_isHidden c) (future c).

Definition set_outputWrapper_field (v : list Widget) (c : CodeCell) : CodeCell :=
  mkCodeCell (_outputHidden c) (_outputsScrolled c) (_syncScrolled c) (_savingMetadata c)
    v (_outputWrapper_isHidden c) (future c).

Definition set_isHidden_field (v : bool) (c : CodeCell) : CodeCell :=
  mkCodeCell (_outputHidden c) (_outputsScrolled c) (_syncScrolled c) (_savingMetadata c)
    (_outputWrapper c) v (future c).

Definition set_future_field (v : option Future) (c : CodeCell) : CodeCell :=
  mkCodeCell (_outputHidden c) (_outputsScrolled c) (_syncScrolled c) (_savingMetadata c)
    (_outputWrapper c) (_outputWrapper_isHidden c) v.

Definition set_metadata_field (v : gmap string JSONValue) (r : CellRecord) : CellRecord :=
  mkRecord (record r) (text r) v (executionCount r) (trusted r) (outputs r).

Definition set_executionCount_field (v : option Z) (r : CellRecord) : CellRecord :=
  mkRecord (record r) (text r) (metadata r) v (trusted r) (outputs r).

Definition set_trusted_field (v : bool) (r : CellRecord) : CellRecord :=
  mkRecord (record r) (text r) (metadata r) (executionCount r) v (outputs r).

Definition set_outputs_field (v : list Output) (r : CellRecord) : CellRecord :=
  mkRecord (record r) (text r) (metadata r) (executionCount r) (trusted r) v.

(** ** Layouts (Phosphor [PanelLayout])

    [addWidget] appends the widget, moving it when the layout already holds
    it; [removeWidget] and [widget.parent = null] take it out. *)

Definition removeWidget (c : Widget) (l : list Widget) : list Widget :=
  filter (fun x => x <> c) l.

Definition addWidget (c : Widget) (l : list Widget) : list Widget :=
  removeWidget c l ++ [c].

Definition layout (p : Wrapper) (w : World) : list Widget :=
  match p with
  | InputWrapper => _inputWrapper (cell w)
  | OutputWrapper => _outputWrapper (codeCell w)
  end.

Definition with_layout (p : Wrapper) (f : list Widget -> list Widget) (w : World) : World :=
  match p with
  | InputWrapper => with_cell (fun c => set_inputWrapper_field (f (_inputWrapper c)) c) w
  | OutputWrapper => with_codeCell (fun c => set_outputWrapper_field (f (_outputWrapper c)) c) w
  end.

Definition detach (p : Wrapper) (c : Widget) (w : World) : World :=
  log (Detach p c) (with_layout p (removeWidget c) w).

Definition attach (p : Wrapper) (c : Widget) (w : World) : World :=
  log (Attach p c) (with_layout p (addWidget c) w).

Definition show_outputWrapper (w : World) : World :=
  log (Show OutputWrapper) (with_codeCell (set_isHidden_field false) w).

Definition hide_outputWrapper (w : World) : World :=
  log (Hide OutputWrapper) (with_codeCell (set_isHidden_field true) w).

(** [Widget.update]: posts an update request, handled later by the message
    loop. *)
Definition update (w : World) : World := log UpdateRequest w.

(** Modelled from the spec: [InputArea.setPrompt], of [inputarea.ts], which
    shows the value in the input prompt. *)
Definition setPrompt (value : jsstring) (w : World) : World :=
  log (SetPrompt value) (with_cell (set_prompt_field value) w).

(** ** The datastore ([DatastoreExt])

    [DatastoreExt], [OutputAreaData] and the Phosphor datastore are not part
    of [widget.ts].  A field is read with [getField]; writes happen inside
    [withTransaction], all of them applied together; the listeners of the
    written fields are called once, after the commit, with the changes of
    the transaction. *)

(** Modelled from the spec: [DatastoreExt.updateField] on the [metadata] map
    field, with the update [{ key: v }].  A key written with [null] is
    removed.  The change records the value the key had when the transaction
    started and the value it has now. *)
Definition updateField_metadata (key : string) (v : option JSONValue) (w : World) : World :=
  let old := default JNull (metadata (data w) !! key) in
  let ch := default (mkMapChange ∅ ∅) (metadata_change (tx w)) in
  let prev := match previous ch !! key with
              | Some _ => previous ch
              | None => <[key := old]> (previous ch)
              end in
  let ch' := mkMapChange prev (<[key := default JNull v]> (current ch)) in
  let md := match v with
            | Some x => <[key := x]> (metadata (data w))
            | None => delete key (metadata (data w))
            end in
  log (UpdateMetadata key v)
    (with_tx (fun t => mkChanges (Some ch') (executionCount_change t))
       (with_data (set_metadata_field md) w)).

(** Modelled from the spec: [DatastoreExt.updateField] on the
    [executionCount] register field. *)
Definition updateField_executionCount (n : option Z) (w : World) : World :=
  let first := match executionCount_change (tx w) with
               | Some ch => reg_previous ch
               | None => executionCount (data w)
               end in
  log (UpdateExecutionCount n)
    (with_tx (fun t => mkChanges (metadata_change t) (Some (mkRegisterChange first n)))
       (with_data (set_executionCount_field n) w)).

(** Modelled from the spec: [DatastoreExt.updateField] on the [trusted]
    register field, which no widget listens to. *)
Definition updateField_trusted (b : bool) (w : World) : World :=
  log (UpdateTrusted b) (with_data (set_trusted_field b) w).

(** Modelled from the spec:
    [DatastoreExt.updateRecord(record, { executionCount, trusted })], the
    two fields written in the order given. *)
Definition updateRecord (n : option Z) (b : bool) (w : World) : World :=
  updateField_trusted b (updateField_executionCount n w).

(** Modelled from the spec: [OutputAreaData.clear], which empties the
    outputs of the record. *)
Definition OutputAreaData_clear (w : World) : World :=
  log ClearOutputs (with_data (set_outputs_field []) w).

(** ** The widgets

    The datastore calls the listeners registered by the constructors when a
    transaction commits, and a listener may itself open a transaction.  The
    methods are therefore written against [notify], the delivery of the
    changes of a committed transaction; [changed] below ties the knot. *)

Section Widgets.

Variable notify : Changes -> World -> World.

(** Modelled from the spec: [DatastoreExt.withTransaction(datastore, body)].
    The body runs between the opening and the commit of the transaction;
    the changes it gathered are then delivered to the listeners. *)
Definition withTransaction (body : World -> World) (w : World) : World :=
  let w := log TxBegin (with_tx (fun _ => no_changes) w) in
  let w := log TxEnd (body w) in
  notify (tx w) (with_tx (fun _ => no_changes) w).

(** *** [Cell] *)

(** [saveCollapseState] and [loadCollapseState] (lines 396-434, and 825-870
    for the overrides): the bodies are commented out, in [Cell] and in
    [CodeCell] alike. *)
Definition Cell_saveCollapseState (w : World) : World := w.
Definition Cell_loadCollapseState (w : World) : World := w.
Definition CodeCell_saveCollapseState (w : World) : World := w.
Definition CodeCell_loadCollapseState (w : World) : World := w.

Definition saveCollapseState (w : World) : World :=
  match sub w with
  | Code _ => CodeCell_saveCollapseState w
  | _ => Cell_saveCollapseState w
  end.

Definition loadCollapseState (w : World) : World :=
  match sub w with
  | Code _ => CodeCell_loadCollapseState w
  | _ => Cell_loadCollapseState w
  end.

(** [saveEditableState] (lines 314-341). *)
Definition saveEditableState (w : World) : World :=
  let metadata := metadata (data w) in
  if (_readOnly (cell w) && is_false_at metadata "editable")
     || (negb (_readOnly (cell w)) && is_undefined_at metadata "editable")
  then w
  else
    withTransaction (fun w =>
      if _readOnly (cell w)
      then updateField_metadata "editable" (Some (JBool false)) w
      else updateField_metadata "editable" None w) w.

(** [set readOnly] (lines 300-309). *)
Definition set_readOnly (value : bool) (w : World) : World :=
  if Bool.eqb value (_readOnly (cell w)) then w
  else
    let w := with_cell (set_readOnly_field value) w in
    let w := if _syncEditable (cell w) then saveEditableState w else w in
    update w.

(** [loadEditableState] (lines 346-352). *)
Definition loadEditableState (w : World) : World :=
  let metadata := metadata (data w) in
  set_readOnly (is_false_at metadata "editable") w.

(** [set syncCollapse] (lines 454-462). *)
Definition set_syncCollapse (value : bool) (w : World) : World :=
  if Bool.eqb (_syncCollapse (cell w)) value then w
  else
    let w := with_cell (set_syncCollapse_field value) w in
    if value then loadCollapseState w else w.

(** [set syncEditable] (lines 470-478). *)
Definition set_syncEditable (value : bool) (w : World) : World :=
  if Bool.eqb (_syncEditable (cell w)) value then w
  else
    let w := with_cell (set_syncEditable_field value) w in
    if value then loadEditableState w else w.

(** [handleInputHidden] (lines 444-446): [Cell] does nothing; [CodeCell]
    overrides it (lines 952-958). *)
Definition Cell_handleInputHidden (value : bool) (w : World) : World := w.

Definition CodeCell_handleInputHidden (value : bool) (w : World) : World :=
  if negb value && _outputWrapper_isHidden (codeCell w) then
    show_outputWrapper w
  else if value && negb (_outputWrapper_isHidden (codeCell w))
                && _outputHidden (codeCell w) then
    hide_outputWrapper w
  else w.

Definition handleInputHidden (value : bool) (w : World) : World :=
  match sub w with
  | Code _ => CodeCell_handleInputHidden value w
  | _ => Cell_handleInputHidden value w
  end.

(** [set inputHidden] (lines 374-391). *)
Definition set_inputHidden (value : bool) (w : World) : World :=
  if Bool.eqb (_inputHidden (cell w)) value then w
  else
    let w := if value
             then attach InputWrapper InputPlaceholder (detach InputWrapper InputArea w)
             else attach InputWrapper InputArea (detach InputWrapper InputPlaceholder w) in
    let w := with_cell (set_inputHidden_field value) w in
    let w := if _syncCollapse (cell w) then saveCollapseState w else w in
    handleInputHidden value w.

(** [Cell.onMetadataChanged] (lines 547-561). *)
Definition Cell_onMetadataChanged (args : MapChange) (w : World) : World :=
  let w := if truthy_at (current args) "jupyter"
           then (if _syncCollapse (cell w) then loadCollapseState w else w)
           else w in
  if truthy_at (current args) "editable"
  then (if _syncEditable (cell w) then loadEditableState w else w)
  else w.

(** *** [CodeCell] *)

(** [set outputHidden] (lines 798-820). *)
Definition set_outputHidden (value : bool) (w : World) : World :=
  if Bool.eqb (_outputHidden (codeCell w)) value then w
  else
    let w :=
      if value then
        let w := detach OutputWrapper OutputArea w in
        let w := attach OutputWrapper OutputPlaceholder w in
        if _inputHidden (cell w) && negb (_outputWrapper_isHidden (codeCell w))
        then hide_outputWrapper w else w
      else
        let w := if _outputWrapper_isHidden (codeCell w)
                 then show_outputWrapper w else w in
        let w := detach OutputWrapper OutputPlaceholder w in
        attach OutputWrapper OutputArea w in
    let w := with_codeCell (set_outputHidden_field value) w in
    if _syncCollapse (cell w) then saveCollapseState w else w.

(** [saveScrolledState] and [loadScrolledState] (lines 889-926): the bodies
    are commented out. *)
Definition saveScrolledState (w : World) : World := w.
Definition loadScrolledState (w : World) : World := w.

(** [set outputsScrolled] (lines 878-884); the CSS class it toggles is left
    out. *)
Definition set_outputsScrolled (value : bool) (w : World) : World :=
  let w := with_codeCell (set_outputsScrolled_field (Some value)) w in
  if _syncScrolled (codeCell w) then saveScrolledState w else w.

(** [set syncScrolled] (lines 934-942). *)
Definition set_syncScrolled (value : bool) (w : World) : World :=
  if Bool.eqb (_syncScrolled (codeCell w)) value then w
  else
    let w := with_codeCell (set_syncScrolled_field value) w in
    if value then loadScrolledState w else w.

(** [CodeCell.onExecutionCountChanged] (lines 1005-1012). *)
Definition onExecutionCountChanged (args : RegisterChange) (w : World) : World :=
  match reg_current args with
  | Some n => setPrompt (number_to_string n) w
  | None => w
  end.

(** [CodeCell.onMetadataChanged] (lines 1017-1036). *)
Definition CodeCell_onMetadataChanged (args : MapChange) (w : World) : World :=
  if _savingMetadata (codeCell w) then w
  else
    let w := if truthy_at (current args) "scrolled"
             then (if _syncScrolled (codeCell w) then loadScrolledState w else w)
             else w in
    let w := if truthy_at (current args) "collapsed"
             then (if _syncCollapse (cell w) then loadCollapseState w else w)
             else w in
    Cell_onMetadataChanged args w.

(** The listener registered by the [Cell] constructor is
    [this.onMetadataChanged]: the override for a code cell. *)
Definition onMetadataChanged (args : MapChange) (w : World) : World :=
  match sub w with
  | Code _ => CodeCell_onMetadataChanged args w
  | _ => Cell_onMetadataChanged args w
  end.

(** The listeners of the widget, in the order the constructors registered
    them: the metadata listener of [Cell], then the execution count
    listener of [CodeCell]. *)
Definition listeners (ch : Changes) (w : World) : World :=
  let w := match metadata_change ch with
           | Some args => onMetadataChanged args w
           | None => w
           end in
  match sub w, executionCount_change ch with
  | Code _, Some args => onExecutionCountChanged args w
  | _, _ => w
  end.

(** *** Constructors and [initializeState] *)

(** [new Cell(options)] (lines 162-229) on the record [r]; [s] holds the
    field initialisers of the class being constructed.  The input wrapper
    receives the collapser and the input area. *)
Definition Cell_new (r : CellRecord) (s : Subclass) : World :=
  let w := mkWorld (mkCell false false false false [] []) s r no_changes [] in
  let w := attach InputWrapper InputCollapser w in
  attach InputWrapper InputArea w.

(** [new RawCell(options)] (lines 1324-1327). *)
Definition RawCell_new (r : CellRecord) : World := Cell_new r RawCell.

(** [new CodeCell(options)] (lines 720-759): the output wrapper receives the
    collapser and the output area. *)
Definition CodeCell_new (r : CellRecord) : World :=
  let w := Cell_new r (Code (mkCodeCell false None false false [] false None)) in
  let w := attach OutputWrapper OutputCollapser w in
  attach OutputWrapper OutputArea w.

(** [Cell.initializeState] (lines 238-242). *)
Definition Cell_initializeState (w : World) : World :=
  let w := loadCollapseState w in
  loadEditableState w.

(** [CodeCell.initializeState] (lines 773-783); the prompt is
    [`${executionCount || ''}`]. *)
Definition CodeCell_initializeState (w : World) : World :=
  let w := Cell_initializeState w in
  let w := loadScrolledState w in
  match executionCount (data w) with
  | Some n => if (n =? 0)%Z then setPrompt [] w else setPrompt (number_to_string n) w
  | None => setPrompt [] w
  end.

(** *** [CodeCell.execute] (lines 1074-1130)

    An [async] function with one [await].  [execute] is the part that runs
    when the function is called: it either completes, or reaches the
    [await] with the future it saved.  [execute_resume] is the rest, run
    when the awaited promise settles, in the world as it is by then. *)

Inductive Completion : Type :=
| Returned (msg : option ExecuteReplyMsg)   (* [None] is [undefined] *)
| Thrown (e : Error).

Inductive Settlement : Type :=
| Fulfilled (msg : ExecuteReplyMsg)
| Rejected (e : Error).

Inductive Execution : Type :=
| Completed (r : Completion) (w : World)
| Awaiting (saved : option Future) (w : World).

(** Modelled from the spec: [OutputArea.execute] is not part of
    [widget.ts].  It submits the code and the metadata to the kernel of the
    session and exposes the future of the request as [outputArea.future];
    the promise it returns settles later.  Without a kernel it submits
    nothing. *)
Definition OutputArea_execute (code : jsstring) (session : IClientSession)
    (md : gmap string JSONValue) (w : World) : World :=
  match kernel session with
  | Some k =>
      log (RequestExecute code md (requestExecute k))
        (with_codeCell (set_future_field (Some (requestExecute k))) w)
  | None => w
  end.

(** [execute], from its first line to the [await] (lines 1079-1115). *)
Definition execute (session : IClientSession)
    (md : option (gmap string JSONValue)) (w : World) : Execution :=
  let code := text (data w) in
  if negb (nonempty (trim code)) || negb (bool_decide (is_Some (kernel session))) then
    let w := withTransaction (fun w =>
               let w := updateField_executionCount None w in
               OutputAreaData_clear w) w in
    Completed (Returned None) w
  else
    let md := <["cellId" := JString (record (data w))]> (default ∅ md) in
    let w := set_outputHidden false w in
    let w := setPrompt (js "*") w in
    let w := withTransaction (updateRecord None true) w in
    let w := OutputArea_execute code session md w in
    let saved := future (codeCell w) in
    Awaiting saved w.

(** [execute], from the [await] to its end (lines 1115-1129), on a widget
    that has not been disposed of: the rest of the [try] block when the
    promise is fulfilled, the [catch] block when it is rejected.
    [execute_resume_on] below is the same for a widget that may have been
    disposed of while the request was pending. *)
Definition execute_resume (saved : option Future) (s : Settlement) (w : World)
    : Completion * World :=
  match s with
  | Fulfilled msg =>
      let w := withTransaction
                 (updateField_executionCount (execution_count msg)) w in
      (Returned (Some msg), w)
  | Rejected e =>
      let w := if bool_decide (message e = js "Canceled")
                  && bool_decide (future (codeCell w) = saved)
               then setPrompt [] w else w in
      (Thrown e, w)
  end.

(** *** [MarkdownCell] *)

(** [DEFAULT_MARKDOWN_TEXT] (line 144); 945 is the Greek letter alpha. *)
Definition DEFAULT_MARKDOWN_TEXT : jsstring :=
  js "Type Markdown and LaTeX: $ " ++ [945%N] ++ js "^2 $".

Definition set_rendered_field (v : bool) (m : MarkdownCell) : MarkdownCell :=
  mkMarkdownCell v (_prevText m) (_renderer m).

Definition set_prevText_field (v : jsstring) (m : MarkdownCell) : MarkdownCell :=
  mkMarkdownCell (_rendered m) v (_renderer m).

Definition set_renderer_field (v : bool) (m : MarkdownCell) : MarkdownCell :=
  mkMarkdownCell (_rendered m) (_prevText m) v.

(** The promise returned by [_updateRenderedInput]: the one of
    [renderer.renderModel], or [Promise.resolve(void 0)]. *)
Inductive RenderPromise : Type := Rendering | Resolved.

(** [_updateRenderedInput] (lines 1262-1275). *)
Definition _updateRenderedInput (w : World) : RenderPromise * World :=
  let text := if nonempty (text (data w)) then text (data w)
              else DEFAULT_MARKDOWN_TEXT in
  if negb (bool_decide (text = _prevText (markdownCell w))) then
    let mimeModel := [("text/markdown", text)] in
    let w := if negb (_renderer (markdownCell w))
             then log (CreateRenderer "text/markdown")
                    (with_markdownCell (set_renderer_field true) w)
             else w in
    let w := with_markdownCell (set_prevText_field text) w in
    (Rendering, log (RenderModel mimeModel) w)
  else (Resolved, w).

(** [renderInput] and [showEditor] (lines 1223-1234) hand over to the input
    area. *)
Definition renderInput (w : World) : World := log RenderInput w.

Definition showEditor (w : World) : World := log ShowEditor w.

(** [_handleRendered] (lines 1248-1257). *)
Definition _handleRendered (w : World) : World :=
  if negb (_rendered (markdownCell w)) then showEditor w
  else renderInput (snd (_updateRenderedInput w)).

(** [set rendered] (lines 1197-1209). *)
Definition set_rendered (value : bool) (w : World) : World :=
  if Bool.eqb value (_rendered (markdownCell w)) then w
  else
    let w := with_markdownCell (set_rendered_field value) w in
    let w := _handleRendered w in
    if negb (_rendered (markdownCell w)) then log EditorRefresh w else w.

(** [new MarkdownCell(options)] (lines 1150-1177): the first rendering is
    started by the constructor. *)
Definition MarkdownCell_new (r : CellRecord) : World :=
  let w := Cell_new r (Markdown (mkMarkdownCell true [] false)) in
  let w := snd (_updateRenderedInput w) in
  renderInput w.

End Widgets.

(** Delivery of the changes of a committed transaction.  [fuel] bounds the
    nesting of transactions opened by listeners; [changed_fuel] below shows
    that the widgets never nest deeper than one level, so that any positive
    amount gives the same result. *)
Fixpoint changed (fuel : nat) (ch : Changes) (w : World) : World :=
  match fuel with
  | O => w
  | S fuel => listeners (changed fuel) ch w
  end.

(** * Vocabulary of the properties *)

(** A change is inert when no listener of the widget reacts to it: the
    execution count, if written, is [null], and none of the metadata keys the
    listeners look at has a truthy current value. *)
Definition inert (ch : Changes) : Prop :=
  (forall args, executionCount_change ch = Some args -> reg_current args = None) /\
  forall args, metadata_change ch = Some args ->
    truthy_at (current args) "jupyter" = false /\
    truthy_at (current args) "editable" = false /\
    truthy_at (current args) "scrolled" = false /\
    truthy_at (current args) "collapsed" = false.

(** The guard of [saveEditableState]: the view agrees with the model. *)
Definition editable_in_sync (w : World) : bool :=
  (_readOnly (cell w) && is_false_at (metadata (data w)) "editable")
  || (negb (_readOnly (cell w)) && is_undefined_at (metadata (data w)) "editable").

(** The encoding of a read-only flag in the [editable] key. *)
Definition editable_encoding (readOnly : bool) : option JSONValue :=
  if readOnly then Some (JBool false) else None.

(** Number of transactions opened in a trace. *)
Definition is_TxBegin (e : Event) : bool :=
  match e with TxBegin => true | _ => false end.

Definition transactions (tr : list Event) : nat :=
  length (List.filter is_TxBegin tr).

(** What the layout of a cell looks like: whether the input is hidden, the
    widgets of the input wrapper and, for a code cell, whether the output is
    hidden, the widgets of the output wrapper and whether that wrapper is
    hidden. *)
Definition arrangement (w : World)
    : bool * list Widget * option (bool * list Widget * bool) :=
  (_inputHidden (cell w), _inputWrapper (cell w),
   match sub w with
   | Code c => Some (_outputHidden c, _outputWrapper c, _outputWrapper_isHidden c)
   | _ => None
   end).

(** The arrangements the constructors and the setters produce: each wrapper
    holds its collapser followed by the area or by its placeholder, and the
    output wrapper is hidden exactly when input and output both are. *)
Definition arranged (w : World) : Prop :=
  _inputWrapper (cell w) =
    [InputCollapser; if _inputHidden (cell w) then InputPlaceholder else InputArea] /\
  match sub w with
  | Code c =>
      _outputWrapper c =
        [OutputCollapser; if _outputHidden c then OutputPlaceholder else OutputArea] /\
      _outputWrapper_isHidden c = _inputHidden (cell w) && _outputHidden c
  | _ => True
  end.

(** The states a widget can reach. *)

(** The kind of cell constructed ([nbformat.CellType]). *)
Inductive CellType : Type := code | markdown | raw.

Definition new (t : CellType) (r : CellRecord) : World :=
  match t with
  | code => CodeCell_new r
  | markdown => MarkdownCell_new r
  | raw => RawCell_new r
  end.

(** What can happen to a widget once constructed: calls of its public
    methods and setters, a write to its record by somebody else, and the
    datastore delivering changes. *)
Inductive Action : Type :=
| Set_readOnly (value : bool)
| Set_inputHidden (value : bool)
| Set_syncCollapse (value : bool)
| Set_syncEditable (value : bool)
| SaveEditableState
| LoadEditableState
| InitializeState
| Set_outputHidden (value : bool)
| Set_outputsScrolled (value : bool)
| Set_syncScrolled (value : bool)
| Execute (session : IClientSession) (md : option (gmap string JSONValue))
| Resume (saved : option Future) (s : Settlement)
| Set_rendered (value : bool)
| Written (f : CellRecord -> CellRecord)
| Notified (ch : Changes).

Definition world_of (e : Execution) : World :=
  match e with
  | Completed _ w => w
  | Awaiting _ w => w
  end.

Definition perform (fuel : nat) (a : Action) (w : World) : World :=
  match a, sub w with
  | Set_readOnly v, _ => set_readOnly (changed fuel) v w
  | Set_inputHidden v, _ => set_inputHidden v w
  | Set_syncCollapse v, _ => set_syncCollapse v w
  | Set_syncEditable v, _ => set_syncEditable (changed fuel) v w
  | SaveEditableState, _ => saveEditableState (changed fuel) w
  | LoadEditableState, _ => loadEditableState (changed fuel) w
  | InitializeState, Code _ => CodeCell_initializeState (changed fuel) w
  | InitializeState, _ => Cell_initializeState (changed fuel) w
  | Set_outputHidden v, Code _ => set_outputHidden v w
  | Set_outputsScrolled v, Code _ => set_outputsScrolled v w
  | Set_syncScrolled v, Code _ => set_syncScrolled v w
  | Execute session md, Code _ => world_of (execute (changed fuel) session md w)
  | Resume saved s, Code _ => snd (execute_resume (changed fuel) saved s w)
  | Set_rendered v, Markdown _ => set_rendered v w
  | Written f, _ => with_data f w
  | Notified ch, _ => changed fuel ch w
  | _, _ => w
  end.

Fixpoint run (fuel : nat) (actions : list Action) (w : World) : World :=
  match actions with
  | [] => w
  | a :: rest => run fuel rest (perform fuel a w)
  end.

(** The events of a trace that lie outside every transaction; [open] tells
    whether a transaction is open where the trace starts. *)
Fixpoint outside_transactions (open : bool) (tr : list Event) : list Event :=
  match tr with
  | [] => []
  | TxBegin :: rest => outside_transactions true rest
  | TxEnd :: rest => outside_transactions false rest
  | e :: rest =>
      if open then outside_transactions open rest
      else e :: outside_transactions open rest
  end.

Arguments DEFAULT_MARKDOWN_TEXT : simpl never.
Arguments js : simpl never.

(** * More of [widget.ts] *)

(** [clone] (lines 483-489 for [Cell], 963-970 for [CodeCell], 1280-1287 for
    [MarkdownCell], 1332-1338 for [RawCell]): a new widget of the same class
    on the same record.  The options handed to the constructor carry the
    record, the content factory and the rendermime registry, and nothing of
    the view. *)
Definition clone (w : World) : World :=
  match sub w with
  | Code _ => CodeCell_new (data w)
  | Markdown _ => MarkdownCell_new (data w)
  | RawCell => RawCell_new (data w)
  end.

(** The callback the [MarkdownCell] constructor hands to its [Debouncer]
    (lines 1162-1166); the debouncer calls it once the text has been left
    alone for [RENDER_TIMEOUT]. *)
Definition debounced_render (w : World) : World :=
  if _rendered (markdownCell w) then update w else w.

(** *** The widget as the toolkit sees it

    What [Cell] keeps outside its own fields: the disposed flag of the
    Phosphor [Widget], whether each reference nulled by [dispose] is still
    held, the subscriptions taken by the constructors and released by
    [dispose], the [readOnly] option of the editor and two CSS classes. *)

Inductive Subscription : Type :=
| MetadataListener          (* [Cell._metadataListener] *)
| ExecutionCountListener    (* [CodeCell._executionCountListener] *)
| OutputLengthChanged       (* [outputLengthChanged.connect] *)
| TextListener              (* [MarkdownCell._listener] *)
| RenderDebouncer.          (* [MarkdownCell._debouncer] *)

Record Host : Type := mkHost {
  isDisposed : bool;
  _data : bool;                     (* [this._data] is not null *)
  _input : bool;                    (* [_input], [_inputWrapper], [_inputPlaceholder] *)
  _output : bool;                   (* [_rendermime], [_output], [_outputWrapper],
                                       [_outputPlaceholder] of a code cell *)
  released : list Subscription;     (* [dispose()] and [disconnect()] calls made *)
  editor_readOnly : bool;           (* [editor.getOption('readOnly')] *)
  READONLY_CLASS : bool;            (* the widget has ['jp-mod-readOnly'] *)
  NO_OUTPUTS_CLASS : bool           (* the widget has ['jp-mod-noOutputs'] *)
}.

(** The host of a widget just constructed, over an editor whose [readOnly]
    option is [editor_option] (the default, or what [options.editorConfig]
    set) and an output area holding [n] outputs (lines 216-222, 743-745). *)
Definition Host_new (editor_option : bool) (n : nat) (s : Subclass) : Host :=
  mkHost false true true true [] editor_option false
    match s with
    | Code _ => (n =? 0)%nat
    | _ => false
    end.

(** [Widget.dispose] of Phosphor, the end of every [dispose] chain: it sets
    the disposed flag. *)
Definition Widget_dispose (h : Host) : Host :=
  mkHost true (_data h) (_input h) (_output h) (released h)
    (editor_readOnly h) (READONLY_CLASS h) (NO_OUTPUTS_CLASS h).

(** [Cell.dispose] (lines 494-506). *)
Definition Cell_dispose (h : Host) : Host :=
  if isDisposed h then h
  else
    Widget_dispose
      (mkHost (isDisposed h) false false (_output h)
         (released h ++ [MetadataListener])
         (editor_readOnly h) (READONLY_CLASS h) (NO_OUTPUTS_CLASS h)).

(** [CodeCell.dispose] (lines 986-1000). *)
Definition CodeCell_dispose (h : Host) : Host :=
  if isDisposed h then h
  else
    Cell_dispose
      (mkHost (isDisposed h) (_data h) (_input h) false
         (released h ++ [OutputLengthChanged; ExecutionCountListener])
         (editor_readOnly h) (READONLY_CLASS h) (NO_OUTPUTS_CLASS h)).

(** [MarkdownCell.dispose] (lines 1211-1218). *)
Definition MarkdownCell_dispose (h : Host) : Host :=
  if isDisposed h then h
  else
    Cell_dispose
      (mkHost (isDisposed h) (_data h) (_input h) (_output h)
         (released h ++ [TextListener; RenderDebouncer])
         (editor_readOnly h) (READONLY_CLASS h) (NO_OUTPUTS_CLASS h)).

(** [dispose], by the class of the widget; [RawCell] inherits [Cell]'s. *)
Definition dispose (s : Subclass) (h : Host) : Host :=
  match s with
  | Code _ => CodeCell_dispose h
  | Markdown _ => MarkdownCell_dispose h
  | RawCell => Cell_dispose h
  end.

(** *** [execute] on a widget disposed of while the request was pending

    [dispose] nulls [_data], [_input] and [_output], which the getters
    [cell.data] (line 284) and [cell.outputArea] (line 789) return and
    [cell.setPrompt] (line 365) calls into.  Reading a property of [null]
    throws a [TypeError]; the wording of its message is the engine's (V8's
    here), and all that matters of it is that it is not ['Canceled']. *)
Definition TypeError (property : string) : Error :=
  mkError (js "TypeError")
    (js ("Cannot read properties of null (reading '" ++ property ++ "')")).

(** The [catch] block of [execute] (lines 1123-1128), entered with the
    error [e]: the test of the message comes first, and [&&] evaluates
    [cell.outputArea.future] only for a cancellation. *)
Definition execute_catch (h : Host) (saved : option Future) (e : Error) (w : World)
    : Completion * World :=
  if bool_decide (message e = js "Canceled") then
    if negb (_output h) then (Thrown (TypeError "future"), w)
    else if bool_decide (future (codeCell w) = saved) then
      if negb (_input h) then (Thrown (TypeError "setPrompt"), w)
      else (Thrown e, setPrompt [] w)
    else (Thrown e, w)
  else (Thrown e, w).

(** [execute], from the [await] to its end (lines 1115-1129), on the widget
    as its host has it.  When the promise is fulfilled the [try] block goes
    on with [cell.data.record], which throws inside the [try] if the widget
    has been disposed of; when it is rejected the [catch] block runs. *)
Definition execute_resume_on (notify : Changes -> World -> World) (h : Host)
    (saved : option Future) (s : Settlement) (w : World) : Completion * World :=
  match s with
  | Fulfilled msg =>
      if negb (_data h) then execute_catch h saved (TypeError "record") w
      else
        let w := withTransaction notify
                   (updateField_executionCount (execution_count msg)) w in
        (Returned (Some msg), w)
  | Rejected e => execute_catch h saved e w
  end.

(** [Cell.onUpdateRequest] (lines 533-542). *)
Definition Cell_onUpdateRequest (h : Host) (w : World) : Host :=
  if negb (_data h) then h
  else if negb (Bool.eqb (editor_readOnly h) (_readOnly (cell w))) then
    mkHost (isDisposed h) (_data h) (_input h) (_output h) (released h)
      (_readOnly (cell w)) (_readOnly (cell w)) (NO_OUTPUTS_CLASS h)
  else h.

(** [MarkdownCell.onUpdateRequest] (lines 1239-1243). *)
Definition MarkdownCell_onUpdateRequest (h : Host) (w : World) : Host * World :=
  let w := _handleRendered w in
  (Cell_onUpdateRequest h w, w).

(** [onUpdateRequest], by the class of the widget; [CodeCell] and [RawCell]
    inherit [Cell]'s. *)
Definition onUpdateRequest (h : Host) (w : World) : Host * World :=
  match sub w with
  | Markdown _ => MarkdownCell_onUpdateRequest h w
  | _ => (Cell_onUpdateRequest h w, w)
  end.

(** [CodeCell._outputLengthHandler] (lines 1041-1044). *)
Definition _outputLengthHandler (args : nat) (h : Host) : Host :=
  let force := if (args =? 0)%nat then true else false in
  mkHost (isDisposed h) (_data h) (_input h) (_output h) (released h)
    (editor_readOnly h) (READONLY_CLASS h) force.

(** [Cell.onAfterAttach] (lines 511-513) and [Cell.onFitRequest] (lines
    525-528). *)
Definition onAfterAttach (w : World) : World := update w.

Definition onFitRequest (w : World) : World := log EditorRefresh w.

(** * More vocabulary *)

(** What can happen to a widget, the messages of the toolkit included: an
    [Action], the debouncer firing, an update request reaching the widget,
    the output area of a code cell signalling its new number of outputs,
    the widget being attached, a fit request. *)
Inductive Step : Type :=
| Do (a : Action)
| Debounced
| UpdateRequested
| OutputsChanged (n : nat)
| AfterAttach
| FitRequest.

Definition step (fuel : nat) (s : Step) (hw : Host * World) : Host * World :=
  match s with
  | Do a => (fst hw, perform fuel a (snd hw))
  | Debounced =>
      match sub (snd hw) with
      | Markdown _ => (fst hw, debounced_render (snd hw))
      | _ => hw
      end
  | UpdateRequested => onUpdateRequest (fst hw) (snd hw)
  | OutputsChanged n =>
      match sub (snd hw) with
      | Code _ => (_outputLengthHandler n (fst hw), snd hw)
      | _ => hw
      end
  | AfterAttach => (fst hw, onAfterAttach (snd hw))
  | FitRequest => (fst hw, onFitRequest (snd hw))
  end.

Fixpoint steps (fuel : nat) (l : list Step) (hw : Host * World) : Host * World :=
  match l with
  | [] => hw
  | s :: rest => steps fuel rest (step fuel s hw)
  end.

(** The widget and its host as constructed.  The output area of a code
    cell is taken to hold one widget for each output of the record, which
    is what [output.widgets.length] (line 743) then counts. *)
Definition mounted (editor_option : bool) (t : CellType) (r : CellRecord)
    : Host * World :=
  (Host_new editor_option (length (outputs r)) (sub (new t r)), new t r).

(** The number of outputs last signalled in a run of steps, if any was. *)
Definition last_length (l : list Step) : option nat :=
  fold_left (fun acc s => match s with OutputsChanged n => Some n | _ => acc end)
    l None.

(** The guard field of a code cell (line 1054), [false] for the others. *)
Definition saving (w : World) : bool := _savingMetadata (codeCell w).

(** Whether the widget is a code cell. *)
Definition is_code (w : World) : bool :=
  match sub w with Code _ => true | _ => false end.

(** Number of kernel requests in a trace. *)
Definition is_RequestExecute (e : Event) : bool :=
  match e with RequestExecute _ _ _ => true | _ => false end.

Definition requests (tr : list Event) : nat :=
  length (List.filter is_RequestExecute tr).

(** The calls that reach the markdown renderer and the rendered input. *)
Definition is_render_event (e : Event) : bool :=
  match e with
  | CreateRenderer _ | RenderModel _ | RenderInput | ShowEditor => true
  | _ => false
  end.

Definition is_CreateRenderer (e : Event) : bool :=
  match e with CreateRenderer _ => true | _ => false end.

(** The bundle of the last [renderModel] call of a trace. *)
Definition last_rendered (tr : list Event) : option (list (string * jsstring)) :=
  fold_left (fun acc e => match e with RenderModel m => Some m | _ => acc end)
    tr None.

(** Whether the widget has ['jp-mod-rendered']: [renderInput] adds the
    class and [showEditor] removes it (lines 1223-1234), so the last of
    these calls decides. *)
Definition RENDERED_CLASS (tr : list Event) : bool :=
  fold_left (fun acc e => match e with
                          | RenderInput => true
                          | ShowEditor => false
                          | _ => acc
                          end) tr false.

(** Scoping of a trace with respect to transactions.  Reading the trace from
    the start, [Some false] says no transaction is open, [Some true] that
    one is, and [None] that the trace broke the discipline: a transaction
    opened inside another, a commit without a transaction, a write to the
    record outside a transaction, or any other call inside one. *)
Definition is_write (e : Event) : bool :=
  match e with
  | UpdateMetadata _ _ | UpdateExecutionCount _ | UpdateTrusted _ | ClearOutputs => true
  | _ => false
  end.

Definition scope_step (open : option bool) (e : Event) : option bool :=
  match open with
  | None => None
  | Some false =>
      match e with
      | TxBegin => Some true
      | TxEnd => None
      | _ => if is_write e then None else Some false
      end
  | Some true =>
      match e with
      | TxEnd => Some false
      | TxBegin => None
      | _ => if is_write e then Some true else None
      end
  end.

Definition scope (tr : list Event) : option bool :=
  fold_left scope_step tr (Some false).

(** A run of events that, started outside a transaction, keeps to the
    discipline and ends outside a transaction. *)
Definition keeps_scope (evs : list Event) : bool :=
  match fold_left scope_step evs (Some false) with
  | Some false => true
  | _ => false
  end.

(** A run of events that moreover has no call to the markdown renderer or
    the rendered input. *)
Definition quiet (evs : list Event) : bool :=
  keeps_scope evs && forallb (fun e => negb (is_render_event e)) evs.

(** The [MarkdownCell] fields of the widget, if it is a markdown cell. *)
Definition markdown_fields (w : World) : option MarkdownCell :=
  match sub w with
  | Markdown m => Some m
  | _ => None
  end.

(** [w'] comes from [w] by a scoped run of events. *)
Definition extends (w w' : World) : Prop :=
  exists evs, trace w' = trace w ++ evs /\ keeps_scope evs = true.

(** [w'] comes from [w] by a quiet run of events that leaves the markdown
    fields alone. *)
Definition extends_quietly (w w' : World) : Prop :=
  markdown_fields w' = markdown_fields w /\
  exists evs, trace w' = trace w ++ evs /\ quiet evs = true.

(** A transaction body that only writes fields of the record. *)
Definition writes_only (body : World -> World) : Prop :=
  forall w, markdown_fields (body w) = markdown_fields w /\
            exists ws, trace (body w) = trace w ++ ws /\ forallb is_write ws = true.

(** What the source of a markdown cell is rendered as. *)
Definition shown (w : World) : jsstring :=
  if nonempty (text (data w)) then text (data w) else DEFAULT_MARKDOWN_TEXT.

(** Number of [renderModel] calls in a trace. *)
Definition is_RenderModel (e : Event) : bool :=
  match e with RenderModel _ => true | _ => false end.

Definition renders (tr : list Event) : nat :=
  length (List.filter is_RenderModel tr).

(** The state of the preview of a markdown cell: the renderer exists and was
    created once; the last bundle it was given is the text recorded as
    rendered, which is not empty. *)
Definition preview_kept (w : World) : Prop :=
  exists m,
    sub w = Markdown m /\
    _renderer m = true /\
    _prevText m <> [] /\
    length (List.filter is_CreateRenderer (trace w)) = 1 /\
    last_rendered (trace w) = Some [("text/markdown", _prevText m)].

(** Moreover the widget has ['jp-mod-rendered'] exactly when it is in
    rendered mode. *)
Definition markdown_rendered (w : World) : Prop :=
  preview_kept w /\ RENDERED_CLASS (trace w) = _rendered (markdownCell w).

(** * Properties *)

(** ** Delivery of the widget's own changes *)

Lemma listeners_inert notify ch w : inert ch -> listeners notify ch w = w.
Proof.
  intros [Hec Hmd]. unfold listeners.
  assert (match metadata_change ch with
          | Some args => onMetadataChanged notify args w
          | None => w
          end = w) as ->.
  { destruct (metadata_change ch) as [args|] eqn:E; [|reflexivity].
    destruct (Hmd args eq_refl) as (Hj & He & Hs & Hc).
    unfold onMetadataChanged, CodeCell_onMetadataChanged, Cell_onMetadataChanged.
    rewrite Hj, He, Hs, Hc. destruct (sub w); try reflexivity.
    destruct (_savingMetadata _); reflexivity. }
  destruct (sub w); try reflexivity.
  destruct (executionCount_change ch) as [args|]; [|reflexivity].
  unfold onExecutionCountChanged. rewrite (Hec args eq_refl). reflexivity.
Qed.

Lemma changed_inert fuel ch w : inert ch -> changed fuel ch w = w.
Proof. destruct fuel; [reflexivity|]. apply listeners_inert. Qed.

(** The change produced by one write of the [editable] key. *)
Lemma editable_write_inert (old : JSONValue) (v : option JSONValue) :
  v = Some (JBool false) \/ v = None ->
  inert (mkChanges
           (Some (mkMapChange (<["editable" := old]> ∅)
                              (<["editable" := default JNull v]> ∅)))
           None).
Proof.
  intros Hv. split; [discriminate|]. intros args [= <-]. cbn [current].
  unfold truthy_at.
  rewrite !lookup_insert_ne, !lookup_empty, lookup_insert_eq by done.
  destruct Hv as [-> | ->]; done.
Qed.

(** A transaction runs its body on the world in which it was opened. *)
Lemma withTransaction_ext notify body body' w :
  body (log TxBegin (with_tx (fun _ => no_changes) w)) =
  body' (log TxBegin (with_tx (fun _ => no_changes) w)) ->
  withTransaction notify body w = withTransaction notify body' w.
Proof. unfold withTransaction. intros ->. reflexivity. Qed.

(** One transaction that writes one metadata key. *)
Lemma withTransaction_updateField_metadata notify key v w :
  withTransaction notify (updateField_metadata key v) w =
  notify
    (mkChanges
       (Some (mkMapChange
                (<[key := default JNull (metadata (data w) !! key)]> ∅)
                (<[key := default JNull v]> ∅)))
       None)
    (mkWorld (cell w) (sub w)
       (set_metadata_field
          (match v with
           | Some x => <[key := x]> (metadata (data w))
           | None => delete key (metadata (data w))
           end) (data w))
       no_changes
       (trace w ++ [TxBegin; UpdateMetadata key v; TxEnd])).
Proof.
  unfold withTransaction, updateField_metadata, log, with_tx, with_data.
  cbn [cell sub data tx trace metadata_change executionCount_change no_changes
       default previous current].
  rewrite lookup_empty, <- !app_assoc. reflexivity.
Qed.

(** ** [saveEditableState], [set readOnly], [loadEditableState] *)

Lemma saveEditableState_in_sync notify w :
  editable_in_sync w = true -> saveEditableState notify w = w.
Proof. unfold saveEditableState, editable_in_sync. intros ->. reflexivity. Qed.

Lemma saveEditableState_out_of_sync fuel w :
  editable_in_sync w = false ->
  saveEditableState (changed fuel) w =
  let v := editable_encoding (_readOnly (cell w)) in
  mkWorld (cell w) (sub w)
    (set_metadata_field
       (match v with
        | Some x => <["editable" := x]> (metadata (data w))
        | None => delete "editable" (metadata (data w))
        end) (data w))
    no_changes
    (trace w ++ [TxBegin; UpdateMetadata "editable" v; TxEnd]).
Proof.
  unfold saveEditableState, editable_in_sync. intros ->.
  erewrite withTransaction_ext
    with (body' := updateField_metadata "editable"
                     (editable_encoding (_readOnly (cell w))));
    [| cbn [cell log with_tx]; destruct (_readOnly (cell w)); reflexivity ].
  rewrite withTransaction_updateField_metadata.
  apply changed_inert, editable_write_inert.
  destruct (_readOnly (cell w)); auto.
Qed.

Lemma editable_in_sync_iff w :
  editable_in_sync w = true <->
  (_readOnly (cell w) = true /\ metadata (data w) !! "editable" = Some (JBool false))
  \/ (_readOnly (cell w) = false /\ metadata (data w) !! "editable" = None).
Proof.
  unfold editable_in_sync, is_false_at, is_undefined_at.
  destruct (_readOnly (cell w)); cbn.
  - rewrite orb_false_r. split.
    + destruct (metadata (data w) !! "editable") as [[| [|] | | | |]|]; try discriminate.
      auto.
    + intros [[_ ->] | [? _]]; [reflexivity | discriminate].
  - split.
    + destruct (metadata (data w) !! "editable"); [discriminate | auto].
    + intros [[? _] | [_ ->]]; [discriminate | reflexivity].
Qed.

(** The value of the [editable] key once [saveEditableState] has run. *)
Lemma saveEditableState_lookup fuel w :
  metadata (data (saveEditableState (changed fuel) w)) !! "editable" =
  editable_encoding (_readOnly (cell w)).
Proof.
  destruct (editable_in_sync w) eqn:E.
  - rewrite saveEditableState_in_sync by assumption.
    apply editable_in_sync_iff in E as [[-> ->] | [-> ->]]; reflexivity.
  - rewrite saveEditableState_out_of_sync by assumption. cbn.
    destruct (_readOnly (cell w)); cbn.
    + apply lookup_insert_eq.
    + apply lookup_delete_eq.
Qed.

Lemma saveEditableState_lookup_ne fuel w key :
  key <> "editable" ->
  metadata (data (saveEditableState (changed fuel) w)) !! key =
  metadata (data w) !! key.
Proof.
  intros Hne. destruct (editable_in_sync w) eqn:E.
  - rewrite saveEditableState_in_sync by assumption. reflexivity.
  - rewrite saveEditableState_out_of_sync by assumption. cbn.
    destruct (_readOnly (cell w)); cbn.
    + apply lookup_insert_ne. congruence.
    + apply lookup_delete_ne. congruence.
Qed.

(** The calls [saveEditableState] makes: none, or one transaction with one
    write of the [editable] key, of [false] or of [null]. *)
Lemma saveEditableState_trace fuel w :
  trace (saveEditableState (changed fuel) w) =
  trace w ++
    (if editable_in_sync w then []
     else [TxBegin;
           UpdateMetadata "editable" (editable_encoding (_readOnly (cell w)));
           TxEnd]).
Proof.
  destruct (editable_in_sync w) eqn:E.
  - rewrite saveEditableState_in_sync by assumption. symmetry. apply app_nil_r.
  - rewrite saveEditableState_out_of_sync by assumption. reflexivity.
Qed.

Lemma saveEditableState_view fuel w :
  cell (saveEditableState (changed fuel) w) = cell w /\
  sub (saveEditableState (changed fuel) w) = sub w.
Proof.
  destruct (editable_in_sync w) eqn:E.
  - rewrite saveEditableState_in_sync by assumption. auto.
  - rewrite saveEditableState_out_of_sync by assumption. auto.
Qed.

(** [set readOnly] leaves the flag at the value given. *)
Lemma set_readOnly_readOnly fuel value w :
  _readOnly (cell (set_readOnly (changed fuel) value w)) = value.
Proof.
  unfold set_readOnly. destruct (Bool.eqb value (_readOnly (cell w))) eqn:E.
  - apply Bool.eqb_prop in E. congruence.
  - cbn [update log cell].
    destruct (_syncEditable _).
    + destruct (saveEditableState_view fuel (with_cell (set_readOnly_field value) w))
        as [-> _]. reflexivity.
    + reflexivity.
Qed.

Lemma loadEditableState_readOnly fuel w :
  _readOnly (cell (loadEditableState (changed fuel) w)) =
  is_false_at (metadata (data w)) "editable".
Proof. unfold loadEditableState. apply set_readOnly_readOnly. Qed.

Lemma is_false_at_iff (m : gmap string JSONValue) key :
  is_false_at m key = true <-> m !! key = Some (JBool false).
Proof.
  unfold is_false_at. destruct (m !! key) as [[| [|] | | | |]|]; split; congruence.
Qed.

(** [set readOnly] writes nothing but the [editable] key, and only to move
    it to the encoding of the new value. *)
Lemma set_readOnly_lookup fuel value w :
  metadata (data (set_readOnly (changed fuel) value w)) !! "editable" =
  if Bool.eqb value (_readOnly (cell w)) then metadata (data w) !! "editable"
  else if _syncEditable (cell w) then editable_encoding value
  else metadata (data w) !! "editable".
Proof.
  unfold set_readOnly. destruct (Bool.eqb value (_readOnly (cell w))); [reflexivity|].
  cbn [update log data with_cell cell set_readOnly_field _syncEditable].
  destruct (_syncEditable (cell w)); [| reflexivity].
  rewrite saveEditableState_lookup. reflexivity.
Qed.

(** C5: [saveEditableState] called when the view already matches the model
    (read-only with [editable === false], or editable with the key absent)
    returns the world it was given: the trace is the same, so no transaction
    was opened, and the metadata field is the same.  This holds whatever the
    datastore does when it delivers changes. *)
Theorem saveEditableState_matching_is_noop
    (notify : Changes -> World -> World) (w : World) :
  (_readOnly (cell w) = true /\ metadata (data w) !! "editable" = Some (JBool false))
  \/ (_readOnly (cell w) = false /\ metadata (data w) !! "editable" = None) ->
  saveEditableState notify w = w /\
  transactions (trace (saveEditableState notify w)) = transactions (trace w) /\
  metadata (data (saveEditableState notify w)) = metadata (data w).
Proof.
  intros H. apply editable_in_sync_iff in H.
  rewrite saveEditableState_in_sync by assumption. auto.
Qed.

(** A read-only cell over a record whose metadata holds [editable: false]. *)
Lemma saveEditableState_matching_is_noop_witness :
  let r := mkRecord (js "c1") (js "x = 1") {["editable" := JBool false]} None false [] in
  let w := loadEditableState (changed 1) (RawCell_new r) in
  (_readOnly (cell w) = true /\ metadata (data w) !! "editable" = Some (JBool false)) /\
  saveEditableState (changed 1) w = w /\
  transactions (trace (saveEditableState (changed 1) w)) = transactions (trace w) /\
  metadata (data (saveEditableState (changed 1) w)) = metadata (data w).
Proof.
  intros r w.
  assert (H : _readOnly (cell w) = true /\
              metadata (data w) !! "editable" = Some (JBool false))
    by (split; reflexivity).
  split; [exact H|].
  apply (saveEditableState_matching_is_noop (changed 1) w). left. exact H.
Defined.

(** C4: for a cell with [syncEditable] enabled,
    - [saveEditableState] leaves the [editable] key at [false] when the cell
      is read-only and absent when it is editable; the only metadata writes
      it makes are of that key and of that encoding ([false] or [null]), so
      [true] is never written;
    - [set readOnly] with a new value persists it the same way;
    - after [loadEditableState] the cell is read-only exactly when the
      metadata held [editable === false], and it still holds it then. *)
Theorem editable_tristate (fuel : nat) (w : World) :
  _syncEditable (cell w) = true ->
  (metadata (data (saveEditableState (changed fuel) w)) !! "editable" =
     (if _readOnly (cell w) then Some (JBool false) else None) /\
   exists evs,
     trace (saveEditableState (changed fuel) w) = trace w ++ evs /\
     forall key v, In (UpdateMetadata key v) evs ->
       key = "editable" /\ (v = Some (JBool false) \/ v = None) /\
       v <> Some (JBool true)) /\
  (forall value, value <> _readOnly (cell w) ->
     metadata (data (set_readOnly (changed fuel) value w)) !! "editable" =
       (if value then Some (JBool false) else None)) /\
  (_readOnly (cell (loadEditableState (changed fuel) w)) = true <->
     metadata (data w) !! "editable" = Some (JBool false)) /\
  (_readOnly (cell (loadEditableState (changed fuel) w)) = true <->
     metadata (data (loadEditableState (changed fuel) w)) !! "editable" =
       Some (JBool false)).
Proof.
  intros Hsync. repeat split.
  - apply saveEditableState_lookup.
  - eexists. split; [apply saveEditableState_trace|].
    intros key v Hin. destruct (editable_in_sync w); [destruct Hin|].
    destruct Hin as [|[[= <- <-]|[|[]]]]; try discriminate.
    destruct (_readOnly (cell w)); cbn; repeat split; auto; discriminate.
  - intros value Hne. rewrite set_readOnly_lookup, Hsync.
    destruct (Bool.eqb value (_readOnly (cell w))) eqn:E; [|reflexivity].
    apply Bool.eqb_prop in E. contradiction.
  - rewrite loadEditableState_readOnly. apply is_false_at_iff.
  - rewrite loadEditableState_readOnly. apply is_false_at_iff.
  - rewrite loadEditableState_readOnly. unfold loadEditableState.
    rewrite set_readOnly_lookup, Hsync.
    destruct (Bool.eqb _ _); [apply is_false_at_iff|].
    destruct (is_false_at _ _); [reflexivity | discriminate].
  - rewrite loadEditableState_readOnly. unfold loadEditableState.
    rewrite set_readOnly_lookup, Hsync.
    destruct (Bool.eqb _ _); [apply is_false_at_iff|].
    destruct (is_false_at _ _); [reflexivity | discriminate].
Qed.

(** A raw cell with [syncEditable] switched on. *)
Lemma editable_tristate_witness :
  let r := mkRecord (js "c1") (js "x = 1") {["editable" := JBool true]} None false [] in
  let w := set_readOnly (changed 1) true (set_syncEditable (changed 1) true (RawCell_new r)) in
  _syncEditable (cell w) = true /\
  metadata (data (saveEditableState (changed 1) w)) !! "editable" = Some (JBool false) /\
  (_readOnly (cell (loadEditableState (changed 1) w)) = true <->
     metadata (data w) !! "editable" = Some (JBool false)).
Proof.
  intros r w.
  assert (H : _syncEditable (cell w) = true) by reflexivity.
  split; [exact H|].
  destruct (editable_tristate 1 w H) as [[Hsave _] [_ [Hload _]]].
  split; [exact Hsave | exact Hload].
Defined.

(** ** [onMetadataChanged] *)

(** The collapse hooks have empty bodies in [Cell] and in [CodeCell]. *)
Lemma loadCollapseState_id w : loadCollapseState w = w.
Proof. unfold loadCollapseState. destruct (sub w); reflexivity. Qed.

Lemma saveCollapseState_id w : saveCollapseState w = w.
Proof. unfold saveCollapseState. destruct (sub w); reflexivity. Qed.

(** Of the reloads the listener asks for, only [loadEditableState] does
    anything. *)
Lemma onMetadataChanged_eq notify args w :
  onMetadataChanged notify args w =
  if truthy_at (current args) "editable" && _syncEditable (cell w)
     && negb (_savingMetadata (codeCell w))
  then loadEditableState notify w else w.
Proof.
  assert (same : forall (b : bool) (x : World), (if b then x else x) = x)
    by (intros [] ?; reflexivity).
  unfold onMetadataChanged, CodeCell_onMetadataChanged, Cell_onMetadataChanged,
    loadScrolledState.
  cbn zeta. rewrite ?loadCollapseState_id, ?same.
  rewrite ?loadCollapseState_id, ?same.
  unfold codeCell.
  destruct (sub w) as [| m | c]; cbn;
    destruct (truthy_at (current args) "editable"), (_syncEditable (cell w));
    try destruct (_savingMetadata c); reflexivity.
Qed.

(** A change whose current value for [editable] is truthy makes a cell with
    [syncEditable] reload its read-only state. *)
Lemma onMetadataChanged_truthy notify args w :
  truthy_at (current args) "editable" = true ->
  _syncEditable (cell w) = true ->
  _savingMetadata (codeCell w) = false ->
  onMetadataChanged notify args w = loadEditableState notify w.
Proof. intros H1 H2 H3. rewrite onMetadataChanged_eq, H1, H2, H3. reflexivity. Qed.

(** A change whose current value for [editable] is [false] or [null], the
    two values [saveEditableState] writes, is ignored. *)
Lemma onMetadataChanged_falsy notify args w :
  truthy_at (current args) "editable" = false ->
  onMetadataChanged notify args w = w.
Proof. intros H. rewrite onMetadataChanged_eq, H. reflexivity. Qed.

(** C6: another view of the record makes the cell read-only by writing
    [editable: false].  The datastore notifies this cell, which has
    [syncEditable] enabled; [onMetadataChanged] tests the new value for
    truthiness, [false] is falsy, and the cell is left as it was: still
    editable over a record that says read-only, where [loadEditableState]
    would have made it read-only. *)
Theorem onMetadataChanged_misses_editable_false :
  let r := mkRecord (js "c1") (js "x = 1") ∅ None false [] in
  let w0 := set_syncEditable (changed 1) true (RawCell_new r) in
  let w1 := with_data (set_metadata_field {["editable" := JBool false]}) w0 in
  let args := mkMapChange {["editable" := JNull]} {["editable" := JBool false]} in
  _syncEditable (cell w1) = true /\
  metadata (data w1) !! "editable" = Some (JBool false) /\
  onMetadataChanged (changed 1) args w1 = w1 /\
  _readOnly (cell (onMetadataChanged (changed 1) args w1)) = false /\
  _readOnly (cell (loadEditableState (changed 1) w1)) = true.
Proof. repeat split. Qed.

(** ** The arrangement of the widgets *)

Lemma arranged_arrangement w w' :
  arrangement w' = arrangement w -> arranged w -> arranged w'.
Proof.
  unfold arrangement, arranged. intros [= H1 H2 H3] [Hi Ho].
  rewrite H1, H2. split; [exact Hi|].
  destruct (sub w') as [| |c'], (sub w) as [| |c]; try discriminate; auto.
  injection H3 as -> -> ->. exact Ho.
Qed.

Ltac frame :=
  repeat match goal with
         | w : World |- _ => destruct w as [? [| ? | ?] ? ? ?]
         end;
  reflexivity.

Lemma arrangement_log e w : arrangement (log e w) = arrangement w.
Proof. reflexivity. Qed.

Lemma arrangement_with_data f w : arrangement (with_data f w) = arrangement w.
Proof. reflexivity. Qed.

Lemma arrangement_with_tx f w : arrangement (with_tx f w) = arrangement w.
Proof. reflexivity. Qed.

Lemma arrangement_setPrompt s w : arrangement (setPrompt s w) = arrangement w.
Proof. reflexivity. Qed.

Lemma arrangement_updateField_metadata key v w :
  arrangement (updateField_metadata key v w) = arrangement w.
Proof. reflexivity. Qed.

Lemma arrangement_updateField_executionCount n w :
  arrangement (updateField_executionCount n w) = arrangement w.
Proof. reflexivity. Qed.

Lemma arrangement_updateRecord n b w :
  arrangement (updateRecord n b w) = arrangement w.
Proof. reflexivity. Qed.

Lemma arrangement_set_outputsScrolled value w :
  arrangement (set_outputsScrolled value w) = arrangement w.
Proof.
  unfold set_outputsScrolled, saveScrolledState.
  destruct (_syncScrolled _); frame.
Qed.

Lemma arrangement_set_syncScrolled value w :
  arrangement (set_syncScrolled value w) = arrangement w.
Proof.
  unfold set_syncScrolled, loadScrolledState.
  destruct (Bool.eqb _ _); [reflexivity|]. destruct value; frame.
Qed.

Lemma arrangement_set_syncCollapse value w :
  arrangement (set_syncCollapse value w) = arrangement w.
Proof.
  unfold set_syncCollapse. rewrite loadCollapseState_id.
  destruct (Bool.eqb _ _); [reflexivity|]. destruct value; frame.
Qed.

Lemma arrangement_updateRenderedInput w :
  arrangement (snd (_updateRenderedInput w)) = arrangement w.
Proof.
  unfold _updateRenderedInput.
  destruct (negb (bool_decide _)); [|reflexivity].
  destruct (negb (_renderer _)); frame.
Qed.

Lemma arrangement_set_rendered value w :
  arrangement (set_rendered value w) = arrangement w.
Proof.
  unfold set_rendered. destruct (Bool.eqb _ _); [reflexivity|].
  assert (H : arrangement (_handleRendered
                (with_markdownCell (set_rendered_field value) w)) = arrangement w).
  { unfold _handleRendered, showEditor, renderInput.
    destruct (negb (_rendered _)).
    - frame.
    - rewrite arrangement_log, arrangement_updateRenderedInput. frame. }
  destruct (negb (_rendered _)); [rewrite arrangement_log|]; exact H.
Qed.

Section Frame.

Variable notify : Changes -> World -> World.
Hypothesis notify_frame : forall ch w, arrangement (notify ch w) = arrangement w.

Lemma arrangement_withTransaction body w :
  (forall w, arrangement (body w) = arrangement w) ->
  arrangement (withTransaction notify body w) = arrangement w.
Proof.
  intros Hbody. unfold withTransaction.
  rewrite notify_frame, arrangement_with_tx, arrangement_log, Hbody.
  reflexivity.
Qed.

Lemma arrangement_saveEditableState w :
  arrangement (saveEditableState notify w) = arrangement w.
Proof.
  unfold saveEditableState. destruct (_ || _); [reflexivity|].
  apply arrangement_withTransaction. intros w'.
  destruct (_readOnly _); reflexivity.
Qed.

Lemma arrangement_set_readOnly value w :
  arrangement (set_readOnly notify value w) = arrangement w.
Proof.
  unfold set_readOnly. destruct (Bool.eqb _ _); [reflexivity|].
  unfold update. rewrite arrangement_log.
  destruct (_syncEditable _); [rewrite arrangement_saveEditableState|]; frame.
Qed.

Lemma arrangement_loadEditableState w :
  arrangement (loadEditableState notify w) = arrangement w.
Proof. apply arrangement_set_readOnly. Qed.

Lemma arrangement_set_syncEditable value w :
  arrangement (set_syncEditable notify value w) = arrangement w.
Proof.
  unfold set_syncEditable. destruct (Bool.eqb _ _); [reflexivity|].
  destruct value; [rewrite arrangement_loadEditableState|]; frame.
Qed.

Lemma arrangement_onMetadataChanged args w :
  arrangement (onMetadataChanged notify args w) = arrangement w.
Proof.
  rewrite onMetadataChanged_eq.
  destruct (_ && _); [apply arrangement_loadEditableState | reflexivity].
Qed.

Lemma arrangement_listeners ch w :
  arrangement (listeners notify ch w) = arrangement w.
Proof.
  unfold listeners.
  set (w1 := match metadata_change ch with
             | Some args => onMetadataChanged notify args w
             | None => w
             end).
  assert (H1 : arrangement w1 = arrangement w).
  { subst w1. destruct (metadata_change ch);
      [apply arrangement_onMetadataChanged | reflexivity]. }
  rewrite <- H1. unfold onExecutionCountChanged.
  destruct (sub w1), (executionCount_change ch) as [[p [n|]]|]; reflexivity.
Qed.

End Frame.

Lemma arrangement_changed fuel ch w : arrangement (changed fuel ch w) = arrangement w.
Proof.
  revert ch w. induction fuel as [|fuel IH]; intros ch w; [reflexivity|].
  cbn [changed]. apply arrangement_listeners. exact IH.
Qed.

(** *** The setters keep the widgets arranged *)

Lemma arranged_set_inputHidden value w :
  arranged w -> arranged (set_inputHidden value w).
Proof.
  unfold set_inputHidden. destruct (Bool.eqb _ _) eqn:E; [auto|].
  rewrite saveCollapseState_id.
  assert (same : forall (b : bool) (x : World), (if b then x else x) = x)
    by (intros [] ?; reflexivity).
  rewrite same. clear same.
  destruct w as [[ro ih sc se iw p] s d t tr]. cbn in E.
  unfold arranged. cbn. intros [-> Ho].
  destruct ih, value; try discriminate E; destruct s as [| m | c]; cbn;
    try (split; [reflexivity | exact I]).
  - destruct c as [oh os ss sm ow owh f]. cbn in *. destruct Ho as [-> ->].
    unfold CodeCell_handleInputHidden. cbn. destruct oh; cbn; auto.
  - destruct c as [oh os ss sm ow owh f]. cbn in *. destruct Ho as [-> ->].
    unfold CodeCell_handleInputHidden. cbn. destruct oh; cbn; auto.
Qed.

Lemma arranged_set_outputHidden value w :
  arranged w -> arranged (set_outputHidden value w).
Proof.
  unfold set_outputHidden. destruct (Bool.eqb _ _) eqn:E; [auto|].
  rewrite saveCollapseState_id.
  assert (same : forall (b : bool) (x : World), (if b then x else x) = x)
    by (intros [] ?; reflexivity).
  rewrite same. clear same.
  destruct w as [[ro ih sc se iw p] s d t tr].
  unfold arranged. cbn. intros [-> Ho].
  destruct s as [| m | c].
  - destruct value, ih; cbn; auto.
  - destruct value, ih; cbn; auto.
  - destruct c as [oh os ss sm ow owh f]. cbn in *. destruct Ho as [-> ->].
    destruct oh, value; try discriminate E; destruct ih; cbn; auto.
Qed.

(** *** Reachable states *)

Lemma arranged_new t r : arranged (new t r).
Proof.
  destruct t; cbn.
  - unfold arranged. cbn. auto.
  - unfold MarkdownCell_new, renderInput.
    apply (arranged_arrangement (Cell_new r (Markdown (mkMarkdownCell true [] false)))).
    + rewrite arrangement_log, arrangement_updateRenderedInput. reflexivity.
    + unfold arranged. cbn. auto.
  - unfold arranged. cbn. auto.
Qed.

Lemma arranged_execute fuel session md w :
  arranged w -> arranged (world_of (execute (changed fuel) session md w)).
Proof.
  intros Hw. unfold execute. destruct (_ || _); cbn [world_of].
  - eapply arranged_arrangement; [|exact Hw].
    apply arrangement_withTransaction; [apply arrangement_changed|].
    reflexivity.
  - apply (arranged_arrangement (set_outputHidden false w));
      [| apply arranged_set_outputHidden, Hw].
    unfold OutputArea_execute.
    set (w1 := withTransaction _ _ _).
    assert (H1 : arrangement w1 = arrangement (set_outputHidden false w)).
    { subst w1. rewrite arrangement_withTransaction;
        [reflexivity | apply arrangement_changed | reflexivity]. }
    rewrite <- H1. destruct (kernel session); [frame | reflexivity].
Qed.

Lemma arrangement_execute_resume fuel saved s w :
  arrangement (snd (execute_resume (changed fuel) saved s w)) = arrangement w.
Proof.
  destruct s as [msg | e]; cbn.
  - apply arrangement_withTransaction; [apply arrangement_changed | reflexivity].
  - destruct (_ && _); reflexivity.
Qed.

Lemma arrangement_initializeState fuel w :
  arrangement (Cell_initializeState (changed fuel) w) = arrangement w /\
  arrangement (CodeCell_initializeState (changed fuel) w) = arrangement w.
Proof.
  assert (H : arrangement (Cell_initializeState (changed fuel) w) = arrangement w).
  { unfold Cell_initializeState. rewrite loadCollapseState_id.
    apply arrangement_loadEditableState, arrangement_changed. }
  split; [exact H|]. unfold CodeCell_initializeState, loadScrolledState.
  destruct (executionCount _) as [n|]; [destruct (n =? 0)%Z|];
    rewrite arrangement_setPrompt; exact H.
Qed.

Lemma arranged_perform fuel a w : arranged w -> arranged (perform fuel a w).
Proof.
  intros Hw.
  assert (Hf : forall w', arrangement w' = arrangement w -> arranged w')
    by (intros w' E; exact (arranged_arrangement w w' E Hw)).
  pose proof (arrangement_changed fuel) as Hc.
  destruct a; cbn [perform].
  - destruct (sub w); apply Hf, arrangement_set_readOnly, Hc.
  - destruct (sub w); apply arranged_set_inputHidden, Hw.
  - destruct (sub w); apply Hf, arrangement_set_syncCollapse.
  - destruct (sub w); apply Hf, arrangement_set_syncEditable, Hc.
  - destruct (sub w); apply Hf, arrangement_saveEditableState, Hc.
  - destruct (sub w); apply Hf, arrangement_loadEditableState, Hc.
  - destruct (sub w); apply Hf, arrangement_initializeState.
  - destruct (sub w); auto using arranged_set_outputHidden.
  - destruct (sub w); auto using arrangement_set_outputsScrolled.
  - destruct (sub w); auto using arrangement_set_syncScrolled.
  - destruct (sub w); auto using arranged_execute.
  - destruct (sub w); auto using arrangement_execute_resume.
  - destruct (sub w); auto using arrangement_set_rendered.
  - destruct (sub w); apply Hf; reflexivity.
  - destruct (sub w); apply Hf, Hc.
Qed.

(** Every state reached from a constructor is arranged. *)
Lemma arranged_run fuel actions w : arranged w -> arranged (run fuel actions w).
Proof.
  revert w. induction actions as [|a rest IH]; intros w Hw; [exact Hw|].
  cbn [run]. apply IH, arranged_perform, Hw.
Qed.

Lemma set_inputHidden_twice w :
  arranged w ->
  let h := _inputHidden (cell w) in
  let w1 := set_inputHidden (negb h) w in
  let w2 := set_inputHidden h w1 in
  _inputHidden (cell w1) = negb h /\
  _inputWrapper (cell w1) =
    [InputCollapser; if h then InputArea else InputPlaceholder] /\
  _inputWrapper (cell w2) =
    [InputCollapser; if h then InputPlaceholder else InputArea] /\
  arrangement w2 = arrangement w /\
  cell w2 = cell w /\ sub w2 = sub w /\ data w2 = data w.
Proof.
  destruct w as [[ro ih sc se iw p] s d t tr].
  unfold arranged. cbn. intros [-> Ho].
  destruct s as [| m | c].
  - destruct ih, sc; vm_compute; repeat split.
  - destruct ih, sc; vm_compute; repeat split.
  - destruct c as [oh os ss sm ow owh f]. cbn in Ho. destruct Ho as [-> ->].
    destruct ih, sc, oh; vm_compute; repeat split.
Qed.

(** C8: in every state a cell of any kind can reach from its constructor,
    setting [inputHidden] to the opposite value and then back restores the
    arrangement of the widgets.  After the first assignment the input wrapper
    holds the placeholder in place of the input area (or the input area in
    place of the placeholder, when the input was hidden); after the second it
    holds what it held at first, and so does the output wrapper of a code
    cell; the fields of the widget and the record are what they were. *)
Theorem inputHidden_toggle_twice
    (fuel : nat) (t : CellType) (r : CellRecord) (actions : list Action) :
  let w := run fuel actions (new t r) in
  let h := _inputHidden (cell w) in
  let w1 := set_inputHidden (negb h) w in
  let w2 := set_inputHidden h w1 in
  _inputHidden (cell w1) = negb h /\
  _inputWrapper (cell w1) =
    [InputCollapser; if h then InputArea else InputPlaceholder] /\
  _inputWrapper (cell w2) =
    [InputCollapser; if h then InputPlaceholder else InputArea] /\
  arrangement w2 = arrangement w /\
  cell w2 = cell w /\ sub w2 = sub w /\ data w2 = data w.
Proof. apply set_inputHidden_twice, arranged_run, arranged_new. Qed.

(** ** [CodeCell.handleInputHidden] *)

(** C9: for a code cell, [handleInputHidden(false)] leaves the output wrapper
    shown, whatever it was; [handleInputHidden(true)] leaves it hidden only
    if it was hidden already or the outputs are hidden, so with visible
    outputs it stays as it was; nothing else of the widget or the record
    changes.  Through the setter, from an arranged state: showing the input
    shows the output wrapper, and hiding the input while the outputs are
    visible leaves the output wrapper shown. *)
Theorem handleInputHidden_cascade (w : World) (c : CodeCell) :
  sub w = Code c ->
  _outputWrapper_isHidden (codeCell (handleInputHidden false w)) = false /\
  _outputWrapper_isHidden (codeCell (handleInputHidden true w)) =
    _outputWrapper_isHidden c || _outputHidden c /\
  (_outputHidden c = false ->
   _outputWrapper_isHidden (codeCell (handleInputHidden true w)) =
     _outputWrapper_isHidden c) /\
  (forall value,
     cell (handleInputHidden value w) = cell w /\
     data (handleInputHidden value w) = data w /\
     _outputHidden (codeCell (handleInputHidden value w)) = _outputHidden c /\
     _outputWrapper (codeCell (handleInputHidden value w)) = _outputWrapper c) /\
  (arranged w ->
   _outputWrapper_isHidden (codeCell (set_inputHidden false w)) = false /\
   (_outputHidden c = false ->
    _outputWrapper_isHidden (codeCell (set_inputHidden true w)) = false)).
Proof.
  destruct w as [[ro ih sc se iw p] s d t tr]. cbn. intros ->.
  destruct c as [oh os ss sm ow owh f].
  unfold handleInputHidden, CodeCell_handleInputHidden. cbn.
  repeat split.
  - destruct owh; reflexivity.
  - destruct owh, oh; reflexivity.
  - intros ->. destruct owh; reflexivity.
  - destruct value, owh, oh; reflexivity.
  - destruct value, owh, oh; reflexivity.
  - destruct value, owh, oh; reflexivity.
  - destruct value, owh, oh; reflexivity.
  - match goal with Ha : arranged _ |- _ =>
      unfold arranged in Ha; cbn in Ha; destruct Ha as [-> [-> ->]] end.
    destruct ih, sc, oh; reflexivity.
  - intros ->.
    match goal with Ha : arranged _ |- _ =>
      unfold arranged in Ha; cbn in Ha; destruct Ha as [-> [-> ->]] end.
    destruct ih, sc; reflexivity.
Qed.

(** A code cell whose input and output are both collapsed. *)
Lemma handleInputHidden_cascade_witness :
  let r := mkRecord (js "c1") (js "x = 1") ∅ None false [] in
  let w := set_outputHidden true (set_inputHidden true (CodeCell_new r)) in
  sub w = Code (codeCell w) /\
  _outputWrapper_isHidden (codeCell w) = true /\
  _outputWrapper_isHidden (codeCell (handleInputHidden false w)) = false.
Proof.
  intros r w.
  assert (H : sub w = Code (codeCell w)) by reflexivity.
  split; [exact H|]. split; [reflexivity|].
  exact (proj1 (handleInputHidden_cascade w (codeCell w) H)).
Defined.

(** ** [outputsScrolled] *)

(** C10 fails as stated.  A code cell over a record whose metadata holds
    [scrolled: "auto"]: enabling [syncScrolled] loads nothing
    ([_outputsScrolled] stays undefined, not [false]); setting
    [outputsScrolled] to [true] writes nothing (no call is made, the key
    still holds ["auto"]); and a further [loadScrolledState] leaves
    [outputsScrolled] at [true]. *)
Lemma outputsScrolled_not_persisted :
  let r := mkRecord (js "c1") (js "x = 1")
             {["scrolled" := JString (js "auto")]} None false [] in
  let w0 := set_syncScrolled true (CodeCell_new r) in
  let w1 := set_outputsScrolled true w0 in
  _syncScrolled (codeCell w0) = true /\
  _outputsScrolled (codeCell w0) = None /\
  _outputsScrolled (codeCell w1) = Some true /\
  metadata (data w1) !! "scrolled" = Some (JString (js "auto")) /\
  trace w1 = trace w0 /\
  _outputsScrolled (codeCell (loadScrolledState w1)) = Some true.
Proof. repeat split. Qed.

(** C10, amended: [outputsScrolled] is view state only.  The setter stores
    the value in the widget and makes no call to the datastore, with
    [syncScrolled] enabled or not; [saveScrolledState] and
    [loadScrolledState] return the world unchanged, whatever the metadata
    holds under [scrolled]; [set syncScrolled] changes its flag and nothing
    else. *)
Theorem outputsScrolled_view_only (w : World) (c : CodeCell) (value : bool) :
  sub w = Code c ->
  _outputsScrolled (codeCell (set_outputsScrolled value w)) = Some value /\
  data (set_outputsScrolled value w) = data w /\
  trace (set_outputsScrolled value w) = trace w /\
  cell (set_outputsScrolled value w) = cell w /\
  saveScrolledState w = w /\
  loadScrolledState w = w /\
  _syncScrolled (codeCell (set_syncScrolled value w)) = value /\
  _outputsScrolled (codeCell (set_syncScrolled value w)) = _outputsScrolled c /\
  data (set_syncScrolled value w) = data w /\
  trace (set_syncScrolled value w) = trace w.
Proof.
  destruct w as [cl s d t tr]. cbn. intros ->.
  destruct c as [oh os ss sm ow owh f].
  unfold set_outputsScrolled, set_syncScrolled, saveScrolledState,
    loadScrolledState. cbn.
  repeat split; destruct ss, value; reflexivity.
Qed.

(** A code cell with [syncScrolled] enabled over [scrolled: "auto"]. *)
Lemma outputsScrolled_view_only_witness :
  let r := mkRecord (js "c1") (js "x = 1")
             {["scrolled" := JString (js "auto")]} None false [] in
  let w := set_syncScrolled true (CodeCell_new r) in
  sub w = Code (codeCell w) /\
  _outputsScrolled (codeCell (set_outputsScrolled false w)) = Some false /\
  data (set_outputsScrolled false w) = data w.
Proof.
  intros r w.
  assert (H : sub w = Code (codeCell w)) by reflexivity.
  split; [exact H|].
  destruct (outputsScrolled_view_only w (codeCell w) false H) as (H1 & H2 & _).
  split; [exact H1 | exact H2].
Defined.

(** ** [MarkdownCell._updateRenderedInput] *)

Lemma DEFAULT_MARKDOWN_TEXT_nonempty : DEFAULT_MARKDOWN_TEXT <> [].
Proof. discriminate. Qed.

(** C7: let [shown] be the source of a markdown cell, or
    [DEFAULT_MARKDOWN_TEXT] when the source is the empty string.
    - If [shown] is the text rendered last, [_updateRenderedInput] changes
      nothing, calls nothing and returns a resolved promise.
    - Otherwise it creates the renderer if there is none yet, and only then,
      asks it to render the bundle [{'text/markdown': shown}], records
      [shown] as rendered last and returns the promise of the rendering.
    - With an empty source [shown] is the placeholder; the text handed to
      the renderer is never empty. *)
Theorem updateRenderedInput_spec (w : World) (m : MarkdownCell) :
  sub w = Markdown m ->
  let shown := if nonempty (text (data w)) then text (data w)
               else DEFAULT_MARKDOWN_TEXT in
  (shown = _prevText m -> _updateRenderedInput w = (Resolved, w)) /\
  (shown <> _prevText m ->
     fst (_updateRenderedInput w) = Rendering /\
     trace (snd (_updateRenderedInput w)) =
       trace w
       ++ (if _renderer m then [] else [CreateRenderer "text/markdown"])
       ++ [RenderModel [("text/markdown", shown)]] /\
     sub (snd (_updateRenderedInput w)) =
       Markdown (mkMarkdownCell (_rendered m) shown true) /\
     cell (snd (_updateRenderedInput w)) = cell w /\
     data (snd (_updateRenderedInput w)) = data w) /\
  (text (data w) = [] -> shown = DEFAULT_MARKDOWN_TEXT) /\
  shown <> [] /\
  _prevText (markdownCell (snd (_updateRenderedInput w))) = shown.
Proof.
  destruct w as [cl s d t tr]. cbn. intros ->.
  set (shown := if nonempty _ then _ else _).
  assert (Hshown : shown <> []).
  { subst shown. destruct (text d) eqn:E; cbn;
      [apply DEFAULT_MARKDOWN_TEXT_nonempty | discriminate]. }
  unfold _updateRenderedInput. cbn. fold shown.
  destruct m as [rd pt rn]. cbn.
  destruct (bool_decide_reflect (shown = pt)) as [Heq | Hne]; cbn.
  - repeat split; try congruence.
    intros E. subst shown. rewrite E. reflexivity.
  - repeat split; try contradiction; try (destruct rn; reflexivity).
    + destruct rn; cbn; rewrite <- ?app_assoc; reflexivity.
    + intros E. subst shown. rewrite E. reflexivity.
    + exact Hshown.
Qed.

(** A markdown cell with an empty source, as constructed. *)
Lemma updateRenderedInput_spec_witness :
  let r := mkRecord (js "c1") [] ∅ None false [] in
  let w := MarkdownCell_new r in
  sub w = Markdown (markdownCell w) /\
  _prevText (markdownCell w) = DEFAULT_MARKDOWN_TEXT /\
  _updateRenderedInput w = (Resolved, w).
Proof.
  intros r w.
  assert (H : sub w = Markdown (markdownCell w)) by reflexivity.
  split; [exact H|]. split; [reflexivity|].
  apply (proj1 (updateRenderedInput_spec w (markdownCell w) H)). reflexivity.
Defined.

(** The constructor of a markdown cell with an empty source renders the
    placeholder. *)
Lemma MarkdownCell_new_empty (r : CellRecord) :
  text r = [] ->
  trace (MarkdownCell_new r) =
    [Attach InputWrapper InputCollapser; Attach InputWrapper InputArea;
     CreateRenderer "text/markdown";
     RenderModel [("text/markdown", DEFAULT_MARKDOWN_TEXT)]; RenderInput].
Proof.
  intros E. unfold MarkdownCell_new, _updateRenderedInput. cbn. rewrite E.
  reflexivity.
Qed.

(** ** [String.prototype.trim] *)

Lemma trimStart_nil_iff s : trimStart s = [] <-> forallb is_white s = true.
Proof.
  induction s as [|c r IH]; cbn; [tauto|].
  destruct (is_white c); cbn; [exact IH | split; discriminate].
Qed.

Lemma trimStart_head s c r : trimStart s = c :: r -> is_white c = false.
Proof.
  induction s as [|a s IH]; cbn; [discriminate|].
  destruct (is_white a) eqn:E; [exact IH | congruence].
Qed.

(** A string trims to the empty string exactly when it consists of white
    space. *)
Lemma trim_nil_iff s : trim s = [] <-> forallb is_white s = true.
Proof.
  unfold trim, trimEnd. rewrite <- trimStart_nil_iff. split.
  - intros H. apply (f_equal (@rev N)) in H. rewrite rev_involutive in H.
    cbn in H. apply trimStart_nil_iff in H.
    destruct (trimStart s) as [|c r] eqn:E; [reflexivity|].
    apply trimStart_head in E.
    rewrite forallb_forall in H. specialize (H c).
    rewrite H in E; [discriminate|]. apply in_rev. rewrite rev_involutive.
    left. reflexivity.
  - intros ->. reflexivity.
Qed.

Lemma trim_no_white s :
  forallb (fun c => negb (is_white c)) s = true -> trim s = s.
Proof.
  intros H. unfold trim, trimEnd.
  assert (Hs : forall t, forallb (fun c => negb (is_white c)) t = true ->
                         trimStart t = t).
  { intros [|c r]; cbn; [reflexivity|]. destruct (is_white c); [discriminate|].
    reflexivity. }
  rewrite (Hs s H), Hs, rev_involutive; [reflexivity|].
  rewrite forallb_forall in *. intros c Hc. apply H, in_rev, Hc.
Qed.

(** ** [CodeCell.execute] *)

(** A transaction whose changes no listener reacts to. *)
Lemma withTransaction_inert fuel body w :
  inert (tx (body (log TxBegin (with_tx (fun _ => no_changes) w)))) ->
  withTransaction (changed fuel) body w =
  with_tx (fun _ => no_changes)
    (log TxEnd (body (log TxBegin (with_tx (fun _ => no_changes) w)))).
Proof.
  intros H. unfold withTransaction. cbn zeta.
  apply changed_inert. exact H.
Qed.

Lemma executionCount_null_inert old :
  inert (mkChanges None (Some (mkRegisterChange old None))).
Proof. split; [intros args [= <-]; reflexivity | discriminate]. Qed.

(** C3: when the source is blank (it trims to the empty string) or the
    session has no kernel, [execute] completes at once and returns
    [undefined].  It has made one transaction that sets the execution count
    to [null] and clears the outputs, and no other call: nothing was
    submitted to a kernel, and the widget is as it was. *)
Theorem execute_blank_or_no_kernel
    (fuel : nat) (session : IClientSession)
    (md : option (gmap string JSONValue)) (w : World) :
  trim (text (data w)) = [] \/ kernel session = None ->
  let w' := world_of (execute (changed fuel) session md w) in
  execute (changed fuel) session md w = Completed (Returned None) w' /\
  executionCount (data w') = None /\
  outputs (data w') = [] /\
  trace w' = trace w ++ [TxBegin; UpdateExecutionCount None; ClearOutputs; TxEnd] /\
  (forall code md' f, In (RequestExecute code md' f) (trace w') ->
                      In (RequestExecute code md' f) (trace w)) /\
  cell w' = cell w /\ sub w' = sub w /\
  text (data w') = text (data w) /\
  metadata (data w') = metadata (data w) /\
  trusted (data w') = trusted (data w).
Proof.
  intros H. unfold execute.
  assert (negb (nonempty (trim (text (data w))))
          || negb (bool_decide (is_Some (kernel session))) = true) as ->.
  { destruct H as [-> | ->]; [reflexivity|]. apply orb_true_r. }
  cbn [world_of]. rewrite withTransaction_inert by apply executionCount_null_inert.
  cbn. rewrite <- !app_assoc. repeat split.
  intros code md' f Hin. apply in_app_or in Hin as [Hin | Hin]; [exact Hin|].
  cbn in Hin. intuition discriminate.
Qed.

(** A code cell whose source is white space only, with a live kernel. *)
Lemma execute_blank_or_no_kernel_witness :
  let r := mkRecord (js "c1") [32; 9; 10]%N ∅ (Some 4%Z) true [JNull] in
  let session := mkSession (Some (mkKernel 1)) in
  let w := CodeCell_new r in
  trim (text (data w)) = [] /\
  execute (changed 1) session None w =
    Completed (Returned None) (world_of (execute (changed 1) session None w)) /\
  executionCount (data (world_of (execute (changed 1) session None w))) = None /\
  outputs (data (world_of (execute (changed 1) session None w))) = [].
Proof.
  intros r session w.
  assert (H : trim (text (data w)) = []) by reflexivity.
  split; [exact H|].
  destruct (execute_blank_or_no_kernel 1 session None w (or_introl H))
    as (H1 & H2 & H3 & _).
  split; [exact H1|]. split; [exact H2 | exact H3].
Defined.

(** C2 fails as stated: the changes are not all made inside the transaction.
    A code cell with collapsed output, a source that is not blank and a live
    kernel: the output area is put back and the prompt is set to ['*'] before
    the transaction is opened; the transaction holds the two writes to the
    record only. *)
Lemma execute_prompt_set_outside_transaction :
  let r := mkRecord (js "c1") (js "1+1") ∅ (Some 3%Z) false [] in
  let session := mkSession (Some (mkKernel 7)) in
  let w := set_outputHidden true (CodeCell_new r) in
  let w' := world_of (execute (changed 1) session None w) in
  let new_events := skipn (length (trace w)) (trace w') in
  new_events =
    [Detach OutputWrapper OutputPlaceholder; Attach OutputWrapper OutputArea;
     SetPrompt (js "*");
     TxBegin; UpdateExecutionCount None; UpdateTrusted true; TxEnd;
     RequestExecute (js "1+1") {["cellId" := JString (js "c1")]} 7] /\
  In (SetPrompt (js "*")) (outside_transactions false new_events) /\
  In (Attach OutputWrapper OutputArea) (outside_transactions false new_events).
Proof.
  repeat split.
  - vm_compute. tauto.
  - vm_compute. tauto.
Qed.

(** C2, amended: with a source that is not blank and a live kernel,
    [execute] reaches its [await] having, in this order,
    - put the output area back in place of its placeholder if the output was
      hidden (showing the output wrapper first if that was hidden),
    - set the prompt to ['*'],
    - written [executionCount: null] and [trusted: true] in one transaction,
    - submitted the source, with [cellId] added to the metadata, to the
      kernel, and saved the future of that request.
    The first two are changes of the view made before the transaction is
    opened; the transaction holds the two writes to the record. *)
Theorem execute_prepares
    (fuel : nat) (session : IClientSession) (k : Kernel)
    (md : option (gmap string JSONValue)) (w : World) (c : CodeCell) :
  sub w = Code c ->
  trim (text (data w)) <> [] ->
  kernel session = Some k ->
  let w' := world_of (execute (changed fuel) session md w) in
  execute (changed fuel) session md w = Awaiting (Some (requestExecute k)) w' /\
  _outputHidden (codeCell w') = false /\
  prompt (cell w') = js "*" /\
  executionCount (data w') = None /\
  trusted (data w') = true /\
  future (codeCell w') = Some (requestExecute k) /\
  sub w' = Code (codeCell w') /\
  text (data w') = text (data w) /\
  metadata (data w') = metadata (data w) /\
  outputs (data w') = outputs (data w) /\
  trace w' =
    trace w
    ++ (if _outputHidden c
        then (if _outputWrapper_isHidden c then [Show OutputWrapper] else [])
             ++ [Detach OutputWrapper OutputPlaceholder;
                 Attach OutputWrapper OutputArea]
        else [])
    ++ [SetPrompt (js "*");
        TxBegin; UpdateExecutionCount None; UpdateTrusted true; TxEnd;
        RequestExecute (text (data w))
          (<["cellId" := JString (record (data w))]> (default ∅ md))
          (requestExecute k)].
Proof.
  intros Hsub Hcode Hk. unfold execute.
  assert (negb (nonempty (trim (text (data w))))
          || negb (bool_decide (is_Some (kernel session))) = false) as ->.
  { rewrite Hk. destruct (trim (text (data w))); [contradiction | reflexivity]. }
  cbn [world_of].
  rewrite withTransaction_inert by apply executionCount_null_inert.
  unfold OutputArea_execute. rewrite Hk.
  destruct w as [cl s d t tr]. cbn in Hsub. subst s.
  destruct c as [oh os ss sm ow owh f].
  assert (same : forall (b : bool) (x : World), (if b then x else x) = x)
    by (intros [] ?; reflexivity).
  unfold set_outputHidden. rewrite !saveCollapseState_id, !same.
  destruct oh, owh; cbn; rewrite <- ?app_assoc; repeat split.
Qed.

(** A code cell with collapsed input and output. *)
Lemma execute_prepares_witness :
  let r := mkRecord (js "c1") (js "1+1") ∅ (Some 3%Z) false [] in
  let session := mkSession (Some (mkKernel 7)) in
  let w := set_outputHidden true (set_inputHidden true (CodeCell_new r)) in
  let w' := world_of (execute (changed 1) session None w) in
  (sub w = Code (codeCell w) /\ trim (text (data w)) <> [] /\
   kernel session = Some (mkKernel 7)) /\
  execute (changed 1) session None w = Awaiting (Some 7) w' /\
  _outputHidden (codeCell w') = false /\
  prompt (cell w') = js "*".
Proof.
  intros r session w w'.
  assert (H1 : sub w = Code (codeCell w)) by reflexivity.
  assert (H2 : trim (text (data w)) <> []) by discriminate.
  assert (H3 : kernel session = Some (mkKernel 7)) by reflexivity.
  split; [auto|].
  destruct (execute_prepares 1 session (mkKernel 7) None w (codeCell w) H1 H2 H3)
    as (E1 & E2 & E3 & _).
  split; [exact E1|]. split; [exact E2 | exact E3].
Defined.


Lemma execute_resume_on_live notify h saved s w :
  _data h = true -> _input h = true -> _output h = true ->
  execute_resume_on notify h saved s w = execute_resume notify saved s w.
Proof.
  intros Hd Hi Ho. destruct s as [msg | e]; cbn [execute_resume_on execute_resume].
  - rewrite Hd. reflexivity.
  - unfold execute_catch. rewrite Hi, Ho. cbn [negb].
    destruct (bool_decide (message e = js "Canceled")),
      (bool_decide (future (codeCell w) = saved)); reflexivity.
Qed.




(** When the awaited promise is fulfilled, [execute] writes the execution
    count of the reply in a transaction and returns the reply; the listener
    of the execution count then shows it in the prompt. *)
Lemma execute_fulfilled fuel saved msg w c :
  sub w = Code c ->
  let r := execute_resume (changed (S fuel)) saved (Fulfilled msg) w in
  fst r = Returned (Some msg) /\
  executionCount (data (snd r)) = execution_count msg /\
  prompt (cell (snd r)) =
    match execution_count msg with
    | Some n => number_to_string n
    | None => prompt (cell w)
    end.
Proof.
  destruct w as [cl s d t tr]. cbn [sub]. intros ->.
  unfold execute_resume, withTransaction. cbn.
  unfold onExecutionCountChanged. cbn.
  destruct (execution_count msg); repeat split.
Qed.

(** The world in which [execute] awaits the reply. *)
Lemma execute_awaits
    (fuel : nat) (session : IClientSession) (k : Kernel)
    (md : option (gmap string JSONValue)) (w : World) (c : CodeCell) :
  sub w = Code c ->
  trim (text (data w)) <> [] ->
  kernel session = Some k ->
  let w' := world_of (execute (changed fuel) session md w) in
  sub w' = Code (codeCell w') /\
  text (data w') = text (data w) /\
  prompt (cell w') = js "*" /\
  future (codeCell w') = Some (requestExecute k).
Proof.
  intros Hsub Hcode Hk. unfold execute.
  assert (negb (nonempty (trim (text (data w))))
          || negb (bool_decide (is_Some (kernel session))) = false) as ->.
  { rewrite Hk. destruct (trim (text (data w))); [contradiction | reflexivity]. }
  cbn [world_of].
  rewrite withTransaction_inert by apply executionCount_null_inert.
  unfold OutputArea_execute. rewrite Hk.
  destruct w as [cl s d t tr]. cbn in Hsub. subst s.
  destruct c as [oh os ss sm ow owh f].
  assert (same : forall (b : bool) (x : World), (if b then x else x) = x)
    by (intros [] ?; reflexivity).
  unfold set_outputHidden. rewrite !saveCollapseState_id, !same.
  destruct oh, owh; cbn; repeat split.
Qed.

(** Two overlapping executions: a second request is submitted before the
    first is cancelled.  The cancellation of the first, being stale, leaves
    the prompt of the second in place. *)
Lemma stale_cancellation_keeps_prompt
    fuel session1 session2 k1 k2 md1 md2 e w c :
  sub w = Code c ->
  trim (text (data w)) <> [] ->
  kernel session1 = Some k1 ->
  kernel session2 = Some k2 ->
  requestExecute k1 <> requestExecute k2 ->
  let w1 := world_of (execute (changed fuel) session1 md1 w) in
  let w2 := world_of (execute (changed fuel) session2 md2 w1) in
  execute_resume (changed fuel) (Some (requestExecute k1)) (Rejected e) w2
    = (Thrown e, w2) /\
  prompt (cell w2) = js "*".
Proof.
  intros Hsub Hcode Hk1 Hk2 Hne w1 w2.
  destruct (execute_awaits fuel session1 k1 md1 w c Hsub Hcode Hk1)
    as (Hsub1 & Htext1 & _).
  fold w1 in Hsub1, Htext1. rewrite <- Htext1 in Hcode.
  destruct (execute_awaits fuel session2 k2 md2 w1 _ Hsub1 Hcode Hk2)
    as (_ & _ & Hp & Hf).
  fold w2 in Hp, Hf. split; [|exact Hp].
  cbn. rewrite Hf.
  rewrite (bool_decide_eq_false_2 (Some (requestExecute k2) = Some (requestExecute k1)))
    by congruence.
  rewrite andb_false_r. reflexivity.
Qed.

(** ** Enough fuel

    The methods use [notify] only through [withTransaction]; two deliveries
    that agree give the same results. *)

Section Extensionality.

Variables notify notify' : Changes -> World -> World.
Hypothesis agree : forall ch w, notify ch w = notify' ch w.

Lemma withTransaction_agree body w :
  withTransaction notify body w = withTransaction notify' body w.
Proof. unfold withTransaction. apply agree. Qed.

Lemma saveEditableState_agree w :
  saveEditableState notify w = saveEditableState notify' w.
Proof.
  unfold saveEditableState. destruct (_ || _); [reflexivity|].
  apply withTransaction_agree.
Qed.

Lemma set_readOnly_agree value w :
  set_readOnly notify value w = set_readOnly notify' value w.
Proof.
  unfold set_readOnly. destruct (Bool.eqb _ _); [reflexivity|]. cbn zeta.
  destruct (_syncEditable _); [rewrite saveEditableState_agree|]; reflexivity.
Qed.

Lemma loadEditableState_agree w :
  loadEditableState notify w = loadEditableState notify' w.
Proof. apply set_readOnly_agree. Qed.

Lemma set_syncEditable_agree value w :
  set_syncEditable notify value w = set_syncEditable notify' value w.
Proof.
  unfold set_syncEditable. destruct (Bool.eqb _ _); [reflexivity|]. cbn zeta.
  destruct value; [apply loadEditableState_agree | reflexivity].
Qed.

Lemma initializeState_agree w :
  Cell_initializeState notify w = Cell_initializeState notify' w /\
  CodeCell_initializeState notify w = CodeCell_initializeState notify' w.
Proof.
  unfold CodeCell_initializeState, Cell_initializeState.
  rewrite loadEditableState_agree. split; reflexivity.
Qed.

Lemma listeners_agree ch w : listeners notify ch w = listeners notify' ch w.
Proof.
  unfold listeners. destruct (metadata_change ch) as [args|]; [|reflexivity].
  rewrite !onMetadataChanged_eq.
  destruct (_ && _); [rewrite loadEditableState_agree|]; reflexivity.
Qed.

Lemma execute_agree session md w :
  execute notify session md w = execute notify' session md w.
Proof.
  unfold execute. destruct (_ || _).
  - rewrite withTransaction_agree. reflexivity.
  - cbn zeta. rewrite withTransaction_agree. reflexivity.
Qed.

Lemma execute_resume_agree saved s w :
  execute_resume notify saved s w = execute_resume notify' saved s w.
Proof.
  destruct s; cbn; [rewrite withTransaction_agree|]; reflexivity.
Qed.

End Extensionality.

(** The transactions the listeners open write [editable: false] or
    [editable: null] only, and no listener reacts to that: deliveries nest
    one level deep at most. *)
Lemma listeners_fuel fuel ch w :
  listeners (changed fuel) ch w = listeners (fun _ w => w) ch w.
Proof.
  unfold listeners. destruct (metadata_change ch) as [args|]; [|reflexivity].
  rewrite !onMetadataChanged_eq. destruct (_ && _); [|reflexivity].
  unfold loadEditableState, set_readOnly.
  destruct (Bool.eqb _ _); [reflexivity|]. cbn zeta.
  destruct (_syncEditable _); [|reflexivity].
  set (w1 := with_cell _ w).
  destruct (editable_in_sync w1) eqn:E.
  - rewrite !saveEditableState_in_sync by assumption. reflexivity.
  - rewrite (saveEditableState_out_of_sync fuel), (saveEditableState_out_of_sync 0)
      by assumption.
    reflexivity.
Qed.

(** Any positive amount of fuel delivers the changes in full. *)
Lemma changed_fuel fuel ch w : changed (S fuel) ch w = changed 1 ch w.
Proof. cbn [changed]. rewrite listeners_fuel. reflexivity. Qed.

Lemma perform_fuel fuel a w : perform (S fuel) a w = perform 1 a w.
Proof.
  pose proof (changed_fuel fuel) as H.
  destruct a; cbn [perform]; destruct (sub w);
    first
      [ apply set_readOnly_agree, H
      | apply set_syncEditable_agree, H
      | apply saveEditableState_agree, H
      | apply loadEditableState_agree, H
      | apply initializeState_agree, H
      | apply (f_equal world_of), execute_agree, H
      | apply (f_equal snd), execute_resume_agree, H
      | apply H
      | reflexivity ].
Qed.

Lemma run_fuel fuel actions w : run (S fuel) actions w = run 1 actions w.
Proof.
  revert w. induction actions as [|a rest IH]; intros w; [reflexivity|].
  cbn [run]. rewrite perform_fuel. apply IH.
Qed.

(** * Further properties *)

(** ** Editable state: saving, loading, several views *)

Lemma editable_in_sync_after_save fuel w :
  editable_in_sync (saveEditableState (changed fuel) w) = true.
Proof.
  unfold editable_in_sync at 1.
  destruct (saveEditableState_view fuel w) as [-> _].
  unfold is_false_at, is_undefined_at.
  rewrite saveEditableState_lookup.
  destruct (_readOnly (cell w)); reflexivity.
Qed.

(** X1: [saveEditableState] is idempotent.  After it has run, view and model
    agree in the sense of its own guard, and running it again returns the
    same world: no further transaction, whatever the state it started
    from. *)
Theorem saveEditableState_idempotent (fuel : nat) (w : World) :
  let w1 := saveEditableState (changed fuel) w in
  saveEditableState (changed fuel) w1 = w1 /\
  transactions (trace w1) <= transactions (trace w) + 1 /\
  (_readOnly (cell w1) = true <->
   metadata (data w1) !! "editable" = Some (JBool false)).
Proof.
  cbn zeta. split; [|split].
  - apply saveEditableState_in_sync, editable_in_sync_after_save.
  - rewrite saveEditableState_trace. unfold transactions.
    rewrite List.filter_app, length_app.
    destruct (editable_in_sync w); cbn; lia.
  - rewrite saveEditableState_lookup.
    destruct (saveEditableState_view fuel w) as [-> _].
    destruct (_readOnly (cell w)); cbn; split; congruence.
Qed.

Lemma loadEditableState_is_false_at fuel w :
  is_false_at (metadata (data (loadEditableState (changed fuel) w))) "editable" =
  is_false_at (metadata (data w)) "editable".
Proof.
  unfold loadEditableState.
  unfold is_false_at at 1. rewrite set_readOnly_lookup.
  destruct (Bool.eqb _ _); [reflexivity|].
  destruct (_syncEditable _); [|reflexivity].
  destruct (is_false_at _ _); reflexivity.
Qed.

(** X2: [loadEditableState] is idempotent, and it never changes what the
    record says: [editable === false] holds after it exactly when it held
    before.  Loading may still write (a read-only cell with [syncEditable]
    over a record whose [editable] is neither [false] nor absent removes the
    key), but a second load finds nothing to do. *)
Theorem loadEditableState_idempotent (fuel : nat) (w : World) :
  let w1 := loadEditableState (changed fuel) w in
  loadEditableState (changed fuel) w1 = w1 /\
  _readOnly (cell w1) = is_false_at (metadata (data w)) "editable" /\
  is_false_at (metadata (data w1)) "editable" =
    is_false_at (metadata (data w)) "editable".
Proof.
  cbn zeta. split; [|split].
  - unfold loadEditableState at 1. unfold set_readOnly.
    rewrite loadEditableState_is_false_at, loadEditableState_readOnly.
    rewrite Bool.eqb_reflx. reflexivity.
  - apply loadEditableState_readOnly.
  - apply loadEditableState_is_false_at.
Qed.

Lemma set_readOnly_data fuel value w :
  let w' := set_readOnly (changed fuel) value w in
  record (data w') = record (data w) /\
  text (data w') = text (data w) /\
  executionCount (data w') = executionCount (data w) /\
  trusted (data w') = trusted (data w) /\
  outputs (data w') = outputs (data w).
Proof.
  unfold set_readOnly. destruct (Bool.eqb _ _); [cbn; auto 10|].
  cbn zeta. unfold update.
  destruct (_syncEditable _); [|cbn; auto 10].
  set (w1 := with_cell _ w).
  destruct (editable_in_sync w1) eqn:E.
  - rewrite saveEditableState_in_sync by assumption. cbn. auto 10.
  - rewrite saveEditableState_out_of_sync by assumption. cbn. auto 10.
Qed.

Lemma set_readOnly_trace fuel value w :
  trace (set_readOnly (changed fuel) value w) =
  trace w ++
    (if Bool.eqb value (_readOnly (cell w)) then []
     else (if _syncEditable (cell w) &&
              negb (editable_in_sync (with_cell (set_readOnly_field value) w))
           then [TxBegin; UpdateMetadata "editable" (editable_encoding value); TxEnd]
           else [])
          ++ [UpdateRequest]).
Proof.
  unfold set_readOnly. destruct (Bool.eqb _ _); [symmetry; apply app_nil_r|].
  cbn zeta. unfold update. cbn [log trace cell with_cell set_readOnly_field
                                 _syncEditable].
  destruct (_syncEditable (cell w)); cbn [andb].
  - rewrite saveEditableState_trace. cbn [trace with_cell cell set_readOnly_field
                                            _readOnly].
    destruct (editable_in_sync _); cbn [negb]; rewrite <- !app_assoc; reflexivity.
  - reflexivity.
Qed.

Lemma set_readOnly_view fuel value w :
  cell (set_readOnly (changed fuel) value w) =
    (if Bool.eqb value (_readOnly (cell w)) then cell w
     else set_readOnly_field value (cell w)) /\
  sub (set_readOnly (changed fuel) value w) = sub w.
Proof.
  unfold set_readOnly. destruct (Bool.eqb _ _); [auto|]. cbn zeta.
  unfold update. cbn [log cell sub].
  destruct (_syncEditable _); [|auto].
  destruct (saveEditableState_view fuel (with_cell (set_readOnly_field value) w))
    as [-> ->]. auto.
Qed.

(** X3: what [set readOnly] leaves alone.  Of the record it can change the
    [editable] key of the metadata and nothing else: the other keys, the
    source, the execution count, the trusted flag and the outputs are as
    before.  Of the widget it changes [_readOnly] only.  It opens one
    transaction at most, writes [editable] at most once in it, and never
    with a value other than [false] or [null]. *)
Theorem set_readOnly_frame (fuel : nat) (value : bool) (w : World) :
  let w' := set_readOnly (changed fuel) value w in
  (forall key, key <> "editable" ->
     metadata (data w') !! key = metadata (data w) !! key) /\
  text (data w') = text (data w) /\
  executionCount (data w') = executionCount (data w) /\
  trusted (data w') = trusted (data w) /\
  outputs (data w') = outputs (data w) /\
  sub w' = sub w /\
  cell w' = set_readOnly_field value (cell w) /\
  transactions (trace w') <= transactions (trace w) + 1 /\
  (exists evs, trace w' = trace w ++ evs /\
     forall key v, In (UpdateMetadata key v) evs ->
       key = "editable" /\ (v = Some (JBool false) \/ v = None)).
Proof.
  cbn zeta.
  destruct (set_readOnly_data fuel value w) as (_ & Ht & He & Htr & Ho).
  destruct (set_readOnly_view fuel value w) as (Hc & Hs).
  split; [|repeat split; try assumption].
  - intros key Hne. unfold set_readOnly.
    destruct (Bool.eqb _ _); [reflexivity|]. cbn zeta. unfold update.
    destruct (_syncEditable _); [|reflexivity].
    cbn [data log]. rewrite saveEditableState_lookup_ne by assumption.
    reflexivity.
  - rewrite Hc. destruct (Bool.eqb _ _) eqn:E; [|reflexivity].
    apply Bool.eqb_prop in E. rewrite E. destruct (cell w); reflexivity.
  - rewrite set_readOnly_trace. unfold transactions.
    rewrite List.filter_app, length_app.
    destruct (Bool.eqb _ _); [cbn; lia|].
    destruct (_ && _); cbn; lia.
  - eexists. split; [apply set_readOnly_trace|].
    intros key v Hin. destruct (Bool.eqb _ _); [destruct Hin|].
    destruct (_ && _); cbn in Hin.
    + destruct Hin as [|[[= <- <-]|[|[|[]]]]]; try discriminate.
      split; [reflexivity|]. destruct value; cbn; auto.
    + destruct Hin as [|[]]; discriminate.
Qed.

(** X4: what one view saves another loads.  [b] is a clone of [a], made at
    any time: it is on the record of [a] and starts editable, whatever [a]
    is.  When [a], with [syncEditable] on, changes its [readOnly], a
    [loadEditableState] of [b] on the record as [a] left it gives [b] the
    [readOnly] of [a], and writes nothing. *)
Theorem readOnly_from_one_view_to_another (fuel : nat) (a : World) (value : bool) :
  _syncEditable (cell a) = true ->
  value <> _readOnly (cell a) ->
  let b := clone a in
  let a' := set_readOnly (changed fuel) value a in
  let b' := loadEditableState (changed fuel) (with_data (fun _ => data a') b) in
  data b = data a /\
  _readOnly (cell b) = false /\
  _readOnly (cell b') = value /\
  data b' = data a'.
Proof.
  intros Hsync Hne. cbn zeta.
  assert (Hb : data (clone a) = data a /\ _readOnly (cell (clone a)) = false /\
               _syncEditable (cell (clone a)) = false).
  { unfold clone. destruct (sub a); cbn; auto.
    unfold MarkdownCell_new, renderInput, _updateRenderedInput. cbn.
    destruct (negb (bool_decide _)); cbn; auto. }
  destruct Hb as (Hd & Hr & Hs).
  split; [exact Hd|]. split; [exact Hr|].
  set (a' := set_readOnly (changed fuel) value a).
  assert (Hv : is_false_at (metadata (data a')) "editable" = value).
  { unfold is_false_at. subst a'. rewrite set_readOnly_lookup, Hsync.
    destruct (Bool.eqb value (_readOnly (cell a))) eqn:E.
    - apply Bool.eqb_prop in E. contradiction.
    - destruct value; reflexivity. }
  split.
  - rewrite loadEditableState_readOnly. exact Hv.
  - set (wb := with_data (fun _ => data a') (clone a)).
    assert (Hwb : _syncEditable (cell wb) = false) by exact Hs.
    unfold loadEditableState, set_readOnly.
    destruct (Bool.eqb _ _); [reflexivity|]. cbn zeta.
    replace (_syncEditable (cell (with_cell _ wb))) with false; reflexivity.
Qed.

(** A read-only code cell with collapsed input, and a clone of it. *)
Lemma readOnly_from_one_view_to_another_witness :
  let r := mkRecord (js "c1") (js "x = 1") ∅ None false [] in
  let a := set_inputHidden true (set_syncEditable (changed 1) true (CodeCell_new r)) in
  (_syncEditable (cell a) = true /\ true <> _readOnly (cell a)) /\
  _readOnly (cell (clone a)) = false /\
  _readOnly (cell (loadEditableState (changed 1)
                     (with_data (fun _ => data (set_readOnly (changed 1) true a))
                        (clone a)))) = true.
Proof.
  intros r a.
  assert (H1 : _syncEditable (cell a) = true) by reflexivity.
  assert (H2 : true <> _readOnly (cell a)) by discriminate.
  split; [auto|].
  destruct (readOnly_from_one_view_to_another 1 a true H1 H2) as (_ & E1 & E2 & _).
  split; [exact E1 | exact E2].
Defined.

(** ** Notifications *)

Lemma transactions_app tr1 tr2 :
  transactions (tr1 ++ tr2) = transactions tr1 + transactions tr2.
Proof. unfold transactions. rewrite List.filter_app, length_app. reflexivity. Qed.

Lemma set_readOnly_transactions fuel value w :
  transactions (trace (set_readOnly (changed fuel) value w))
  <= transactions (trace w) + 1.
Proof.
  rewrite set_readOnly_trace, transactions_app.
  destruct (Bool.eqb _ _); [cbn; lia|].
  destruct (_ && _); cbn; lia.
Qed.

(** X5: no feedback loop between the listeners and the record.  Whatever
    change the datastore delivers, and however deep it would let
    transactions nest, the listeners of the widget open one transaction at
    most, and the change that transaction produces is one no listener reacts
    to: delivering with any positive bound on the nesting gives the result
    of delivering with bound one. *)
Theorem notification_settles (fuel : nat) (ch : Changes) (w : World) :
  changed (S fuel) ch w = changed 1 ch w /\
  transactions (trace (changed (S fuel) ch w)) <= transactions (trace w) + 1.
Proof.
  split; [cbn [changed]; rewrite listeners_fuel; reflexivity|].
  cbn [changed]. unfold listeners.
  set (w1 := match metadata_change ch with
             | Some args => onMetadataChanged (changed fuel) args w
             | None => w
             end).
  assert (H1 : transactions (trace w1) <= transactions (trace w) + 1).
  { subst w1. destruct (metadata_change ch) as [args|]; [|lia].
    rewrite onMetadataChanged_eq. destruct (_ && _); [|lia].
    apply set_readOnly_transactions. }
  assert (H2 : forall args,
             transactions (trace (onExecutionCountChanged args w1)) =
             transactions (trace w1)).
  { intros args. unfold onExecutionCountChanged.
    destruct (reg_current args) as [n|]; [|reflexivity].
    change (trace (setPrompt (number_to_string n) w1))
      with (trace w1 ++ [SetPrompt (number_to_string n)]).
    rewrite transactions_app. cbn. lia. }
  destruct (sub w1); try exact H1.
  destruct (executionCount_change ch); [rewrite H2|]; exact H1.
Qed.

(** ** [CodeCell.execute], further *)

Lemma requests_app tr1 tr2 : requests (tr1 ++ tr2) = requests tr1 + requests tr2.
Proof. unfold requests. rewrite List.filter_app, length_app. reflexivity. Qed.

Lemma nonempty_trim s : nonempty (trim s) = negb (forallb is_white s).
Proof.
  destruct (forallb is_white s) eqn:E.
  - apply trim_nil_iff in E. rewrite E. reflexivity.
  - destruct (trim s) eqn:T; [|reflexivity].
    apply trim_nil_iff in T. congruence.
Qed.

(** The calls [set outputHidden] makes. *)
Lemma set_outputHidden_trace value w :
  trace (set_outputHidden value w) =
  trace w ++
    (if Bool.eqb (_outputHidden (codeCell w)) value then []
     else if value then
       [Detach OutputWrapper OutputArea; Attach OutputWrapper OutputPlaceholder]
       ++ (if _inputHidden (cell w) && negb (_outputWrapper_isHidden (codeCell w))
           then [Hide OutputWrapper] else [])
     else
       (if _outputWrapper_isHidden (codeCell w) then [Show OutputWrapper] else [])
       ++ [Detach OutputWrapper OutputPlaceholder; Attach OutputWrapper OutputArea]).
Proof.
  unfold set_outputHidden.
  destruct (Bool.eqb _ _); [symmetry; apply app_nil_r|].
  rewrite saveCollapseState_id.
  assert (same : forall (b : bool) (x : World), (if b then x else x) = x)
    by (intros [] ?; reflexivity).
  rewrite same.
  destruct w as [[ro ih sc se iw p] [| m | [oh os ss sm ow owh f]] d t tr];
    destruct value, ih; cbn; try destruct owh; cbn;
    rewrite <- ?app_assoc; reflexivity.
Qed.

Lemma set_outputHidden_requests value w :
  requests (trace (set_outputHidden value w)) = requests (trace w).
Proof.
  rewrite set_outputHidden_trace, requests_app.
  destruct (Bool.eqb _ _); [cbn; lia|].
  destruct value.
  - destruct (_ && _); cbn; lia.
  - destruct (_outputWrapper_isHidden _); cbn; lia.
Qed.

(** X6: [execute] sends a request to the kernel exactly when the source has
    a code unit that is not white space and the session has a kernel, and
    then it sends one.  In the other case the trace gains no request. *)
Theorem execute_requests
    (fuel : nat) (session : IClientSession)
    (md : option (gmap string JSONValue)) (w : World) :
  let w' := world_of (execute (changed fuel) session md w) in
  requests (trace w') =
  requests (trace w) +
  (if negb (forallb is_white (text (data w)))
      && bool_decide (is_Some (kernel session))
   then 1 else 0).
Proof.
  cbn zeta. unfold execute. rewrite nonempty_trim, negb_involutive.
  assert (Hearly :
    requests (trace (withTransaction (changed fuel)
                       (fun w => OutputAreaData_clear
                                   (updateField_executionCount None w)) w))
    = requests (trace w) + 0).
  { rewrite withTransaction_inert by apply executionCount_null_inert.
    cbn -[requests]. rewrite !requests_app. cbn. lia. }
  destruct (forallb is_white (text (data w))); cbn [negb orb andb world_of];
    [exact Hearly|].
  destruct (kernel session) as [k|] eqn:Hk.
  - replace (bool_decide (is_Some (Some k))) with true by reflexivity.
    cbn [negb world_of].
    rewrite withTransaction_inert by apply executionCount_null_inert.
    unfold OutputArea_execute. rewrite Hk. cbn [trace log].
    assert (Ht : forall f x, trace (with_codeCell f x) = trace x)
      by (intros f [? [| |?] ? ? ?]; reflexivity).
    rewrite Ht. cbn -[requests set_outputHidden].
    rewrite !requests_app, set_outputHidden_requests. cbn. lia.
  - replace (bool_decide (is_Some (@None Kernel))) with false by reflexivity.
    cbn [negb world_of]. exact Hearly.
Qed.

Lemma execute_submits_when fuel session k md w :
  trim (text (data w)) <> [] ->
  kernel session = Some k ->
  execute (changed fuel) session md w =
  let md' := <["cellId" := JString (record (data w))]> (default ∅ md) in
  let w1 := withTransaction (changed fuel) (updateRecord None true)
              (setPrompt (js "*") (set_outputHidden false w)) in
  let w2 := log (RequestExecute (text (data w)) md' (requestExecute k))
              (with_codeCell (set_future_field (Some (requestExecute k))) w1) in
  Awaiting (future (codeCell w2)) w2.
Proof.
  intros Hcode Hk. unfold execute, OutputArea_execute.
  rewrite Hk. destruct (trim (text (data w))); [contradiction|]. reflexivity.
Qed.

(** X7: the metadata sent with the request.  With a source that is not
    blank and a live kernel, the last call [execute] makes before it awaits
    is the request to the kernel, for the source of the cell; the metadata
    sent has the id of the record under [cellId], also when the caller
    passed a [cellId] of its own, and every other key as the caller passed
    it (none when the caller passed no metadata). *)
Theorem execute_sends_cellId
    (fuel : nat) (session : IClientSession) (k : Kernel)
    (md : option (gmap string JSONValue)) (w : World) :
  trim (text (data w)) <> [] ->
  kernel session = Some k ->
  exists sent,
    last (trace (world_of (execute (changed fuel) session md w))) =
      Some (RequestExecute (text (data w)) sent (requestExecute k)) /\
    sent !! "cellId" = Some (JString (record (data w))) /\
    forall key, key <> "cellId" ->
      sent !! key = match md with Some m => m !! key | None => None end.
Proof.
  intros Hcode Hk. rewrite (execute_submits_when fuel session k md w Hcode Hk).
  cbn zeta. cbn [world_of trace log]. eexists. split; [apply last_snoc|].
  split; [apply lookup_insert_eq|].
  intros key Hne. rewrite lookup_insert_ne by congruence.
  destruct md; [reflexivity | apply lookup_empty].
Qed.

(** A caller that passes a [cellId] of its own. *)
Lemma execute_sends_cellId_witness :
  let r := mkRecord (js "c1") (js "1+1") ∅ None false [] in
  let session := mkSession (Some (mkKernel 7)) in
  let md := Some ({["cellId" := JString (js "other"); "tags" := JArray []]}
                    : gmap string JSONValue) in
  let w := CodeCell_new r in
  (trim (text (data w)) <> [] /\ kernel session = Some (mkKernel 7)) /\
  exists sent,
    last (trace (world_of (execute (changed 1) session md w))) =
      Some (RequestExecute (js "1+1") sent 7) /\
    sent !! "cellId" = Some (JString (js "c1")) /\
    sent !! "tags" = Some (JArray []).
Proof.
  intros r session md w.
  assert (H1 : trim (text (data w)) <> []) by discriminate.
  assert (H2 : kernel session = Some (mkKernel 7)) by reflexivity.
  split; [auto|].
  destruct (execute_sends_cellId 1 session (mkKernel 7) md w H1 H2)
    as (sent & E1 & E2 & E3).
  exists sent. split; [exact E1|]. split; [exact E2|].
  rewrite E3 by discriminate. reflexivity.
Defined.

Lemma trusted_changed fuel ch w :
  trusted (data (changed fuel ch w)) = trusted (data w).
Proof.
  destruct fuel as [|fuel]; [reflexivity|]. cbn [changed]. unfold listeners.
  set (w1 := match metadata_change ch with
             | Some args => onMetadataChanged (changed fuel) args w
             | None => w
             end).
  assert (H1 : trusted (data w1) = trusted (data w)).
  { subst w1. destruct (metadata_change ch) as [args|]; [|reflexivity].
    rewrite onMetadataChanged_eq. destruct (_ && _); [|reflexivity].
    apply set_readOnly_data. }
  destruct (sub w1); try exact H1.
  destruct (executionCount_change ch) as [args|]; [|exact H1].
  unfold onExecutionCountChanged. destruct (reg_current args); exact H1.
Qed.

Lemma trusted_execute_resume fuel saved s w :
  trusted (data (snd (execute_resume (changed fuel) saved s w))) = trusted (data w).
Proof.
  destruct s as [msg | e]; cbn [execute_resume snd].
  - unfold withTransaction. cbn zeta. rewrite trusted_changed. reflexivity.
  - destruct (_ && _); reflexivity.
Qed.

Lemma data_log e w : data (log e w) = data w.
Proof. reflexivity. Qed.

Lemma data_with_codeCell f w : data (with_codeCell f w) = data w.
Proof. destruct w as [? [| |?] ? ? ?]; reflexivity. Qed.

Lemma execute_marks_trusted fuel session k md w :
  trim (text (data w)) <> [] ->
  kernel session = Some k ->
  execute (changed fuel) session md w =
    Awaiting (future (codeCell (world_of (execute (changed fuel) session md w))))
      (world_of (execute (changed fuel) session md w)) /\
  trusted (data (world_of (execute (changed fuel) session md w))) = true.
Proof.
  intros Hcode Hk.
  pose proof (execute_submits_when fuel session k md w Hcode Hk) as E.
  cbn zeta in E. rewrite E. cbn [world_of]. split; [reflexivity|].
  rewrite withTransaction_inert by apply executionCount_null_inert.
  rewrite data_log, data_with_codeCell. reflexivity.
Qed.

(** X8: a request that is answered.  With a source that is not blank and a
    live kernel, when the reply arrives before anything else happened to the
    cell (it has not been disposed of), and the [execution_count] of the
    reply is [null] or a safe integer: [execute] returns the reply, the
    record holds the execution count of the reply and is trusted, and the
    prompt shows that count in decimal; a reply whose count is [null] leaves
    the busy marker ['*'] on the prompt. *)
Theorem execute_then_reply
    (fuel : nat) (session : IClientSession) (k : Kernel)
    (md : option (gmap string JSONValue)) (msg : ExecuteReplyMsg)
    (w : World) (c : CodeCell) :
  sub w = Code c ->
  trim (text (data w)) <> [] ->
  kernel session = Some k ->
  (forall n, execution_count msg = Some n -> is_safe_integer n = true) ->
  let w1 := world_of (execute (changed (S fuel)) session md w) in
  let r := execute_resume (changed (S fuel)) (Some (requestExecute k))
             (Fulfilled msg) w1 in
  execute (changed (S fuel)) session md w = Awaiting (Some (requestExecute k)) w1 /\
  fst r = Returned (Some msg) /\
  executionCount (data (snd r)) = execution_count msg /\
  trusted (data (snd r)) = true /\
  prompt (cell (snd r)) =
    match execution_count msg with
    | Some n => number_to_string n
    | None => js "*"
    end.
Proof.
  intros Hsub Hcode Hk _. cbn zeta.
  destruct (execute_awaits (S fuel) session k md w c Hsub Hcode Hk)
    as (Hsub1 & _ & Hp & Hf).
  destruct (execute_marks_trusted (S fuel) session k md w Hcode Hk) as (Hex & Htr).
  rewrite Hf in Hex.
  generalize dependent (world_of (execute (changed (S fuel)) session md w)).
  intros w1 Hsub1 Hp Hf Hex Htr.
  destruct (execute_fulfilled fuel (Some (requestExecute k)) msg w1 _ Hsub1)
    as (Hr & He & Hpr).
  split; [exact Hex|]. split; [exact Hr|]. split; [exact He|]. split.
  - rewrite trusted_execute_resume. exact Htr.
  - rewrite Hpr, Hp. reflexivity.
Qed.

(** A fresh code cell and a reply with execution count 12. *)
Lemma execute_then_reply_witness :
  let r := mkRecord (js "c1") (js "1+1") ∅ (Some 3%Z) false [] in
  let session := mkSession (Some (mkKernel 7)) in
  let msg := mkReply (Some 12%Z) (js "ok") in
  let w := CodeCell_new r in
  let w1 := world_of (execute (changed 1) session None w) in
  (sub w = Code (codeCell w) /\ trim (text (data w)) <> [] /\
   kernel session = Some (mkKernel 7) /\
   forall n, execution_count msg = Some n -> is_safe_integer n = true) /\
  executionCount
    (data (snd (execute_resume (changed 1) (Some 7) (Fulfilled msg) w1))) =
    Some 12%Z /\
  prompt (cell (snd (execute_resume (changed 1) (Some 7) (Fulfilled msg) w1))) =
    js "12".
Proof.
  intros r session msg w w1.
  assert (H1 : sub w = Code (codeCell w)) by reflexivity.
  assert (H2 : trim (text (data w)) <> []) by discriminate.
  assert (H3 : kernel session = Some (mkKernel 7)) by reflexivity.
  assert (H4 : forall n, execution_count msg = Some n -> is_safe_integer n = true)
    by (intros n [= <-]; reflexivity).
  split; [auto|].
  destruct (execute_then_reply 0 session (mkKernel 7) None msg w (codeCell w)
              H1 H2 H3 H4) as (_ & _ & E1 & _ & E2).
  split; [exact E1 | exact E2].
Defined.

(** X9: two overlapping executions of one cell.  A second request is sent
    before the first is cancelled, and the kernel returned for it a future
    other than that of the first, as a kernel does for every request.  The
    cancellation of the first, which is no longer the current one, is
    thrown to its caller and changes nothing: the prompt keeps the busy
    marker of the second.  The cancellation of the second, the current one,
    would clear the prompt.  (The cell has not been disposed of.) *)
Theorem overlapping_executions
    (fuel : nat) (session1 session2 : IClientSession) (k1 k2 : Kernel)
    (md1 md2 : option (gmap string JSONValue)) (e : Error)
    (w : World) (c : CodeCell) :
  sub w = Code c ->
  trim (text (data w)) <> [] ->
  kernel session1 = Some k1 ->
  kernel session2 = Some k2 ->
  requestExecute k1 <> requestExecute k2 ->
  message e = js "Canceled" ->
  let w1 := world_of (execute (changed fuel) session1 md1 w) in
  let w2 := world_of (execute (changed fuel) session2 md2 w1) in
  execute_resume (changed fuel) (Some (requestExecute k1)) (Rejected e) w2
    = (Thrown e, w2) /\
  prompt (cell w2) = js "*" /\
  execute_resume (changed fuel) (Some (requestExecute k2)) (Rejected e) w2
    = (Thrown e, setPrompt [] w2).
Proof.
  intros Hsub Hcode Hk1 Hk2 Hne Hm. cbn zeta.
  destruct (stale_cancellation_keeps_prompt fuel session1 session2 k1 k2
              md1 md2 e w c Hsub Hcode Hk1 Hk2 Hne) as (H1 & H2).
  split; [exact H1|]. split; [exact H2|].
  destruct (execute_awaits fuel session1 k1 md1 w c Hsub Hcode Hk1)
    as (Hsub1 & Htext1 & _).
  rewrite <- Htext1 in Hcode.
  destruct (execute_awaits fuel session2 k2 md2 _ _ Hsub1 Hcode Hk2)
    as (_ & _ & _ & Hf).
  cbn. rewrite Hf, Hm, !bool_decide_eq_true_2 by reflexivity. reflexivity.
Qed.

(** Two requests on one cell, with futures 7 and 8. *)
Lemma overlapping_executions_witness :
  let r := mkRecord (js "c1") (js "1+1") ∅ None false [] in
  let s1 := mkSession (Some (mkKernel 7)) in
  let s2 := mkSession (Some (mkKernel 8)) in
  let e := mkError (js "Error") (js "Canceled") in
  let w := CodeCell_new r in
  let w2 := world_of (execute (changed 1) s2 None
                        (world_of (execute (changed 1) s1 None w))) in
  (sub w = Code (codeCell w) /\ trim (text (data w)) <> [] /\ 7 <> 8 /\
   message e = js "Canceled") /\
  execute_resume (changed 1) (Some 7) (Rejected e) w2 = (Thrown e, w2) /\
  prompt (cell w2) = js "*".
Proof.
  intros r s1 s2 e w w2.
  assert (H1 : sub w = Code (codeCell w)) by reflexivity.
  assert (H2 : trim (text (data w)) <> []) by discriminate.
  assert (H3 : 7 <> 8) by discriminate.
  assert (H4 : message e = js "Canceled") by reflexivity.
  split; [auto|].
  destruct (overlapping_executions 1 s1 s2 (mkKernel 7) (mkKernel 8) None None e
              w (codeCell w) H1 H2 eq_refl eq_refl H3 H4) as (E1 & E2 & _).
  split; [exact E1 | exact E2].
Defined.

(** ** The arrangement of the widgets, further *)

Lemma arrangement_debounced_render w :
  arrangement (debounced_render w) = arrangement w.
Proof. unfold debounced_render. destruct (_rendered _); reflexivity. Qed.

Lemma arrangement_handleRendered w :
  arrangement (_handleRendered w) = arrangement w.
Proof.
  unfold _handleRendered, showEditor, renderInput.
  destruct (negb (_rendered _)); [reflexivity|].
  rewrite arrangement_log. apply arrangement_updateRenderedInput.
Qed.

Lemma arrangement_onUpdateRequest h w :
  arrangement (snd (onUpdateRequest h w)) = arrangement w.
Proof.
  unfold onUpdateRequest, MarkdownCell_onUpdateRequest.
  destruct (sub w); cbn [snd]; [reflexivity | | reflexivity].
  apply arrangement_handleRendered.
Qed.

Lemma arranged_step fuel s hw : arranged (snd hw) -> arranged (snd (step fuel s hw)).
Proof.
  intros H. destruct s; cbn [step].
  - cbn [snd]. apply arranged_perform, H.
  - destruct (sub (snd hw)); [exact H | | exact H].
    cbn [snd]. eapply arranged_arrangement; [apply arrangement_debounced_render|exact H].
  - eapply arranged_arrangement; [apply arrangement_onUpdateRequest|exact H].
  - destruct (sub (snd hw)); exact H.
  - exact H.
  - exact H.
Qed.

Lemma arranged_steps fuel l hw : arranged (snd hw) -> arranged (snd (steps fuel l hw)).
Proof.
  revert hw. induction l as [|s rest IH]; intros hw H; [exact H|].
  cbn [steps]. apply IH, arranged_step, H.
Qed.

(** X10: the layout invariant.  In every state a cell of any kind reaches
    from its constructor, through its setters and methods, [execute], writes
    to its record, notifications, the debouncer and the messages of the
    toolkit: the
    input wrapper holds the collapser followed by the input area, or by the
    placeholder when the input is hidden; the output wrapper of a code cell
    holds the collapser followed by the output area, or by the placeholder
    when the output is hidden; and the output wrapper is hidden exactly when
    input and output both are. *)
Theorem widgets_stay_arranged
    (fuel : nat) (editor_option : bool) (t : CellType) (r : CellRecord)
    (l : list Step) :
  let w := snd (steps fuel l (mounted editor_option t r)) in
  _inputWrapper (cell w) =
    [InputCollapser; if _inputHidden (cell w) then InputPlaceholder else InputArea] /\
  match sub w with
  | Code c =>
      _outputWrapper c =
        [OutputCollapser; if _outputHidden c then OutputPlaceholder else OutputArea] /\
      _outputWrapper_isHidden c = _inputHidden (cell w) && _outputHidden c
  | _ => True
  end.
Proof. apply arranged_steps, arranged_new. Qed.

Lemma set_outputHidden_twice w c :
  sub w = Code c ->
  arranged w ->
  let h := _outputHidden c in
  let w1 := set_outputHidden (negb h) w in
  let w2 := set_outputHidden h w1 in
  _outputHidden (codeCell w1) = negb h /\
  _outputWrapper (codeCell w1) =
    [OutputCollapser; if h then OutputArea else OutputPlaceholder] /\
  arrangement w2 = arrangement w /\
  cell w2 = cell w /\ sub w2 = sub w /\ data w2 = data w.
Proof.
  destruct w as [[ro ih sc se iw p] s d t tr]. cbn [sub]. intros ->.
  destruct c as [oh os ss sm ow owh f].
  unfold arranged. cbn. intros [-> [-> ->]].
  destruct ih, sc, oh; vm_compute; repeat split.
Qed.

Lemma is_code_arrangement w w' :
  arrangement w' = arrangement w -> is_code w' = is_code w.
Proof.
  unfold arrangement, is_code. intros [= _ _ H].
  destruct (sub w'), (sub w); try discriminate; reflexivity.
Qed.

Lemma is_code_set_inputHidden value w :
  is_code (set_inputHidden value w) = is_code w.
Proof.
  unfold set_inputHidden. destruct (Bool.eqb _ _); [reflexivity|].
  rewrite saveCollapseState_id.
  assert (same : forall (b : bool) (x : World), (if b then x else x) = x)
    by (intros [] ?; reflexivity).
  rewrite same.
  destruct w as [cl [| m | c] d t tr]; destruct value; cbn; try reflexivity;
    unfold CodeCell_handleInputHidden; cbn;
    repeat match goal with |- context [if ?b then _ else _] => destruct b end;
    reflexivity.
Qed.

Lemma is_code_set_outputHidden value w :
  is_code (set_outputHidden value w) = is_code w.
Proof.
  unfold set_outputHidden. destruct (Bool.eqb _ _); [reflexivity|].
  rewrite saveCollapseState_id.
  assert (same : forall (b : bool) (x : World), (if b then x else x) = x)
    by (intros [] ?; reflexivity).
  rewrite same.
  destruct w as [cl [| m | c] d t tr]; destruct value; cbn; try reflexivity;
    repeat match goal with |- context [if ?b then _ else _] => destruct b end;
    reflexivity.
Qed.

Lemma is_code_execute fuel session md w :
  is_code (world_of (execute (changed fuel) session md w)) = is_code w.
Proof.
  unfold execute. destruct (_ || _); cbn [world_of].
  - apply is_code_arrangement, arrangement_withTransaction;
      [apply arrangement_changed | reflexivity].
  - rewrite <- (is_code_set_outputHidden false w).
    apply is_code_arrangement.
    unfold OutputArea_execute.
    set (w1 := withTransaction _ _ _).
    assert (H1 : arrangement w1 = arrangement (set_outputHidden false w)).
    { subst w1. rewrite arrangement_withTransaction;
        [reflexivity | apply arrangement_changed | reflexivity]. }
    rewrite <- H1. destruct (kernel session); [frame | reflexivity].
Qed.

Lemma is_code_perform fuel a w : is_code (perform fuel a w) = is_code w.
Proof.
  pose proof (arrangement_changed fuel) as Hc.
  destruct a; cbn [perform]; destruct (sub w) eqn:Hs;
    first
      [ reflexivity
      | apply is_code_set_inputHidden
      | apply is_code_set_outputHidden
      | apply is_code_execute
      | apply is_code_arrangement;
        first
          [ apply arrangement_set_readOnly, Hc
          | apply arrangement_set_syncCollapse
          | apply arrangement_set_syncEditable, Hc
          | apply arrangement_saveEditableState, Hc
          | apply arrangement_loadEditableState, Hc
          | apply arrangement_initializeState
          | apply arrangement_set_outputsScrolled
          | apply arrangement_set_syncScrolled
          | apply arrangement_execute_resume
          | apply arrangement_set_rendered
          | apply Hc
          | reflexivity ] ].
Qed.

Lemma is_code_run fuel actions w : is_code (run fuel actions w) = is_code w.
Proof.
  revert w. induction actions as [|a rest IH]; intros w; [reflexivity|].
  cbn [run]. rewrite IH. apply is_code_perform.
Qed.

(** X11: in every state a code cell reaches from its constructor, setting
    [outputHidden] to the opposite value and then back restores the
    arrangement of the widgets, the fields of the widget and the record.  In
    between, the output wrapper holds the placeholder in place of the output
    area, or the output area in place of the placeholder. *)
Theorem outputHidden_toggle_twice
    (fuel : nat) (r : CellRecord) (actions : list Action) :
  let w := run fuel actions (CodeCell_new r) in
  let h := _outputHidden (codeCell w) in
  let w1 := set_outputHidden (negb h) w in
  let w2 := set_outputHidden h w1 in
  _outputHidden (codeCell w1) = negb h /\
  _outputWrapper (codeCell w1) =
    [OutputCollapser; if h then OutputArea else OutputPlaceholder] /\
  arrangement w2 = arrangement w /\
  cell w2 = cell w /\ sub w2 = sub w /\ data w2 = data w.
Proof.
  cbn zeta. set (w := run fuel actions (CodeCell_new r)).
  assert (Ha : arranged w) by apply arranged_run, (arranged_new code).
  assert (Hc : is_code w = true) by (unfold w; rewrite is_code_run; reflexivity).
  assert (Hs : exists c, sub w = Code c).
  { unfold is_code in Hc. destruct (sub w) as [| m | c]; try discriminate.
    exists c; reflexivity. }
  destruct Hs as [c Hs].
  replace (codeCell w) with c by (unfold codeCell; rewrite Hs; reflexivity).
  apply (set_outputHidden_twice w c Hs Ha).
Qed.

(** ** Traces *)

Lemma keeps_scope_iff evs :
  keeps_scope evs = true <-> fold_left scope_step evs (Some false) = Some false.
Proof.
  unfold keeps_scope. destruct (fold_left _ _ _) as [[|]|]; split; congruence.
Qed.

Lemma keeps_scope_app a b :
  keeps_scope a = true -> keeps_scope b = true -> keeps_scope (a ++ b) = true.
Proof.
  rewrite !keeps_scope_iff, fold_left_app. intros -> ->. reflexivity.
Qed.

Lemma quiet_app a b : quiet a = true -> quiet b = true -> quiet (a ++ b) = true.
Proof.
  unfold quiet. rewrite !andb_true_iff, forallb_app, andb_true_iff.
  intros [? ?] [? ?]. auto using keeps_scope_app.
Qed.

Lemma scope_extends w w' :
  extends w w' -> scope (trace w) = Some false -> scope (trace w') = Some false.
Proof.
  intros (evs & -> & H) Hw. unfold scope in *.
  rewrite fold_left_app, Hw. apply keeps_scope_iff, H.
Qed.

Lemma extends_quietly_extends w w' : extends_quietly w w' -> extends w w'.
Proof.
  intros (_ & evs & E & H). exists evs. split; [exact E|].
  unfold quiet in H. apply andb_true_iff in H. tauto.
Qed.

Lemma extends_refl w : extends w w.
Proof. exists []. split; [symmetry; apply app_nil_r | reflexivity]. Qed.

Lemma extends_trans w1 w2 w3 : extends w1 w2 -> extends w2 w3 -> extends w1 w3.
Proof.
  intros (a & Ea & Ha) (b & Eb & Hb). exists (a ++ b). split.
  - rewrite Eb, Ea, app_assoc. reflexivity.
  - apply keeps_scope_app; assumption.
Qed.

Lemma quietly_refl w : extends_quietly w w.
Proof.
  split; [reflexivity|]. exists []. split; [symmetry; apply app_nil_r | reflexivity].
Qed.

Lemma quietly_trans w1 w2 w3 :
  extends_quietly w1 w2 -> extends_quietly w2 w3 -> extends_quietly w1 w3.
Proof.
  intros (Ma & a & Ea & Ha) (Mb & b & Eb & Hb). split; [congruence|].
  exists (a ++ b). split.
  - rewrite Eb, Ea, app_assoc. reflexivity.
  - apply quiet_app; assumption.
Qed.

(** A field update that leaves trace and markdown fields alone. *)
Lemma quietly_same w w' :
  trace w' = trace w -> markdown_fields w' = markdown_fields w ->
  extends_quietly w w'.
Proof.
  intros Ht Hm. split; [exact Hm|]. exists [].
  split; [rewrite Ht; symmetry; apply app_nil_r | reflexivity].
Qed.

Lemma quietly_log e w : quiet [e] = true -> extends_quietly w (log e w).
Proof. intros H. split; [reflexivity|]. exists [e]. split; [reflexivity | exact H]. Qed.

Lemma quietly_with_cell f w : extends_quietly w (with_cell f w).
Proof. apply quietly_same; reflexivity. Qed.

Lemma quietly_with_data f w : extends_quietly w (with_data f w).
Proof. apply quietly_same; reflexivity. Qed.

Lemma quietly_with_tx f w : extends_quietly w (with_tx f w).
Proof. apply quietly_same; reflexivity. Qed.

Lemma quietly_with_codeCell f w : extends_quietly w (with_codeCell f w).
Proof. apply quietly_same; destruct w as [? [| |?] ? ? ?]; reflexivity. Qed.

Lemma quietly_with_layout p f w : extends_quietly w (with_layout p f w).
Proof. destruct p; [apply quietly_with_cell | apply quietly_with_codeCell]. Qed.

Create HintDb quietly.

(** [quietly] splits a composition [f (g (h w))] into its steps, from the
    outside in, and closes each with a lemma above or one of the hint
    database. *)
Ltac quietly :=
  lazymatch goal with
  | |- extends_quietly ?w ?w => apply quietly_refl
  | |- extends_quietly _ (if ?b then _ else _) => destruct b; quietly
  | |- extends_quietly _ (log _ _) =>
      eapply quietly_trans; [| apply quietly_log; reflexivity]; quietly
  | |- extends_quietly _ (with_cell _ _) =>
      eapply quietly_trans; [| apply quietly_with_cell]; quietly
  | |- extends_quietly _ (with_data _ _) =>
      eapply quietly_trans; [| apply quietly_with_data]; quietly
  | |- extends_quietly _ (with_tx _ _) =>
      eapply quietly_trans; [| apply quietly_with_tx]; quietly
  | |- extends_quietly _ (with_codeCell _ _) =>
      eapply quietly_trans; [| apply quietly_with_codeCell]; quietly
  | |- extends_quietly _ (with_layout _ _ _) =>
      eapply quietly_trans; [| apply quietly_with_layout]; quietly
  | |- extends_quietly _ _ =>
      eapply quietly_trans; [| solve [auto 1 with quietly nocore]]; quietly
  end.

Lemma quietly_setPrompt s w : extends_quietly w (setPrompt s w).
Proof. unfold setPrompt. quietly. Qed.

Lemma quietly_update w : extends_quietly w (update w).
Proof. unfold update. quietly. Qed.

Lemma quietly_detach p c w : extends_quietly w (detach p c w).
Proof. unfold detach. quietly. Qed.

Lemma quietly_attach p c w : extends_quietly w (attach p c w).
Proof. unfold attach. quietly. Qed.

Lemma quietly_show_outputWrapper w : extends_quietly w (show_outputWrapper w).
Proof. unfold show_outputWrapper. quietly. Qed.

Lemma quietly_hide_outputWrapper w : extends_quietly w (hide_outputWrapper w).
Proof. unfold hide_outputWrapper. quietly. Qed.

#[local] Hint Resolve quietly_setPrompt quietly_update quietly_detach
  quietly_attach quietly_show_outputWrapper quietly_hide_outputWrapper : quietly.

Lemma writes_only_updateField_metadata key v :
  writes_only (updateField_metadata key v).
Proof. intros w. split; [reflexivity|]. exists [UpdateMetadata key v]. auto. Qed.

Lemma writes_only_updateField_executionCount n :
  writes_only (updateField_executionCount n).
Proof. intros w. split; [reflexivity|]. exists [UpdateExecutionCount n]. auto. Qed.

Lemma writes_only_updateRecord n b : writes_only (updateRecord n b).
Proof.
  intros w. split; [reflexivity|].
  exists [UpdateExecutionCount n; UpdateTrusted b]. split; [|reflexivity].
  cbn. rewrite <- app_assoc. reflexivity.
Qed.

Lemma writes_only_clear :
  writes_only (fun w => OutputAreaData_clear (updateField_executionCount None w)).
Proof.
  intros w. split; [reflexivity|].
  exists [UpdateExecutionCount None; ClearOutputs]. split; [|reflexivity].
  cbn. rewrite <- app_assoc. reflexivity.
Qed.

Lemma writes_only_if (f : World -> bool) body1 body2 :
  writes_only body1 -> writes_only body2 ->
  writes_only (fun w => if f w then body1 w else body2 w).
Proof. intros H1 H2 w. destruct (f w); auto. Qed.

Lemma scope_writes ws :
  forallb is_write ws = true -> fold_left scope_step ws (Some true) = Some true.
Proof.
  induction ws as [|e ws IH]; [reflexivity|]. cbn [forallb fold_left].
  intros H. apply andb_true_iff in H as [He Hws].
  replace (scope_step (Some true) e) with (Some true); [auto|].
  destruct e; try discriminate He; reflexivity.
Qed.

Lemma writes_not_render ws :
  forallb is_write ws = true ->
  forallb (fun e => negb (is_render_event e)) ws = true.
Proof.
  induction ws as [|e ws IH]; [reflexivity|]. cbn [forallb].
  intros H. apply andb_true_iff in H as [He Hws]. rewrite IH by assumption.
  destruct e; try discriminate He; reflexivity.
Qed.

(** A transaction around writes is a scoped, quiet run. *)
Lemma keeps_scope_transaction ws :
  forallb is_write ws = true -> quiet (TxBegin :: ws ++ [TxEnd]) = true.
Proof.
  intros H. unfold quiet, keeps_scope. cbn [fold_left scope_step forallb].
  rewrite fold_left_app, scope_writes by exact H.
  rewrite forallb_app, writes_not_render by exact H. reflexivity.
Qed.

Lemma quietly_handleInputHidden value w :
  extends_quietly w (handleInputHidden value w).
Proof.
  unfold handleInputHidden, Cell_handleInputHidden, CodeCell_handleInputHidden.
  destruct (sub w); quietly.
Qed.

#[local] Hint Resolve quietly_handleInputHidden : quietly.

Lemma quietly_set_inputHidden value w : extends_quietly w (set_inputHidden value w).
Proof.
  unfold set_inputHidden. cbn zeta.
  destruct (Bool.eqb _ _); [apply quietly_refl|].
  rewrite saveCollapseState_id.
  assert (same : forall (b : bool) (x : World), (if b then x else x) = x)
    by (intros [] ?; reflexivity).
  rewrite same. destruct value; quietly.
Qed.

Lemma quietly_set_outputHidden value w : extends_quietly w (set_outputHidden value w).
Proof.
  unfold set_outputHidden. cbn zeta.
  destruct (Bool.eqb _ _); [apply quietly_refl|].
  rewrite saveCollapseState_id.
  assert (same : forall (b : bool) (x : World), (if b then x else x) = x)
    by (intros [] ?; reflexivity).
  rewrite same. destruct value; quietly.
Qed.

#[local] Hint Resolve quietly_set_inputHidden quietly_set_outputHidden : quietly.

Lemma quietly_set_syncCollapse value w : extends_quietly w (set_syncCollapse value w).
Proof.
  unfold set_syncCollapse. cbn zeta. rewrite loadCollapseState_id. quietly.
Qed.

Lemma quietly_set_outputsScrolled value w :
  extends_quietly w (set_outputsScrolled value w).
Proof. unfold set_outputsScrolled, saveScrolledState. cbn zeta. quietly. Qed.

Lemma quietly_set_syncScrolled value w :
  extends_quietly w (set_syncScrolled value w).
Proof. unfold set_syncScrolled, loadScrolledState. cbn zeta. quietly. Qed.

Lemma quietly_OutputArea_execute code session md w :
  extends_quietly w (OutputArea_execute code session md w).
Proof. unfold OutputArea_execute. destruct (kernel session); quietly. Qed.

#[local] Hint Resolve quietly_OutputArea_execute : quietly.

Lemma quietly_debounced_render w : extends_quietly w (debounced_render w).
Proof. unfold debounced_render. quietly. Qed.

Section Quietly.

Variable notify : Changes -> World -> World.
Hypothesis notify_quietly : forall ch w, extends_quietly w (notify ch w).

Lemma quietly_withTransaction body w :
  writes_only body -> extends_quietly w (withTransaction notify body w).
Proof.
  intros Hbody. unfold withTransaction. cbn zeta.
  eapply quietly_trans; [|apply notify_quietly].
  destruct (Hbody (log TxBegin (with_tx (fun _ => no_changes) w)))
    as (Hm & ws & Hws & Hw).
  split; [exact Hm|]. exists (TxBegin :: ws ++ [TxEnd]). split.
  - cbn [trace log with_tx] in *. rewrite Hws. cbn.
    rewrite <- !app_assoc. reflexivity.
  - apply keeps_scope_transaction, Hw.
Qed.

Lemma quietly_saveEditableState w : extends_quietly w (saveEditableState notify w).
Proof.
  unfold saveEditableState. cbn zeta. destruct (_ || _); [apply quietly_refl|].
  apply quietly_withTransaction.
  apply (writes_only_if (fun w => _readOnly (cell w)));
    apply writes_only_updateField_metadata.
Qed.

Hint Resolve quietly_saveEditableState : quietly.

Lemma quietly_set_readOnly value w : extends_quietly w (set_readOnly notify value w).
Proof. unfold set_readOnly. cbn zeta. quietly. Qed.

Hint Resolve quietly_set_readOnly : quietly.

Lemma quietly_loadEditableState w : extends_quietly w (loadEditableState notify w).
Proof. unfold loadEditableState. quietly. Qed.

Hint Resolve quietly_loadEditableState : quietly.

Lemma quietly_set_syncEditable value w :
  extends_quietly w (set_syncEditable notify value w).
Proof. unfold set_syncEditable. cbn zeta. quietly. Qed.

Lemma quietly_onMetadataChanged args w :
  extends_quietly w (onMetadataChanged notify args w).
Proof. rewrite onMetadataChanged_eq. quietly. Qed.

Lemma quietly_onExecutionCountChanged args w :
  extends_quietly w (onExecutionCountChanged args w).
Proof. unfold onExecutionCountChanged. destruct (reg_current args); quietly. Qed.

Lemma quietly_listeners ch w : extends_quietly w (listeners notify ch w).
Proof.
  unfold listeners.
  set (w1 := match metadata_change ch with
             | Some args => onMetadataChanged notify args w
             | None => w
             end).
  assert (H1 : extends_quietly w w1).
  { subst w1. destruct (metadata_change ch);
      [apply quietly_onMetadataChanged | apply quietly_refl]. }
  destruct (sub w1); try exact H1.
  destruct (executionCount_change ch); [|exact H1].
  eapply quietly_trans; [exact H1 | apply quietly_onExecutionCountChanged].
Qed.

Lemma quietly_initializeState w :
  extends_quietly w (Cell_initializeState notify w) /\
  extends_quietly w (CodeCell_initializeState notify w).
Proof.
  assert (H : extends_quietly w (Cell_initializeState notify w)).
  { unfold Cell_initializeState. rewrite loadCollapseState_id. quietly. }
  split; [exact H|].
  unfold CodeCell_initializeState, loadScrolledState. cbn zeta.
  destruct (executionCount _) as [n|]; [destruct (n =? 0)%Z|];
    (eapply quietly_trans; [exact H | apply quietly_setPrompt]).
Qed.

Lemma quietly_execute session md w :
  extends_quietly w (world_of (execute notify session md w)).
Proof.
  unfold execute. cbn zeta. destruct (_ || _); cbn [world_of].
  - apply quietly_withTransaction, writes_only_clear.
  - eapply quietly_trans; [|apply quietly_OutputArea_execute].
    eapply quietly_trans; [|apply quietly_withTransaction, writes_only_updateRecord].
    quietly.
Qed.

Lemma quietly_execute_resume saved s w :
  extends_quietly w (snd (execute_resume notify saved s w)).
Proof.
  destruct s as [msg | e]; cbn.
  - apply quietly_withTransaction, writes_only_updateField_executionCount.
  - quietly.
Qed.

End Quietly.

Lemma quietly_changed fuel ch w : extends_quietly w (changed fuel ch w).
Proof.
  revert ch w. induction fuel as [|fuel IH]; intros ch w; [apply quietly_refl|].
  cbn [changed]. apply quietly_listeners, IH.
Qed.

(** The markdown methods make scoped runs too, with calls to the renderer. *)

Lemma extends_log e w : keeps_scope [e] = true -> extends w (log e w).
Proof. intros H. exists [e]. split; [reflexivity | exact H]. Qed.

Lemma extends_same w w' : trace w' = trace w -> extends w w'.
Proof.
  intros Ht. exists []. split; [rewrite Ht; symmetry; apply app_nil_r | reflexivity].
Qed.

Lemma trace_with_markdownCell f w : trace (with_markdownCell f w) = trace w.
Proof. destruct w as [? [| |?] ? ? ?]; reflexivity. Qed.

Lemma extends_updateRenderedInput w : extends w (snd (_updateRenderedInput w)).
Proof.
  unfold _updateRenderedInput. cbn zeta.
  destruct (negb (bool_decide _)); cbn [snd]; [|apply extends_refl].
  eapply extends_trans; [|apply extends_log; reflexivity].
  eapply extends_trans; [|apply extends_same, trace_with_markdownCell].
  destruct (negb (_renderer _)); [|apply extends_refl].
  eapply extends_trans; [|apply extends_log; reflexivity].
  apply extends_same, trace_with_markdownCell.
Qed.

Lemma extends_handleRendered w : extends w (_handleRendered w).
Proof.
  unfold _handleRendered, showEditor, renderInput.
  destruct (negb (_rendered _)); [apply extends_log; reflexivity|].
  eapply extends_trans; [apply extends_updateRenderedInput|].
  apply extends_log; reflexivity.
Qed.

Lemma extends_set_rendered value w : extends w (set_rendered value w).
Proof.
  unfold set_rendered. cbn zeta.
  destruct (Bool.eqb _ _); [apply extends_refl|].
  assert (H : extends w (_handleRendered
                           (with_markdownCell (set_rendered_field value) w))).
  { eapply extends_trans; [|apply extends_handleRendered].
    apply extends_same, trace_with_markdownCell. }
  destruct (negb (_rendered _)); [|exact H].
  eapply extends_trans; [exact H | apply extends_log; reflexivity].
Qed.

Lemma extends_onUpdateRequest h w : extends w (snd (onUpdateRequest h w)).
Proof.
  unfold onUpdateRequest, MarkdownCell_onUpdateRequest.
  destruct (sub w); cbn [snd]; [apply extends_refl | | apply extends_refl].
  apply extends_handleRendered.
Qed.

Lemma extends_perform fuel a w : extends w (perform fuel a w).
Proof.
  pose proof (quietly_changed fuel) as Hc.
  destruct a; cbn [perform]; destruct (sub w);
    first
      [ apply extends_refl
      | apply extends_set_rendered
      | apply extends_quietly_extends;
        first
          [ apply quietly_set_readOnly, Hc
          | apply quietly_set_inputHidden
          | apply quietly_set_syncCollapse
          | apply quietly_set_syncEditable, Hc
          | apply quietly_saveEditableState, Hc
          | apply quietly_loadEditableState, Hc
          | apply quietly_initializeState, Hc
          | apply quietly_set_outputHidden
          | apply quietly_set_outputsScrolled
          | apply quietly_set_syncScrolled
          | apply quietly_execute, Hc
          | apply quietly_execute_resume, Hc
          | apply quietly_with_data
          | apply Hc ] ].
Qed.

Lemma extends_step fuel s hw : extends (snd hw) (snd (step fuel s hw)).
Proof.
  destruct s; cbn [step].
  - apply extends_perform.
  - destruct (sub (snd hw)); try apply extends_refl.
    apply extends_quietly_extends, quietly_debounced_render.
  - apply extends_onUpdateRequest.
  - destruct (sub (snd hw)); apply extends_refl.
  - apply extends_quietly_extends, quietly_update.
  - apply extends_log. reflexivity.
Qed.

Lemma scope_new t r : scope (trace (new t r)) = Some false.
Proof.
  destruct t; cbn [new]; [reflexivity | | reflexivity].
  unfold MarkdownCell_new, renderInput.
  apply (scope_extends (Cell_new r (Markdown (mkMarkdownCell true [] false))));
    [|reflexivity].
  eapply extends_trans; [apply extends_updateRenderedInput|].
  apply extends_log; reflexivity.
Qed.

Lemma scope_steps fuel l hw :
  scope (trace (snd hw)) = Some false ->
  scope (trace (snd (steps fuel l hw))) = Some false.
Proof.
  revert hw. induction l as [|s rest IH]; intros hw H; [exact H|].
  cbn [steps]. apply IH. eapply scope_extends; [apply extends_step | exact H].
Qed.

(** X12: the transaction discipline.  In every state a cell of any kind
    reaches from its constructor, the calls it has made to its
    collaborators are scoped: every transaction opened has been committed,
    no transaction was opened inside another, every write to the record
    (metadata, execution count, trusted flag, outputs) was made inside a
    transaction, and no other call (prompt, layout, update request, kernel
    request, renderer) was made inside one. *)
Theorem transactions_are_scoped
    (fuel : nat) (editor_option : bool) (t : CellType) (r : CellRecord)
    (l : list Step) :
  scope (trace (snd (steps fuel l (mounted editor_option t r)))) = Some false.
Proof. apply scope_steps, scope_new. Qed.

Example scope_rejects :
  scope [UpdateTrusted true] = None /\
  scope [TxBegin; SetPrompt []; TxEnd] = None /\
  scope [TxBegin; TxBegin] = None /\
  scope [TxBegin; UpdateTrusted true] = Some true.
Proof. repeat split. Qed.

(** ** The preview of a markdown cell *)

Lemma no_render_filter evs :
  forallb (fun e => negb (is_render_event e)) evs = true ->
  List.filter is_CreateRenderer evs = [] /\
  List.filter is_RenderModel evs = [] /\
  (forall acc, fold_left (fun acc e => match e with RenderModel m => Some m | _ => acc end)
                 evs acc = acc) /\
  (forall acc, fold_left (fun acc e => match e with
                                       | RenderInput => true
                                       | ShowEditor => false
                                       | _ => acc
                                       end) evs acc = acc).
Proof.
  induction evs as [|e evs IH]; cbn; [auto|].
  intros H. apply andb_true_iff in H as [He Hevs].
  destruct (IH Hevs) as (I1 & I2 & I3 & I4).
  destruct e; try discriminate He; cbn; auto.
Qed.

Lemma markdown_rendered_quietly w w' :
  extends_quietly w w' -> markdown_rendered w -> markdown_rendered w'.
Proof.
  intros (Hm & evs & Ht & Hq) ((m & Hs & H1 & H2 & H3 & H4) & H5).
  unfold quiet in Hq. apply andb_true_iff in Hq as [_ Hq].
  destruct (no_render_filter evs Hq) as (F1 & _ & F3 & F4).
  unfold markdown_fields in Hm. rewrite Hs in Hm.
  assert (Hs' : sub w' = Markdown m) by (destruct (sub w'); congruence).
  split.
  - exists m. split; [exact Hs'|].
    rewrite Ht. unfold last_rendered in *.
    rewrite List.filter_app, F1, app_nil_r, !fold_left_app, F3. auto.
  - rewrite Ht. unfold RENDERED_CLASS, markdownCell in *.
    rewrite fold_left_app, F4, Hs'. rewrite Hs in H5. exact H5.
Qed.

(** What [_updateRenderedInput] does to a cell whose renderer exists. *)
Lemma updateRenderedInput_rendered w m :
  sub w = Markdown m -> _renderer m = true ->
  let w' := snd (_updateRenderedInput w) in
  sub w' = Markdown (mkMarkdownCell (_rendered m) (shown w) true) /\
  data w' = data w /\
  trace w' = trace w ++
    (if bool_decide (shown w = _prevText m) then []
     else [RenderModel [("text/markdown", shown w)]]).
Proof.
  destruct w as [cl s d t tr]. cbn [sub]. intros -> Hr.
  destruct m as [rd pt rn]. cbn in Hr. subst rn.
  unfold _updateRenderedInput, shown. cbn.
  destruct (bool_decide_reflect
              ((if nonempty (text d) then text d else DEFAULT_MARKDOWN_TEXT) = pt))
    as [E|E]; cbn.
  - rewrite E, app_nil_r. auto.
  - auto.
Qed.

Lemma shown_nonempty w : shown w <> [].
Proof.
  unfold shown. destruct (text (data w)); cbn;
    [apply DEFAULT_MARKDOWN_TEXT_nonempty | discriminate].
Qed.

Lemma preview_kept_updateRenderedInput w :
  preview_kept w ->
  let w' := snd (_updateRenderedInput w) in
  preview_kept w' /\
  _prevText (markdownCell w') = shown w /\
  _rendered (markdownCell w') = _rendered (markdownCell w) /\
  last_rendered (trace w') = Some [("text/markdown", shown w)] /\
  RENDERED_CLASS (trace w') = RENDERED_CLASS (trace w) /\
  renders (trace w') =
    renders (trace w) +
    (if bool_decide (shown w = _prevText (markdownCell w)) then 0 else 1) /\
  data w' = data w.
Proof.
  intros (m & Hs & H1 & H2 & H3 & H4). cbn zeta.
  destruct (updateRenderedInput_rendered w m Hs H1) as (Hs' & Hd & Ht).
  replace (markdownCell w) with m by (unfold markdownCell; rewrite Hs; reflexivity).
  replace (markdownCell (snd (_updateRenderedInput w)))
    with (mkMarkdownCell (_rendered m) (shown w) true)
    by (unfold markdownCell; rewrite Hs'; reflexivity).
  assert (Hlast : last_rendered (trace (snd (_updateRenderedInput w))) =
                  Some [("text/markdown", shown w)]).
  { rewrite Ht. unfold last_rendered in *. rewrite fold_left_app, H4.
    destruct (bool_decide_reflect (shown w = _prevText m)) as [E|E]; cbn;
      congruence. }
  split; [|split; [|split; [|split; [|split; [|split]]]]].
  - eexists. split; [exact Hs'|]. cbn.
    split; [reflexivity|]. split; [apply shown_nonempty|].
    split; [|exact Hlast].
    rewrite Ht, List.filter_app. destruct (bool_decide _); cbn;
      rewrite ?app_nil_r; exact H3.
  - reflexivity.
  - reflexivity.
  - exact Hlast.
  - rewrite Ht. unfold RENDERED_CLASS. rewrite fold_left_app.
    destruct (bool_decide _); reflexivity.
  - rewrite Ht. unfold renders. rewrite List.filter_app, length_app.
    destruct (bool_decide _); reflexivity.
  - exact Hd.
Qed.

Lemma preview_kept_log e w :
  is_CreateRenderer e = false -> is_RenderModel e = false ->
  preview_kept w -> preview_kept (log e w).
Proof.
  intros E1 E2 (m & Hs & H1 & H2 & H3 & H4). exists m.
  split; [exact Hs|]. split; [exact H1|]. split; [exact H2|].
  cbn [trace log]. unfold last_rendered in *.
  rewrite List.filter_app, fold_left_app, H4. cbn. rewrite E1, app_nil_r.
  split; [exact H3|]. destruct e; try discriminate E2; reflexivity.
Qed.

Lemma preview_kept_set_rendered_field value w :
  preview_kept w -> preview_kept (with_markdownCell (set_rendered_field value) w).
Proof.
  intros (m & Hs & H1 & H2 & H3 & H4).
  destruct w as [cl s d t tr]. cbn in Hs. subst s.
  exists (set_rendered_field value m). cbn. auto.
Qed.

(** [_handleRendered] puts the class in line with the mode. *)
Lemma markdown_rendered_handleRendered w :
  preview_kept w ->
  markdown_rendered (_handleRendered w) /\
  _rendered (markdownCell (_handleRendered w)) = _rendered (markdownCell w) /\
  data (_handleRendered w) = data w.
Proof.
  intros Hk. unfold _handleRendered, showEditor, renderInput.
  destruct (_rendered (markdownCell w)) eqn:Hr; cbn [negb].
  - destruct (preview_kept_updateRenderedInput w Hk)
      as (Hk' & _ & Hr' & _ & _ & _ & Hd).
    split; [split|].
    + apply preview_kept_log; [reflexivity | reflexivity | exact Hk'].
    + unfold RENDERED_CLASS. cbn [trace log]. rewrite fold_left_app. cbn.
      change (markdownCell (log RenderInput (snd (_updateRenderedInput w))))
        with (markdownCell (snd (_updateRenderedInput w))).
      rewrite Hr', Hr. reflexivity.
    + split; [|exact Hd].
      change (markdownCell (log RenderInput (snd (_updateRenderedInput w))))
        with (markdownCell (snd (_updateRenderedInput w))).
      rewrite Hr'. exact Hr.
  - split; [split|].
    + apply preview_kept_log; [reflexivity | reflexivity | exact Hk].
    + unfold RENDERED_CLASS. cbn [trace log]. rewrite fold_left_app. cbn.
      change (markdownCell (log ShowEditor w)) with (markdownCell w).
      rewrite Hr. reflexivity.
    + split; [exact Hr | reflexivity].
Qed.

Lemma markdown_rendered_set_rendered value w :
  markdown_rendered w -> markdown_rendered (set_rendered value w).
Proof.
  intros Hw. unfold set_rendered. destruct (Bool.eqb _ _); [exact Hw|]. cbn zeta.
  destruct Hw as [Hk _].
  destruct (markdown_rendered_handleRendered _
              (preview_kept_set_rendered_field value w Hk)) as (Hm & _ & _).
  destruct (negb (_rendered _)); [|exact Hm].
  eapply markdown_rendered_quietly; [|exact Hm].
  apply quietly_log. reflexivity.
Qed.

Lemma markdown_rendered_new r : markdown_rendered (MarkdownCell_new r).
Proof.
  unfold MarkdownCell_new, renderInput.
  set (w0 := Cell_new r (Markdown (mkMarkdownCell true [] false))).
  assert (Hne : shown w0 <> []) by apply shown_nonempty.
  unfold _updateRenderedInput. fold (shown w0).
  replace (_prevText (markdownCell w0)) with (@nil N) by reflexivity.
  rewrite bool_decide_eq_false_2 by exact Hne.
  cbn. split.
  - eexists. split; [reflexivity|]. cbn. auto.
  - reflexivity.
Qed.

Lemma markdown_rendered_perform fuel a w :
  markdown_rendered w -> markdown_rendered (perform fuel a w).
Proof.
  intros Hw. pose proof (quietly_changed fuel) as Hc.
  destruct Hw as [(m & Hs & Hrest) Hclass].
  assert (Hw : markdown_rendered w) by (split; [exists m; auto | exact Hclass]).
  destruct a; cbn [perform]; rewrite ?Hs;
    first
      [ exact Hw
      | apply markdown_rendered_set_rendered, Hw
      | eapply markdown_rendered_quietly; [|exact Hw];
        first
          [ apply quietly_set_readOnly, Hc
          | apply quietly_set_inputHidden
          | apply quietly_set_syncCollapse
          | apply quietly_set_syncEditable, Hc
          | apply quietly_saveEditableState, Hc
          | apply quietly_loadEditableState, Hc
          | apply quietly_initializeState, Hc
          | apply quietly_with_data
          | apply Hc ] ].
Qed.

Lemma markdown_rendered_step fuel s hw :
  markdown_rendered (snd hw) -> markdown_rendered (snd (step fuel s hw)).
Proof.
  intros Hw. destruct s; cbn [step].
  - cbn [snd]. apply markdown_rendered_perform, Hw.
  - destruct (sub (snd hw)); try exact Hw.
    cbn [snd]. eapply markdown_rendered_quietly;
      [apply quietly_debounced_render | exact Hw].
  - unfold onUpdateRequest, MarkdownCell_onUpdateRequest.
    destruct (sub (snd hw)); try exact Hw. cbn [snd].
    apply markdown_rendered_handleRendered, Hw.
  - destruct (sub (snd hw)); exact Hw.
  - eapply markdown_rendered_quietly; [apply quietly_update | exact Hw].
  - eapply markdown_rendered_quietly; [apply quietly_log; reflexivity | exact Hw].
Qed.

Lemma markdown_rendered_steps fuel l hw :
  markdown_rendered (snd hw) -> markdown_rendered (snd (steps fuel l hw)).
Proof.
  revert hw. induction l as [|s rest IH]; intros hw H; [exact H|].
  cbn [steps]. apply IH, markdown_rendered_step, H.
Qed.

(** X13: the preview of a markdown cell.  In every state a markdown cell
    reaches from its constructor: the renderer exists and has been created
    exactly once; the last bundle handed to [renderModel] is the markdown
    bundle of [_prevText], and that text is not empty, so the preview is
    never blank; and the widget has the class ['jp-mod-rendered'] exactly
    when it is in rendered mode. *)
Theorem markdown_preview_invariant
    (fuel : nat) (editor_option : bool) (r : CellRecord) (l : list Step) :
  let w := snd (steps fuel l (mounted editor_option markdown r)) in
  exists m,
    sub w = Markdown m /\
    _renderer m = true /\
    length (List.filter is_CreateRenderer (trace w)) = 1 /\
    last_rendered (trace w) = Some [("text/markdown", _prevText m)] /\
    _prevText m <> [] /\
    RENDERED_CLASS (trace w) = _rendered m.
Proof.
  cbn zeta.
  destruct (markdown_rendered_steps fuel l (mounted editor_option markdown r)
              (markdown_rendered_new r))
    as [(m & Hs & H1 & H2 & H3 & H4) H5].
  exists m. unfold markdownCell in H5. rewrite Hs in H5. auto 10.
Qed.

Lemma renders_app tr1 tr2 : renders (tr1 ++ tr2) = renders tr1 + renders tr2.
Proof. unfold renders. rewrite List.filter_app, length_app. reflexivity. Qed.

(** X14: the debounced rendering.  A markdown cell in any state it reaches
    from its constructor, its text changed or not.  In rendered mode, when
    the debouncer fires it posts an update request, and once that request
    is handled the preview is current: the last bundle rendered is the one
    of the source (of the placeholder for an empty source), recorded in
    [_prevText]; the renderer was called once if that text differs from the
    one rendered before, and not at all otherwise.  In editing mode the
    debouncer does nothing. *)
Theorem debounced_render_updates_preview
    (fuel : nat) (editor_option : bool) (r : CellRecord) (l : list Step) :
  let hw := steps fuel l (mounted editor_option markdown r) in
  let w := snd hw in
  let w1 := debounced_render w in
  let w2 := snd (onUpdateRequest (fst hw) w1) in
  if _rendered (markdownCell w) then
    trace w1 = trace w ++ [UpdateRequest] /\
    last_rendered (trace w2) = Some [("text/markdown", shown w)] /\
    _prevText (markdownCell w2) = shown w /\
    renders (trace w2) =
      renders (trace w) +
      (if bool_decide (shown w = _prevText (markdownCell w)) then 0 else 1)
  else w1 = w.
Proof.
  cbn zeta. set (hw := steps fuel l (mounted editor_option markdown r)).
  destruct (markdown_rendered_steps fuel l (mounted editor_option markdown r)
              (markdown_rendered_new r)) as [Hk Hc].
  fold hw in Hk, Hc. set (w := snd hw) in *.
  unfold debounced_render. destruct (_rendered (markdownCell w)) eqn:Hr;
    [|reflexivity].
  split; [reflexivity|].
  assert (Hk1 : preview_kept (update w))
    by (apply preview_kept_log; [reflexivity | reflexivity | exact Hk]).
  destruct Hk as (m & Hs & _).
  unfold onUpdateRequest, MarkdownCell_onUpdateRequest.
  replace (sub (update w)) with (Markdown m) by (symmetry; exact Hs).
  cbn [snd]. unfold _handleRendered.
  replace (_rendered (markdownCell (update w))) with true
    by (symmetry; exact Hr).
  cbn [negb]. unfold renderInput.
  destruct (preview_kept_updateRenderedInput (update w) Hk1)
    as (_ & Hp & _ & Hl & _ & Hn & _).
  change (shown (update w)) with (shown w) in *.
  change (markdownCell (update w)) with (markdownCell w) in *.
  split; [|split].
  - unfold last_rendered in *. cbn [trace log]. rewrite fold_left_app, Hl.
    reflexivity.
  - exact Hp.
  - cbn [trace log]. rewrite renders_app, Hn.
    change (trace (update w)) with (trace w ++ [UpdateRequest]).
    rewrite renders_app. cbn. lia.
Qed.

Lemma set_rendered_twice w m :
  sub w = Markdown m -> _renderer m = true -> _rendered m = true ->
  let w2 := set_rendered true (set_rendered false w) in
  _rendered (markdownCell w2) = true /\
  _prevText (markdownCell w2) = shown w /\
  trace w2 = trace w ++ [ShowEditor; EditorRefresh]
             ++ (if bool_decide (shown w = _prevText m) then []
                 else [RenderModel [("text/markdown", shown w)]])
             ++ [RenderInput].
Proof.
  destruct w as [cl s d t tr]. cbn [sub]. intros -> Hr Hd.
  destruct m as [rd pt rn]. cbn in Hr, Hd. subst rd rn.
  unfold set_rendered, _handleRendered, _updateRenderedInput, shown,
    showEditor, renderInput. cbn.
  destruct (bool_decide
              ((if nonempty (text d) then text d else DEFAULT_MARKDOWN_TEXT) = pt))
    eqn:E; cbn.
  - apply bool_decide_eq_true_1 in E. rewrite <- !app_assoc. auto.
  - rewrite <- !app_assoc. auto.
Qed.

(** X15: leaving and re-entering rendered mode.  A markdown cell in any
    state it reaches from its constructor, in rendered mode: setting
    [rendered] to [false] and then to [true] shows the editor, refreshes it
    and shows the rendered input again; the renderer is called in between
    only if the source is not the text rendered last, and then once, with
    the source; without a change of text nothing is rendered again. *)
Theorem rendered_off_and_on
    (fuel : nat) (editor_option : bool) (r : CellRecord) (l : list Step) :
  let w := snd (steps fuel l (mounted editor_option markdown r)) in
  _rendered (markdownCell w) = true ->
  let w2 := set_rendered true (set_rendered false w) in
  _rendered (markdownCell w2) = true /\
  _prevText (markdownCell w2) = shown w /\
  trace w2 = trace w ++ [ShowEditor; EditorRefresh]
             ++ (if bool_decide (shown w = _prevText (markdownCell w)) then []
                 else [RenderModel [("text/markdown", shown w)]])
             ++ [RenderInput] /\
  renders (trace w2) =
    renders (trace w) +
    (if bool_decide (shown w = _prevText (markdownCell w)) then 0 else 1).
Proof.
  cbn zeta.
  destruct (markdown_rendered_steps fuel l (mounted editor_option markdown r)
              (markdown_rendered_new r)) as [(m & Hs & H1 & _) _].
  set (w := snd (steps fuel l (mounted editor_option markdown r))) in *.
  replace (markdownCell w) with m by (unfold markdownCell; rewrite Hs; reflexivity).
  intros Hr.
  destruct (set_rendered_twice w m Hs H1 Hr) as (E1 & E2 & E3).
  split; [exact E1|]. split; [exact E2|]. split; [exact E3|].
  rewrite E3, !renders_app. destruct (bool_decide _); cbn; lia.
Qed.

(** A markdown cell whose text was changed while it was rendered. *)
Lemma rendered_off_and_on_witness :
  let r := mkRecord (js "c1") (js "# title") ∅ None false [] in
  let l := [Do (Written (fun d => mkRecord (record d) (js "# other") (metadata d)
                                     (executionCount d) (trusted d) (outputs d)))] in
  let w := snd (steps 1 l (mounted false markdown r)) in
  _rendered (markdownCell w) = true /\
  renders (trace (set_rendered true (set_rendered false w))) = renders (trace w) + 1 /\
  _prevText (markdownCell (set_rendered true (set_rendered false w))) = js "# other".
Proof.
  intros r l w.
  assert (H : _rendered (markdownCell w) = true) by reflexivity.
  split; [exact H|].
  destruct (rendered_off_and_on 1 false r l H) as (_ & E2 & _ & E4).
  split; [exact E4 | exact E2].
Defined.

(** ** The editor option and the read-only class *)

Lemma cell_handleRendered w : cell (_handleRendered w) = cell w.
Proof.
  unfold _handleRendered, showEditor, renderInput, _updateRenderedInput.
  destruct w as [cl [| m | c] d t tr]; cbn;
    repeat match goal with |- context [if ?b then _ else _] => destruct b end;
    reflexivity.
Qed.

Lemma readOnly_onUpdateRequest h w :
  _readOnly (cell (snd (onUpdateRequest h w))) = _readOnly (cell w).
Proof.
  unfold onUpdateRequest, MarkdownCell_onUpdateRequest.
  destruct (sub w); cbn [snd]; try reflexivity.
  rewrite cell_handleRendered. reflexivity.
Qed.

Lemma host_onUpdateRequest h w :
  fst (onUpdateRequest h w) = Cell_onUpdateRequest h (snd (onUpdateRequest h w)).
Proof.
  unfold onUpdateRequest, MarkdownCell_onUpdateRequest.
  destruct (sub w); reflexivity.
Qed.

(** The host of a widget that has not been disposed of, over an editor that
    started with the default [readOnly: false]: the class follows the
    option. *)
Lemma host_step fuel s hw :
  _data (fst hw) = true /\ READONLY_CLASS (fst hw) = editor_readOnly (fst hw) ->
  _data (fst (step fuel s hw)) = true /\
  READONLY_CLASS (fst (step fuel s hw)) = editor_readOnly (fst (step fuel s hw)).
Proof.
  intros [Hd Hc]. destruct s; cbn [step].
  - exact (conj Hd Hc).
  - destruct (sub (snd hw)); exact (conj Hd Hc).
  - rewrite host_onUpdateRequest. unfold Cell_onUpdateRequest. rewrite Hd.
    cbn [negb]. destruct (negb (Bool.eqb _ _)); cbn; auto.
  - destruct (sub (snd hw)); exact (conj Hd Hc).
  - exact (conj Hd Hc).
  - exact (conj Hd Hc).
Qed.

Lemma host_steps fuel l hw :
  _data (fst hw) = true /\ READONLY_CLASS (fst hw) = editor_readOnly (fst hw) ->
  _data (fst (steps fuel l hw)) = true /\
  READONLY_CLASS (fst (steps fuel l hw)) = editor_readOnly (fst (steps fuel l hw)).
Proof.
  revert hw. induction l as [|s rest IH]; intros hw H; [exact H|].
  cbn [steps]. apply IH, host_step, H.
Qed.

(** X16: update requests bring the editor in line with the cell.  A cell of
    any kind over an editor that starts with the default [readOnly: false],
    in any state it reaches from its constructor: the widget has the class
    ['jp-mod-readOnly'] exactly when the [readOnly] option of the editor is
    set; and once an update request has been handled, option and class are
    both the [readOnly] of the cell, which the request does not change. *)
Theorem update_request_syncs_editor
    (fuel : nat) (t : CellType) (r : CellRecord) (l : list Step) :
  let hw := steps fuel l (mounted false t r) in
  let hw' := onUpdateRequest (fst hw) (snd hw) in
  READONLY_CLASS (fst hw) = editor_readOnly (fst hw) /\
  editor_readOnly (fst hw') = _readOnly (cell (snd hw)) /\
  READONLY_CLASS (fst hw') = _readOnly (cell (snd hw)) /\
  _readOnly (cell (snd hw')) = _readOnly (cell (snd hw)).
Proof.
  cbn zeta. set (hw := steps fuel l (mounted false t r)).
  assert (H0 : _data (fst (mounted false t r)) = true /\
               READONLY_CLASS (fst (mounted false t r)) =
               editor_readOnly (fst (mounted false t r))) by (split; reflexivity).
  destruct (host_steps fuel l _ H0) as [Hd Hc]. fold hw in Hd, Hc.
  split; [exact Hc|].
  rewrite host_onUpdateRequest. unfold Cell_onUpdateRequest.
  rewrite Hd. cbn [negb]. rewrite readOnly_onUpdateRequest.
  destruct (Bool.eqb (editor_readOnly (fst hw)) (_readOnly (cell (snd hw)))) eqn:E;
    cbn [negb].
  - apply Bool.eqb_prop in E. rewrite Hc, E. auto.
  - cbn. auto.
Qed.

(** ** The class for a code cell without outputs *)

Lemma sub_new_kind t r :
  match t, sub (new t r) with
  | code, Code _ | markdown, Markdown _ | raw, RawCell => True
  | _, _ => False
  end.
Proof.
  destruct t; cbn [new]; try exact I.
  destruct (markdown_rendered_new r) as [(m & Hs & _) _]. rewrite Hs. exact I.
Qed.

Lemma steps_app fuel l1 l2 hw :
  steps fuel (l1 ++ l2) hw = steps fuel l2 (steps fuel l1 hw).
Proof.
  revert hw. induction l1 as [|s rest IH]; intros hw; [reflexivity|].
  cbn [app steps]. apply IH.
Qed.

Lemma is_code_step fuel s hw :
  is_code (snd (step fuel s hw)) = is_code (snd hw).
Proof.
  destruct s; cbn [step].
  - apply is_code_perform.
  - destruct (sub (snd hw)); try reflexivity.
    apply is_code_arrangement, arrangement_debounced_render.
  - apply is_code_arrangement, arrangement_onUpdateRequest.
  - destruct (sub (snd hw)); reflexivity.
  - reflexivity.
  - reflexivity.
Qed.

Lemma is_code_steps fuel l hw :
  is_code (snd (steps fuel l hw)) = is_code (snd hw).
Proof.
  revert hw. induction l as [|s rest IH]; intros hw; [reflexivity|].
  cbn [steps]. rewrite IH. apply is_code_step.
Qed.

Lemma NO_OUTPUTS_CLASS_onUpdateRequest h w :
  NO_OUTPUTS_CLASS (fst (onUpdateRequest h w)) = NO_OUTPUTS_CLASS h.
Proof.
  rewrite host_onUpdateRequest. unfold Cell_onUpdateRequest.
  destruct (negb (_data h)); [reflexivity|].
  destruct (negb (Bool.eqb _ _)); reflexivity.
Qed.

Lemma NO_OUTPUTS_CLASS_step fuel s hw :
  NO_OUTPUTS_CLASS (fst (step fuel s hw)) =
  match s with
  | OutputsChanged n =>
      if is_code (snd hw) then (n =? 0)%nat else NO_OUTPUTS_CLASS (fst hw)
  | _ => NO_OUTPUTS_CLASS (fst hw)
  end.
Proof.
  destruct s; cbn [step].
  - reflexivity.
  - destruct (sub (snd hw)); reflexivity.
  - apply NO_OUTPUTS_CLASS_onUpdateRequest.
  - unfold is_code. destruct (sub (snd hw)); try reflexivity.
    unfold _outputLengthHandler. cbn. destruct (n =? 0)%nat; reflexivity.
  - reflexivity.
  - reflexivity.
Qed.

Lemma NO_OUTPUTS_CLASS_steps fuel l hw :
  NO_OUTPUTS_CLASS (fst (steps fuel l hw)) =
  if is_code (snd hw)
  then match last_length l with
       | Some n => (n =? 0)%nat
       | None => NO_OUTPUTS_CLASS (fst hw)
       end
  else NO_OUTPUTS_CLASS (fst hw).
Proof.
  induction l as [|s l IH] using rev_ind.
  - cbn. destruct (is_code (snd hw)); reflexivity.
  - rewrite steps_app. cbn [steps]. rewrite NO_OUTPUTS_CLASS_step, is_code_steps, IH.
    unfold last_length. rewrite fold_left_app. cbn [fold_left].
    destruct s, (is_code (snd hw)); reflexivity.
Qed.

(** X21: the class ['jp-mod-noOutputs'].  A code cell has it when it is
    constructed over a record without outputs (its output area then holds
    no widget).  From then on the class
    follows the output area: in every state the cell reaches, it has the
    class exactly when the number of outputs last signalled is zero, or,
    if none was signalled yet, when the record had no outputs at
    construction.  No setter, method, notification or update request of the
    cell touches it, and a markdown or raw cell never has it. *)
Theorem NO_OUTPUTS_CLASS_follows_the_output_area
    (fuel : nat) (editor_option : bool) (t : CellType) (r : CellRecord)
    (l : list Step) :
  NO_OUTPUTS_CLASS (fst (steps fuel l (mounted editor_option t r))) =
  match t with
  | code => (default (length (outputs r)) (last_length l) =? 0)%nat
  | _ => false
  end.
Proof.
  rewrite NO_OUTPUTS_CLASS_steps. pose proof (sub_new_kind t r) as Hk.
  unfold mounted, is_code, Host_new. cbn [fst snd NO_OUTPUTS_CLASS].
  destruct t, (sub (new _ r)); try contradiction;
    destruct (last_length l); reflexivity.
Qed.

(** ** The guard of [CodeCell.onMetadataChanged] *)

Lemma saving_log e w : saving (log e w) = saving w.
Proof. reflexivity. Qed.

Lemma saving_with_data f w : saving (with_data f w) = saving w.
Proof. reflexivity. Qed.

Lemma saving_with_tx f w : saving (with_tx f w) = saving w.
Proof. reflexivity. Qed.

Lemma saving_setPrompt s w : saving (setPrompt s w) = saving w.
Proof. reflexivity. Qed.

Lemma saving_updateField_metadata key v w :
  saving (updateField_metadata key v w) = saving w.
Proof. reflexivity. Qed.

Lemma saving_updateField_executionCount n w :
  saving (updateField_executionCount n w) = saving w.
Proof. reflexivity. Qed.

Lemma saving_updateRecord n b w :
  saving (updateRecord n b w) = saving w.
Proof. reflexivity. Qed.

Lemma saving_set_outputsScrolled value w :
  saving (set_outputsScrolled value w) = saving w.
Proof.
  unfold set_outputsScrolled, saveScrolledState.
  destruct (_syncScrolled _); frame.
Qed.

Lemma saving_set_syncScrolled value w :
  saving (set_syncScrolled value w) = saving w.
Proof.
  unfold set_syncScrolled, loadScrolledState.
  destruct (Bool.eqb _ _); [reflexivity|]. destruct value; frame.
Qed.

Lemma saving_set_syncCollapse value w :
  saving (set_syncCollapse value w) = saving w.
Proof.
  unfold set_syncCollapse. rewrite loadCollapseState_id.
  destruct (Bool.eqb _ _); [reflexivity|]. destruct value; frame.
Qed.

Lemma saving_updateRenderedInput w :
  saving (snd (_updateRenderedInput w)) = saving w.
Proof.
  unfold _updateRenderedInput.
  destruct (negb (bool_decide _)); [|reflexivity].
  destruct (negb (_renderer _)); frame.
Qed.

Lemma saving_set_rendered value w :
  saving (set_rendered value w) = saving w.
Proof.
  unfold set_rendered. destruct (Bool.eqb _ _); [reflexivity|].
  assert (H : saving (_handleRendered
                (with_markdownCell (set_rendered_field value) w)) = saving w).
  { unfold _handleRendered, showEditor, renderInput.
    destruct (negb (_rendered _)).
    - frame.
    - rewrite saving_log, saving_updateRenderedInput. frame. }
  destruct (negb (_rendered _)); [rewrite saving_log|]; exact H.
Qed.

Section Saving.

Variable notify : Changes -> World -> World.
Hypothesis notify_saving : forall ch w, saving (notify ch w) = saving w.

Lemma saving_withTransaction body w :
  (forall w, saving (body w) = saving w) ->
  saving (withTransaction notify body w) = saving w.
Proof.
  intros Hbody. unfold withTransaction.
  rewrite notify_saving, saving_with_tx, saving_log, Hbody.
  reflexivity.
Qed.

Lemma saving_saveEditableState w :
  saving (saveEditableState notify w) = saving w.
Proof.
  unfold saveEditableState. destruct (_ || _); [reflexivity|].
  apply saving_withTransaction. intros w'.
  destruct (_readOnly _); reflexivity.
Qed.

Lemma saving_set_readOnly value w :
  saving (set_readOnly notify value w) = saving w.
Proof.
  unfold set_readOnly. destruct (Bool.eqb _ _); [reflexivity|].
  unfold update. rewrite saving_log.
  destruct (_syncEditable _); [rewrite saving_saveEditableState|]; frame.
Qed.

Lemma saving_loadEditableState w :
  saving (loadEditableState notify w) = saving w.
Proof. apply saving_set_readOnly. Qed.

Lemma saving_set_syncEditable value w :
  saving (set_syncEditable notify value w) = saving w.
Proof.
  unfold set_syncEditable. destruct (Bool.eqb _ _); [reflexivity|].
  destruct value; [rewrite saving_loadEditableState|]; frame.
Qed.

Lemma saving_onMetadataChanged args w :
  saving (onMetadataChanged notify args w) = saving w.
Proof.
  rewrite onMetadataChanged_eq.
  destruct (_ && _); [apply saving_loadEditableState | reflexivity].
Qed.

Lemma saving_listeners ch w :
  saving (listeners notify ch w) = saving w.
Proof.
  unfold listeners.
  set (w1 := match metadata_change ch with
             | Some args => onMetadataChanged notify args w
             | None => w
             end).
  assert (H1 : saving w1 = saving w).
  { subst w1. destruct (metadata_change ch);
      [apply saving_onMetadataChanged | reflexivity]. }
  rewrite <- H1. unfold onExecutionCountChanged.
  destruct (sub w1), (executionCount_change ch) as [[p [n|]]|]; reflexivity.
Qed.

End Saving.

Lemma saving_changed fuel ch w : saving (changed fuel ch w) = saving w.
Proof.
  revert ch w. induction fuel as [|fuel IH]; intros ch w; [reflexivity|].
  cbn [changed]. apply saving_listeners. exact IH.
Qed.

Lemma saving_set_inputHidden value w : saving (set_inputHidden value w) = saving w.
Proof.
  assert (same : forall (b : bool) (x : World), (if b then x else x) = x)
    by (intros [] ?; reflexivity).
  unfold set_inputHidden. destruct (Bool.eqb _ _); [reflexivity|].
  rewrite saveCollapseState_id, same.
  unfold handleInputHidden, CodeCell_handleInputHidden, Cell_handleInputHidden.
  destruct w as [cl [| m | c] d t tr]; destruct value; cbn;
    repeat match goal with |- context [if ?b then _ else _] => destruct b end;
    reflexivity.
Qed.

Lemma saving_set_outputHidden value w : saving (set_outputHidden value w) = saving w.
Proof.
  assert (same : forall (b : bool) (x : World), (if b then x else x) = x)
    by (intros [] ?; reflexivity).
  unfold set_outputHidden. destruct (Bool.eqb _ _); [reflexivity|].
  rewrite saveCollapseState_id, same.
  destruct w as [cl [| m | c] d t tr]; destruct value; cbn;
    repeat match goal with |- context [if ?b then _ else _] => destruct b end;
    reflexivity.
Qed.

Lemma saving_execute fuel session md w :
  saving (world_of (execute (changed fuel) session md w)) = saving w.
Proof.
  unfold execute. destruct (_ || _); cbn [world_of].
  - apply saving_withTransaction; [apply saving_changed | reflexivity].
  - unfold OutputArea_execute.
    set (w1 := withTransaction _ _ _).
    assert (H1 : saving w1 = saving w).
    { subst w1. rewrite saving_withTransaction;
        [apply saving_set_outputHidden | apply saving_changed | reflexivity]. }
    rewrite <- H1. destruct (kernel session); [frame | reflexivity].
Qed.

Lemma saving_execute_resume fuel saved s w :
  saving (snd (execute_resume (changed fuel) saved s w)) = saving w.
Proof.
  destruct s as [msg | e]; cbn.
  - apply saving_withTransaction; [apply saving_changed | reflexivity].
  - destruct (_ && _); reflexivity.
Qed.

Lemma saving_initializeState fuel w :
  saving (Cell_initializeState (changed fuel) w) = saving w /\
  saving (CodeCell_initializeState (changed fuel) w) = saving w.
Proof.
  assert (H : saving (Cell_initializeState (changed fuel) w) = saving w).
  { unfold Cell_initializeState. rewrite loadCollapseState_id.
    apply saving_loadEditableState, saving_changed. }
  split; [exact H|]. unfold CodeCell_initializeState, loadScrolledState.
  destruct (executionCount _) as [n|]; [destruct (n =? 0)%Z|];
    rewrite saving_setPrompt; exact H.
Qed.

Lemma saving_handleRendered w : saving (_handleRendered w) = saving w.
Proof.
  unfold _handleRendered, showEditor, renderInput.
  destruct (negb (_rendered _)); [reflexivity|].
  rewrite saving_log. apply saving_updateRenderedInput.
Qed.

Lemma saving_perform fuel a w : saving (perform fuel a w) = saving w.
Proof.
  pose proof (saving_changed fuel) as Hc.
  destruct a; cbn [perform]; destruct (sub w) eqn:Hs;
    first
      [ reflexivity
      | apply saving_set_readOnly, Hc
      | apply saving_set_inputHidden
      | apply saving_set_syncCollapse
      | apply saving_set_syncEditable, Hc
      | apply saving_saveEditableState, Hc
      | apply saving_loadEditableState, Hc
      | apply saving_initializeState
      | apply saving_set_outputHidden
      | apply saving_set_outputsScrolled
      | apply saving_set_syncScrolled
      | apply saving_execute
      | apply saving_execute_resume
      | apply saving_set_rendered
      | apply Hc ].
Qed.

Lemma saving_step fuel s hw : saving (snd (step fuel s hw)) = saving (snd hw).
Proof.
  destruct s; cbn [step].
  - apply saving_perform.
  - destruct (sub (snd hw)); try reflexivity.
    unfold debounced_render. cbn [snd]. destruct (_rendered _); reflexivity.
  - unfold onUpdateRequest, MarkdownCell_onUpdateRequest.
    destruct (sub (snd hw)); cbn [snd]; try reflexivity.
    apply saving_handleRendered.
  - destruct (sub (snd hw)); reflexivity.
  - reflexivity.
  - reflexivity.
Qed.

Lemma saving_steps fuel l hw : saving (snd (steps fuel l hw)) = saving (snd hw).
Proof.
  revert hw. induction l as [|s rest IH]; intros hw; [reflexivity|].
  cbn [steps]. rewrite IH. apply saving_step.
Qed.

Lemma saving_new t r : saving (new t r) = false.
Proof.
  pose proof (sub_new_kind t r) as Hk. unfold saving, codeCell.
  destruct t; try reflexivity.
  destruct (sub (new markdown r)); try contradiction; reflexivity.
Qed.

(** X22: the guard of [CodeCell.onMetadataChanged] never fires.  In every
    state a cell reaches from its constructor [_savingMetadata] is
    [false]: nothing sets it.  The branches for [scrolled] and [collapsed]
    load nothing either, so a code cell reacts to a change of the metadata
    exactly as [Cell.onMetadataChanged] does: it reloads its read-only
    state when the new value of [editable] is truthy and [syncEditable] is
    on, and does nothing otherwise. *)
Theorem onMetadataChanged_guard_never_fires
    (fuel : nat) (editor_option : bool) (t : CellType) (r : CellRecord)
    (l : list Step) (args : MapChange) :
  let w := snd (steps fuel l (mounted editor_option t r)) in
  _savingMetadata (codeCell w) = false /\
  onMetadataChanged (changed fuel) args w =
    Cell_onMetadataChanged (changed fuel) args w /\
  onMetadataChanged (changed fuel) args w =
    if truthy_at (current args) "editable" && _syncEditable (cell w)
    then loadEditableState (changed fuel) w else w.
Proof.
  cbn zeta. set (w := snd (steps fuel l (mounted editor_option t r))).
  assert (H : saving w = false).
  { unfold w. rewrite saving_steps. apply saving_new. }
  unfold saving in H. split; [exact H|].
  assert (E : onMetadataChanged (changed fuel) args w =
              if truthy_at (current args) "editable" && _syncEditable (cell w)
              then loadEditableState (changed fuel) w else w).
  { rewrite onMetadataChanged_eq, H, andb_true_r. reflexivity. }
  split; [|exact E].
  assert (same : forall (b : bool) (x : World), (if b then x else x) = x)
    by (intros [] ?; reflexivity).
  rewrite E. unfold Cell_onMetadataChanged. cbn zeta.
  rewrite loadCollapseState_id, !same.
  destruct (truthy_at (current args) "editable"), (_syncEditable (cell w));
    reflexivity.
Qed.

(** ** [dispose] *)

(** The subscriptions a widget of each class holds, in the order [dispose]
    releases them. *)
Lemma dispose_fresh (s : Subclass) (h : Host) :
  isDisposed h = false ->
  dispose s h =
  mkHost true false false
    (match s with Code _ => false | _ => _output h end)
    (released h ++
       match s with
       | Code _ => [OutputLengthChanged; ExecutionCountListener; MetadataListener]
       | Markdown _ => [TextListener; RenderDebouncer; MetadataListener]
       | RawCell => [MetadataListener]
       end)
    (editor_readOnly h) (READONLY_CLASS h) (NO_OUTPUTS_CLASS h).
Proof.
  intros H. destruct s; cbn;
    unfold CodeCell_dispose, MarkdownCell_dispose, Cell_dispose, Widget_dispose;
    rewrite H; cbn; rewrite ?H; cbn; rewrite <- ?app_assoc; reflexivity.
Qed.

Lemma dispose_disposed (s : Subclass) (h : Host) :
  isDisposed h = true -> dispose s h = h.
Proof.
  intros H. destruct s; cbn;
    unfold CodeCell_dispose, MarkdownCell_dispose, Cell_dispose; rewrite H;
    reflexivity.
Qed.

(** X17: [dispose] is idempotent.  A widget of any class, as constructed:
    disposing of it any number of times is disposing of it once.  It is then
    marked disposed, its references are nulled (the record and the input
    widgets of every cell; the output widgets and the rendermime registry
    of a code cell, which the other cells do not null), each of its
    subscriptions has been released exactly once, and an update request
    that still reaches [Cell.onUpdateRequest] changes nothing. *)
Theorem dispose_idempotent
    (editor_option : bool) (t : CellType) (r : CellRecord) (n : nat) (w : World) :
  let s := sub (new t r) in
  let h := fst (mounted editor_option t r) in
  let h' := Nat.iter (S n) (dispose s) h in
  h' = dispose s h /\
  isDisposed h' = true /\
  _data h' = false /\
  _input h' = false /\
  _output h' = match t with code => false | _ => true end /\
  released h' =
    match t with
    | code => [OutputLengthChanged; ExecutionCountListener; MetadataListener]
    | markdown => [TextListener; RenderDebouncer; MetadataListener]
    | raw => [MetadataListener]
    end /\
  Cell_onUpdateRequest h' w = h'.
Proof.
  cbn zeta. set (s := sub (new t r)). set (h := fst (mounted editor_option t r)).
  assert (Hh : isDisposed h = false) by reflexivity.
  assert (Hd : isDisposed (dispose s h) = true)
    by (rewrite dispose_fresh by exact Hh; reflexivity).
  assert (Hn : Nat.iter (S n) (dispose s) h = dispose s h).
  { induction n as [|n IH]; [reflexivity|].
    change (Nat.iter (S (S n)) (dispose s) h)
      with (dispose s (Nat.iter (S n) (dispose s) h)).
    rewrite IH. apply dispose_disposed, Hd. }
  rewrite Hn. split; [reflexivity|]. split; [exact Hd|].
  rewrite dispose_fresh by exact Hh. cbn.
  pose proof (sub_new_kind t r) as Hk. subst s.
  repeat split; destruct t, (sub (new _ r)); try contradiction; reflexivity.
Qed.

(** ** [initializeState] and the sync flags *)

Lemma data_set_readOnly_unsynced fuel value w :
  _syncEditable (cell w) = false ->
  data (set_readOnly (changed fuel) value w) = data w /\
  transactions (trace (set_readOnly (changed fuel) value w)) = transactions (trace w).
Proof.
  intros H. rewrite set_readOnly_trace, transactions_app, H.
  unfold set_readOnly. destruct (Bool.eqb _ _); [cbn; split; [reflexivity | lia]|].
  cbn zeta. cbn [with_cell cell set_readOnly_field _syncEditable].
  rewrite H. cbn. split; [reflexivity | lia].
Qed.

(** X18: [initializeState] reads and does not write.  On a cell just
    constructed, of any kind, it leaves the record as it is and opens no
    transaction.  It makes the cell read-only exactly when the metadata has
    [editable === false].  It does not look at the metadata for collapsed
    input, collapsed output or scrolled output: the input and the output
    stay shown and [outputsScrolled] stays undefined, whatever the record
    holds.  On a code cell whose execution count is [null] or a safe
    integer the prompt becomes the count in decimal, or the empty string
    for [null] and for [0]. *)
Theorem initializeState_reads_only (fuel : nat) (t : CellType) (r : CellRecord) :
  (forall n, executionCount r = Some n -> is_safe_integer n = true) ->
  let w := perform fuel InitializeState (new t r) in
  data w = r /\
  transactions (trace w) = 0 /\
  _readOnly (cell w) = is_false_at (metadata r) "editable" /\
  _inputHidden (cell w) = false /\
  _outputHidden (codeCell w) = false /\
  _outputsScrolled (codeCell w) = None /\
  prompt (cell w) =
    match t, executionCount r with
    | code, Some n => if (n =? 0)%Z then [] else number_to_string n
    | _, _ => []
    end.
Proof.
  intros _. cbn zeta.
  assert (Hnew : data (new t r) = r /\ _syncEditable (cell (new t r)) = false /\
                 transactions (trace (new t r)) = 0 /\
                 _readOnly (cell (new t r)) = false /\
                 _inputHidden (cell (new t r)) = false /\
                 prompt (cell (new t r)) = [] /\
                 _outputHidden (codeCell (new t r)) = false /\
                 _outputsScrolled (codeCell (new t r)) = None).
  { destruct t; cbn [new]; try (cbn; auto 10; fail).
    unfold MarkdownCell_new, renderInput, _updateRenderedInput. cbn.
    destruct (negb (bool_decide _)); cbn; auto 10. }
  destruct Hnew as (Hd & Hs & Ht & Hr & Hi & Hp & Ho & Hsc).
  set (w0 := new t r) in *.
  set (w1 := Cell_initializeState (changed fuel) w0).
  assert (H1 : data w1 = r /\ transactions (trace w1) = 0 /\
               cell w1 = set_readOnly_field (is_false_at (metadata r) "editable")
                           (cell w0) /\
               sub w1 = sub w0).
  { subst w1. unfold Cell_initializeState. rewrite loadCollapseState_id.
    unfold loadEditableState. rewrite Hd.
    destruct (data_set_readOnly_unsynced fuel
                (is_false_at (metadata r) "editable") w0 Hs) as [E1 E2].
    destruct (set_readOnly_view fuel (is_false_at (metadata r) "editable") w0)
      as [E3 E4].
    rewrite E1, E2, E3, E4, Hd, Ht, Hr.
    repeat split. destruct (Bool.eqb _ false) eqn:E; [|reflexivity].
    apply Bool.eqb_prop in E. rewrite E, <- Hr. destruct (cell w0); reflexivity. }
  destruct H1 as (D1 & T1 & C1 & S1).
  assert (Hcc : codeCell w1 = codeCell w0) by (unfold codeCell; rewrite S1; reflexivity).
  destruct t.
  - (* code *)
    change (perform fuel InitializeState w0)
      with (CodeCell_initializeState (changed fuel) w0).
    unfold CodeCell_initializeState, loadScrolledState. cbn zeta. fold w1.
    rewrite D1.
    assert (Hc' : forall e f, codeCell (log e (with_cell f w1)) = codeCell w0)
      by (intros; exact Hcc).
    destruct (executionCount r) as [n|]; [destruct (n =? 0)%Z|];
      unfold setPrompt; cbn [log with_cell data trace cell sub];
      rewrite ?transactions_app, ?T1, ?D1, ?C1, !Hc';
      cbn [set_prompt_field set_readOnly_field _inputHidden _readOnly prompt];
      repeat split; assumption.
  - (* markdown *)
    replace (perform fuel InitializeState w0) with w1.
    + rewrite D1, T1, C1, Hcc. cbn. auto 10.
    + subst w1. pose proof (sub_new_kind markdown r) as Hk. fold w0 in Hk.
      unfold perform. destruct (sub w0); try contradiction; reflexivity.
  - (* raw *)
    change (perform fuel InitializeState w0) with w1.
    rewrite D1, T1, C1, Hcc. cbn. auto 10.
Qed.

(** A code cell over a record executed three times, collapsed in the
    metadata. *)
Lemma initializeState_reads_only_witness :
  let r := mkRecord (js "c1") (js "x = 1")
             {["collapsed" := JBool true; "editable" := JBool false]}
             (Some 3%Z) false [] in
  let w := perform 1 InitializeState (new code r) in
  (forall n, executionCount r = Some n -> is_safe_integer n = true) /\
  data w = r /\
  _readOnly (cell w) = true /\
  _outputHidden (codeCell w) = false /\
  prompt (cell w) = js "3".
Proof.
  intros r w.
  assert (H : forall n, executionCount r = Some n -> is_safe_integer n = true)
    by (intros n [= <-]; reflexivity).
  split; [exact H|].
  destruct (initializeState_reads_only 1 code r H) as (E1 & _ & E2 & _ & E3 & _ & E4).
  split; [exact E1|]. split; [exact E2|]. split; [exact E3 | exact E4].
Defined.

(** X19: with [syncEditable] off the read-only state is the view's alone,
    and switching the flag on pulls the state from the record.  For a cell
    with [syncEditable] off, [set readOnly] does not touch the record and
    opens no transaction; [set syncEditable(true)] then makes the cell
    read-only exactly when the metadata has [editable === false], and does
    not change whether it has. *)
Theorem syncEditable_off_and_on (fuel : nat) (value : bool) (w : World) :
  _syncEditable (cell w) = false ->
  let w1 := set_readOnly (changed fuel) value w in
  let w2 := set_syncEditable (changed fuel) true w1 in
  data w1 = data w /\
  transactions (trace w1) = transactions (trace w) /\
  _readOnly (cell w1) = value /\
  _syncEditable (cell w2) = true /\
  _readOnly (cell w2) = is_false_at (metadata (data w)) "editable" /\
  is_false_at (metadata (data w2)) "editable" =
    is_false_at (metadata (data w)) "editable".
Proof.
  intros Hs. cbn zeta.
  destruct (data_set_readOnly_unsynced fuel value w Hs) as [Hd Ht].
  set (w1 := set_readOnly (changed fuel) value w) in *.
  assert (Hs1 : _syncEditable (cell w1) = false).
  { subst w1. destruct (set_readOnly_view fuel value w) as [-> _].
    destruct (Bool.eqb _ _); [exact Hs|]. destruct (cell w); exact Hs. }
  split; [exact Hd|]. split; [exact Ht|].
  split; [apply set_readOnly_readOnly|].
  unfold set_syncEditable. rewrite Hs1. cbn [Bool.eqb]. cbn zeta.
  set (w1' := with_cell (set_syncEditable_field true) w1).
  assert (Hd' : data w1' = data w) by exact Hd.
  rewrite <- Hd'.
  split; [|split].
  - unfold loadEditableState.
    destruct (set_readOnly_view fuel (is_false_at (metadata (data w1')) "editable") w1')
      as [-> _].
    assert (Hse : _syncEditable (cell w1') = true) by reflexivity.
    destruct (Bool.eqb _ _); [exact Hse|].
    rewrite <- Hse. destruct (cell w1'); reflexivity.
  - apply loadEditableState_readOnly.
  - apply loadEditableState_is_false_at.
Qed.

(** A cell over a record that says read-only, [syncEditable] still off. *)
Lemma syncEditable_off_and_on_witness :
  let r := mkRecord (js "c1") (js "x = 1") {["editable" := JBool false]} None false [] in
  let w := RawCell_new r in
  _syncEditable (cell w) = false /\
  data (set_readOnly (changed 1) false w) = data w /\
  _readOnly (cell (set_syncEditable (changed 1) true
                     (set_readOnly (changed 1) false w))) = true.
Proof.
  intros r w.
  assert (H : _syncEditable (cell w) = false) by reflexivity.
  split; [exact H|].
  destruct (syncEditable_off_and_on 1 false w H) as (E1 & _ & _ & _ & E2 & _).
  split; [exact E1 | exact E2].
Defined.

Lemma collapse_setters_trace_data w value :
  (data (set_inputHidden value w) = data w /\
   transactions (trace (set_inputHidden value w)) = transactions (trace w)) /\
  (data (set_outputHidden value w) = data w /\
   transactions (trace (set_outputHidden value w)) = transactions (trace w)).
Proof.
  assert (same : forall (b : bool) (x : World), (if b then x else x) = x)
    by (intros [] ?; reflexivity).
  split.
  - unfold set_inputHidden. destruct (Bool.eqb _ _); [auto|].
    rewrite saveCollapseState_id, same.
    unfold handleInputHidden, CodeCell_handleInputHidden, Cell_handleInputHidden.
    destruct w as [cl [| m | c] d t tr]; destruct value; cbn -[transactions];
      repeat match goal with |- context [if ?b then _ else _] => destruct b end;
      cbn -[transactions]; rewrite ?transactions_app; cbn; split;
      try reflexivity; lia.
  - rewrite set_outputHidden_trace, transactions_app.
    split.
    + unfold set_outputHidden. destruct (Bool.eqb _ _); [auto|].
      rewrite saveCollapseState_id, same.
      destruct w as [cl [| m | c] d t tr]; destruct value; cbn;
        repeat match goal with |- context [if ?b then _ else _] => destruct b end;
        reflexivity.
    + destruct (Bool.eqb _ _); [cbn; lia|]. destruct value.
      * destruct (_ && _); cbn; lia.
      * destruct (_outputWrapper_isHidden _); cbn; lia.
Qed.

(** X20: collapsing is view state only.  Whatever the sync flags, setting
    [inputHidden] or [outputHidden], and switching [syncCollapse], leave the
    record as it is and open no transaction: the collapsed state of input
    and output is never written to the metadata. *)
Theorem collapse_is_never_persisted (value : bool) (w : World) :
  (data (set_inputHidden value w) = data w /\
   transactions (trace (set_inputHidden value w)) = transactions (trace w)) /\
  (data (set_outputHidden value w) = data w /\
   transactions (trace (set_outputHidden value w)) = transactions (trace w)) /\
  (data (set_syncCollapse value w) = data w /\
   trace (set_syncCollapse value w) = trace w /\
   _inputHidden (cell (set_syncCollapse value w)) = _inputHidden (cell w) /\
   codeCell (set_syncCollapse value w) = codeCell w).
Proof.
  destruct (collapse_setters_trace_data w value) as [H1 H2].
  split; [exact H1|]. split; [exact H2|].
  unfold set_syncCollapse. rewrite loadCollapseState_id.
  destruct (Bool.eqb _ _); [auto|]. destruct value; cbn; auto.
Qed.
